(** * media_encoder: the serverless video job handler (src/handler.py)

    A shallow embedding of [handler.py] and the properties of its job
    pipeline: configuration check, input validation, scratch directories,
    download, transcode, thumbnails, analysis placeholder, publish and
    cleanup.

    Modelling conventions.
    - Python values that cross the handler boundary (the job argument and
      the response) are [pyval]s; dictionaries are [gmap string pyval].
    - The code runs in a state-and-exception monad [M] over a [world]
      holding the local filesystem, standard output and the log of calls
      made to the operating system and to the external collaborators.
    - Everything the code does not decide itself is read from an [Env]:
      the process environment, the random bytes behind [uuid.uuid4], the
      outcome of every object-storage transfer and of every [ffmpeg] run,
      and Python's [str] on exceptions.
    - Strings are byte strings; Python compares [str] by code point, which
      for UTF-8 text is the byte-wise order of [String.compare].
    - Every exception of the model is a subclass of [Exception];
      [KeyboardInterrupt] and [SystemExit] are left out, and [print] is
      taken never to fail.
    - [handler] runs in a process whose import of the module completed:
      [module_init] gives the globals it reads. [import_module] is the
      import itself, with the construction of the storage client as a
      step that can raise.
    - [Fs.matches] is [glob.glob] for a pathname whose directory part
      holds no pattern character ([Fs.has_magic]), as is the case for
      the scratch directories of a job. *)

From Stdlib Require Import ZArith String Ascii List Lia.
From stdpp Require Import gmap strings list fin_maps sorting.

#[local] Set Warnings "-register-all".
#[local] Open Scope string_scope.
#[local] Open Scope Z_scope.

(** ** Python strings *)

Module PyStr.

(** [p.rfind(c)]: index of the last occurrence of [c], or [-1]. *)
Fixpoint rfind_from (c : ascii) (p : string) (i acc : Z) : Z :=
  match p with
  | EmptyString => acc
  | String a r => rfind_from c r (i + 1) (if Ascii.eqb a c then i else acc)
  end.

Definition rfind (c : ascii) (p : string) : Z := rfind_from c p 0 (-1).

(** [p[i:]] and [p[:i]] for an index [0 <= i]. *)
Definition slice_from (i : Z) (p : string) : string :=
  String.substring (Z.to_nat i) (String.length p - Z.to_nat i) p.

Definition slice_to (i : Z) (p : string) : string :=
  String.substring 0 (Z.to_nat i) p.

(** [p.startswith(q)] *)
Fixpoint startswith (q p : string) : bool :=
  match q, p with
  | EmptyString, _ => true
  | String a q', String b p' => Ascii.eqb a b && startswith q' p'
  | String _ _, EmptyString => false
  end.

(** [p.endswith(q)] *)
Definition endswith (q p : string) : bool :=
  (String.length q <=? String.length p)%nat &&
  String.eqb (String.substring (String.length p - String.length q) (String.length q) p) q.

(** [p.endswith("/")] *)
Fixpoint endswith_sep (p : string) : bool :=
  match p with
  | EmptyString => false
  | String a EmptyString => Ascii.eqb a "/"
  | String _ r => endswith_sep r
  end.

(** [p == "/" * len(p)] *)
Fixpoint all_sep (p : string) : bool :=
  match p with
  | EmptyString => true
  | String a r => Ascii.eqb a "/" && all_sep r
  end.

(** [p.rstrip("/")] *)
Fixpoint rstrip_sep (p : string) : string :=
  match p with
  | EmptyString => EmptyString
  | String a r =>
      match rstrip_sep r with
      | EmptyString => if Ascii.eqb a "/" then EmptyString else String a EmptyString
      | r' => String a r'
      end
  end.

(** ["c" in p] *)
Fixpoint contains (c : ascii) (p : string) : bool :=
  match p with
  | EmptyString => false
  | String a r => Ascii.eqb a c || contains c r
  end.

(** Decimal digits of a natural number, as [str(n)] and ["%d" % n] print
    them. *)
Definition digit (d : N) : ascii := ascii_of_N (48 + d).

Fixpoint decimal_go (fuel : nat) (n : N) (acc : string) : string :=
  match fuel with
  | O => acc
  | S fuel' =>
      let acc' := String (digit (n mod 10)) acc in
      if (n / 10 =? 0)%N then acc' else decimal_go fuel' (n / 10)%N acc'
  end.

Definition decimal (n : N) : string :=
  decimal_go (S (N.to_nat (N.log2 n))) n EmptyString.

(** ["0" * k] *)
Fixpoint zeros (k : nat) : string :=
  match k with
  | O => EmptyString
  | S k' => String "0" (zeros k')
  end.

(** C's [%03d] on a non-negative number: the decimal digits, padded on the
    left with zeros up to width three; wider numbers are not truncated. *)
Definition format_03d (n : N) : string :=
  let s := decimal n in
  zeros (3 - String.length s) +:+ s.

(** Lower-case hexadecimal, most significant digit first, [k] digits:
    ["%0kx" % z] for [0 <= z < 16^k]. *)
Definition hex_digit (d : Z) : ascii :=
  if d <? 10 then ascii_of_N (Z.to_N (48 + d)) else ascii_of_N (Z.to_N (87 + d)).

Fixpoint hex (k : nat) (z : Z) : string :=
  match k with
  | O => EmptyString
  | S k' =>
      String (hex_digit (Z.land (Z.shiftr z (4 * Z.of_nat k')) 15)) (hex k' z)
  end.

End PyStr.

(** ** [os.path] on POSIX (posixpath.py, genericpath.py) *)

Module OsPath.
Import PyStr.

(** [os.path.basename(p)]: [p[p.rfind("/") + 1:]] *)
Definition basename (p : string) : string :=
  let i := rfind "/" p + 1 in
  slice_from i p.

(** [os.path.split(p)] *)
Definition split (p : string) : string * string :=
  let i := rfind "/" p + 1 in
  let head := slice_to i p in
  let tail := slice_from i p in
  let head :=
    if negb (String.eqb head "") && negb (all_sep head)
    then rstrip_sep head else head in
  (head, tail).

(** [os.path.join(a, b)] *)
Definition join (a b : string) : string :=
  if startswith "/" b then b
  else if String.eqb a "" || endswith_sep a then a +:+ b
  else a +:+ "/" +:+ b.

(** The loop of [genericpath._splitext] that skips the leading dots of the
    file name: it looks at the characters from [filenameIndex] up to
    [dotIndex] and splits at [dotIndex] as soon as one of them is not a
    dot. [steps] bounds the iterations ([dotIndex - filenameIndex] are
    enough). *)
Fixpoint splitext_loop (steps : nat) (p : string) (filenameIndex dotIndex : Z)
  : string * string :=
  match steps with
  | O => (p, EmptyString)
  | S steps' =>
      if filenameIndex <? dotIndex then
        if negb (String.eqb (String.substring (Z.to_nat filenameIndex) 1 p) ".")
        then (slice_to dotIndex p, slice_from dotIndex p)
        else splitext_loop steps' p (filenameIndex + 1) dotIndex
      else (p, EmptyString)
  end.

(** [os.path.splitext(p)] *)
Definition splitext (p : string) : string * string :=
  let sepIndex := rfind "/" p in
  let dotIndex := rfind "." p in
  if sepIndex <? dotIndex then
    splitext_loop (S (String.length p)) p (sepIndex + 1) dotIndex
  else (p, EmptyString).

End OsPath.

(** ** [fnmatch] and the hidden-file rule of [glob] *)

Module Fnmatch.

(** [fnmatch.fnmatchcase(name, pat)] for patterns made of literal
    characters, [*] and [?] (the patterns of this program have no
    bracket expression). *)
Fixpoint fnmatch (pat name : string) : bool :=
  match pat with
  | EmptyString => match name with EmptyString => true | _ => false end
  | String c pat' =>
      if Ascii.eqb c "*" then
        (fix star (s : string) : bool :=
           fnmatch pat' s ||
           match s with
           | EmptyString => false
           | String _ s' => star s'
           end) name
      else
        match name with
        | EmptyString => false
        | String d name' =>
            (Ascii.eqb c "?" || Ascii.eqb c d) && fnmatch pat' name'
        end
  end.

(** [glob._ishidden(name)]: [name[0] == "."] *)
Definition ishidden (name : string) : bool :=
  match name with
  | String a _ => Ascii.eqb a "."
  | EmptyString => false
  end.

End Fnmatch.

(** ** Python values, exceptions and the world *)

(** The JSON-like values that reach and leave [handler]. *)
Inductive pyval :=
| PNone
| PBool (b : bool)
| PInt (z : Z)
| PStr (s : string)
| PList (l : list pyval)
| PDict (d : gmap string pyval).

(** The exceptions of the program; all of them are subclasses of
    [Exception]. [OSError] stands for the class and its subclasses
    ([FileExistsError], [FileNotFoundError], [IsADirectoryError], ...),
    told apart by [errno]. [StorageError] is whatever the object-storage
    client raises. *)
Inductive exn :=
| KeyError (key : string)
| TypeError (msg : string)
| NameError (name : string)
| OSError (errno : Z) (filename : string)
| CalledProcessError (returncode : Z) (cmd : list string)
| StorageError (msg : string)
| RandomSourceError.

Definition EEXIST : Z := 17.
Definition ENOENT : Z := 2.
Definition ENOTDIR : Z := 20.
Definition EISDIR : Z := 21.
Definition ENOTEMPTY : Z := 39.

Definition is_KeyError (e : exn) : bool :=
  match e with KeyError _ => true | _ => false end.

(** [except Exception]: every exception of the program is caught. *)
Definition is_Exception (e : exn) : bool := true.

Inductive node := File | Dir.

(** The calls that leave the interpreter, in the order they are made. *)
Inductive call :=
| Makedirs (path : string)
| Remove (path : string)
| Rmdir (path : string)
| Download (bucket key filename : string)
| Upload (filename bucket key : string)
| Subprocess (cmd : list string).

(** [fs] maps the absolute path of every file and directory below the
    temporary root to its kind; [stdout] holds the printed lines, oldest
    first; [calls] the calls made so far, oldest first. *)
Record world := World {
  fs : gmap string node;
  stdout : list string;
  calls : list call
}.

Inductive outcome (A : Type) :=
| Ok (a : A)
| Raise (e : exn).
Arguments Ok {A} a.
Arguments Raise {A} e.

Definition M (A : Type) : Type := world → outcome A * world.

#[export] Instance M_ret : MRet M := λ A a w, (Ok a, w).

#[export] Instance M_bind : MBind M := λ A B f m w,
  match m w with
  | (Ok a, w') => f a w'
  | (Raise e, w') => (Raise e, w')
  end.

Definition raise {A} (e : exn) : M A := λ w, (Raise e, w).

(** [try: body except <catches> as e: handle e] *)
Definition try_except {A} (body : M A) (catches : exn → bool) (handle : exn → M A) : M A :=
  λ w,
    match body w with
    | (Ok a, w') => (Ok a, w')
    | (Raise e, w') => if catches e then handle e w' else (Raise e, w')
    end.

(** [try: x = body except <catches>: return (handle e)] followed by the
    rest of the function, [rest x], which the [try] does not cover. *)
Definition try_or_return {A B} (body : M A) (catches : exn → bool)
    (handle : exn → M B) (rest : A → M B) : M B :=
  λ w,
    match body w with
    | (Ok a, w') => rest a w'
    | (Raise e, w') => if catches e then handle e w' else (Raise e, w')
    end.

(** [try: body finally: final]. The [finally] suite runs on every exit of
    [body]; when it raises, its exception replaces the value that [body]
    was returning or the exception that [body] was raising. *)
Definition try_finally {A} (body : M A) (final : M unit) : M A :=
  λ w,
    match body w with
    | (r, w') =>
        match final w' with
        | (Ok _, w'') => (r, w'')
        | (Raise e, w'') => (Raise e, w'')
        end
    end.

(** [for x in l: body x] *)
Fixpoint for_each {A} (l : list A) (body : A → M unit) : M unit :=
  match l with
  | [] => mret tt
  | x :: l' => body x ;; for_each l' body
  end.

Definition get_fs : M (gmap string node) := λ w, (Ok (fs w), w).

Definition set_fs (f : gmap string node) : M unit :=
  λ w, (Ok tt, World f (stdout w) (calls w)).

Definition log (c : call) : M unit :=
  λ w, (Ok tt, World (fs w) (stdout w) (calls w ++ [c])).

(** [print(line)] *)
Definition print (line : string) : M unit :=
  λ w, (Ok tt, World (fs w) (stdout w ++ [line]) (calls w)).

(** [v[k]] for a string [k]. *)
Definition subscript (v : pyval) (k : string) : M pyval :=
  match v with
  | PDict d =>
      match d !! k with
      | Some x => mret x
      | None => raise (KeyError k)
      end
  | PList _ => raise (TypeError "list indices must be integers or slices, not str")
  | PStr _ => raise (TypeError "string indices must be integers, not 'str'")
  | PNone => raise (TypeError "'NoneType' object is not subscriptable")
  | PBool _ => raise (TypeError "'bool' object is not subscriptable")
  | PInt _ => raise (TypeError "'int' object is not subscriptable")
  end.

(** [type(v).__name__] *)
Definition type_name (v : pyval) : string :=
  match v with
  | PNone => "NoneType"
  | PBool _ => "bool"
  | PInt _ => "int"
  | PStr _ => "str"
  | PList _ => "list"
  | PDict _ => "dict"
  end.

(** [os.fspath(v)] as [os.path.basename] and [os.path.splitext] apply it
    to their argument: a [str] passes, any other JSON value is refused
    with the name of its type. *)
Definition fspath (v : pyval) : M string :=
  match v with
  | PStr s => mret s
  | _ => raise (TypeError ("expected str, bytes or os.PathLike object, not " +:+ type_name v))
  end.

(** ** The local filesystem *)

Module Fs.
Import PyStr.

(** [child_name d p] is [Some n] when [p] is the entry named [n] of the
    directory [d], that is [p = d/n] with [n] a single path component. *)
Definition child_name (d p : string) : option string :=
  let pre := d +:+ "/" in
  if startswith pre p then
    let n := slice_from (Z.of_nat (String.length pre)) p in
    if String.eqb n "" || contains "/" n then None else Some n
  else None.

(** [os.listdir(d)] in the order the map enumerates its keys; empty when
    [d] is not a directory ([glob] treats the error that way). *)
Definition listdir (d : string) (f : gmap string node) : list string :=
  match f !! d with
  | Some Dir => omap (λ kv, child_name d kv.1) (map_to_list f)
  | _ => []
  end.

(** [os.path.exists(p)] *)
Definition exists_ (p : string) : M bool :=
  f ← get_fs; mret (bool_decide (is_Some (f !! p))).

(** [os.makedirs(p, exist_ok=True)] for a directory directly below the
    temporary root, which is taken to exist. *)
Definition makedirs (p : string) : M unit :=
  log (Makedirs p) ;;
  f ← get_fs;
  match f !! p with
  | Some Dir => mret tt
  | Some File => raise (OSError EEXIST p)
  | None => set_fs (<[p := Dir]> f)
  end.

(** [os.remove(p)] *)
Definition remove (p : string) : M unit :=
  log (Remove p) ;;
  f ← get_fs;
  match f !! p with
  | Some File => set_fs (delete p f)
  | Some Dir => raise (OSError EISDIR p)
  | None => raise (OSError ENOENT p)
  end.

(** [os.rmdir(p)] *)
Definition rmdir (p : string) : M unit :=
  log (Rmdir p) ;;
  f ← get_fs;
  match f !! p with
  | Some Dir =>
      match listdir p f with
      | [] => set_fs (delete p f)
      | _ :: _ => raise (OSError ENOTEMPTY p)
      end
  | Some File => raise (OSError ENOTDIR p)
  | None => raise (OSError ENOENT p)
  end.

(** Whether [open(p, "wb")] can create or truncate the file [p]: [p] must
    name a file (not end in a separator, not be [.] or [..], not be an
    existing directory) inside an existing directory. *)
Definition writable (p : string) (f : gmap string node) : option exn :=
  let '(d, n) := OsPath.split p in
  if String.eqb n "" || String.eqb n "." || String.eqb n ".." then Some (OSError EISDIR p)
  else match f !! p with
       | Some Dir => Some (OSError EISDIR p)
       | _ => match f !! d with
              | Some Dir => None
              | Some File => Some (OSError ENOTDIR p)
              | None => Some (OSError ENOENT p)
              end
       end.

(** A program writes the file [p]; nothing happens when it cannot. *)
Definition write_file (p : string) (f : gmap string node) : gmap string node :=
  match writable p f with
  | None => <[p := File]> f
  | Some _ => f
  end.

(** [glob.has_magic(s)]: whether [s] holds one of the characters that
    [glob] reads as a pattern. *)
Definition has_magic (s : string) : bool :=
  contains "*" s || contains "?" s || contains "[" s.

(** What [glob.glob(pathname)] finds in the filesystem [f], for a
    pathname whose directory part is literal, that is without
    [has_magic], and whose last component is a pattern: the entries of
    that directory that match the pattern, joined to the directory.
    Entries starting with a dot are skipped unless the pattern itself
    starts with a dot. The scratch directories of the handler,
    [/tmp/<uuid>_input] and [/tmp/<uuid>_output], are literal. *)
Definition matches (pathname : string) (f : gmap string node) : list string :=
  let '(dirname, pattern) := OsPath.split pathname in
  let names := listdir dirname f in
  let names :=
    if Fnmatch.ishidden pattern then names
    else filter (λ n, Fnmatch.ishidden n = false) names in
  map (OsPath.join dirname) (filter (λ n, Fnmatch.fnmatch pattern n = true) names).

(** [glob.glob(pathname)] *)
Definition glob (pathname : string) : M (list string) :=
  f ← get_fs; mret (matches pathname f).

End Fs.

(** ** The process environment and the external collaborators *)

(** What the code reads from outside.
    - [environ]: [os.environ], unchanged while the process runs.
    - [urandom16]: the sixteen bytes [os.urandom(16)] hands to
      [uuid.uuid4], read as a big-endian integer; [None] when the system
      has no randomness source.
    - [download_result bucket key filename] and
      [upload_result filename bucket key]: [None] when the transfer
      succeeds, the exception the storage client raises otherwise.
    - [ffmpeg_result command]: [None] when the executable cannot be
      started, otherwise its exit status and the number of output files
      it wrote before exiting.
    - [str_exn]: Python's [str(e)]. *)
Record Env := {
  environ : gmap string string;
  urandom16 : option Z;
  download_result : string → string → string → option exn;
  upload_result : string → string → string → option exn;
  ffmpeg_result : list string → option (Z * nat);
  str_exn : exn → string
}.

(** The client object built by [boto3.client]. *)
Record s3_client := S3Client {
  endpoint_url : string;
  aws_access_key_id : string;
  aws_secret_access_key : string;
  region_name : string
}.

(** The module-level names after import. A name that was never assigned
    is [None]; [S3_ENDPOINT_URL] is always assigned, its value is a string
    or Python's [None]. *)
Record globals := Globals {
  CLOUDFLARE_ACCOUNT_ID : option string;
  S3_ACCESS_KEY : option string;
  S3_SECRET_KEY : option string;
  S3_BUCKET_NAME : option string;
  S3_ENDPOINT_URL : option string;
  s3 : option s3_client
}.

(** The two lines printed when a variable is missing. *)
Definition startup_alert (missing : string) : list string :=
  [ "Fatal: Missing environment variable: " +:+ missing;
    "Please set CLOUDFLARE_ACCOUNT_ID, CLOUDFLARE_R2_ACCESS_KEY_ID, CLOUDFLARE_R2_SECRET_ACCESS_KEY, and CLOUDFLARE_R2_BUCKET_NAME" ].

(** Truth value of a string or [None]. *)
Definition truthy (v : option string) : bool :=
  match v with
  | Some s => negb (String.eqb s "")
  | None => false
  end.

(** [if S3_ENDPOINT_URL: s3 = boto3.client(...)] (lines 26-33) in a
    process that started, that is when [boto3.client] returned the
    client; [import_module] below covers its failure. *)
Definition init_client (g : globals) : globals :=
  if truthy (S3_ENDPOINT_URL g) then
    Globals (CLOUDFLARE_ACCOUNT_ID g) (S3_ACCESS_KEY g) (S3_SECRET_KEY g)
      (S3_BUCKET_NAME g) (S3_ENDPOINT_URL g)
      (Some (S3Client (default "" (S3_ENDPOINT_URL g)) (default "" (S3_ACCESS_KEY g))
               (default "" (S3_SECRET_KEY g)) "auto"))
  else g.

(** The module body, lines 9-33, of a process that started: the four
    variables are read in order; the first missing one raises [KeyError],
    which leaves the later names unassigned and sets
    [S3_ENDPOINT_URL = None]. Returns the globals and the lines printed at
    start-up. *)
Definition module_init (env : gmap string string) : globals * list string :=
  match env !! "CLOUDFLARE_ACCOUNT_ID" with
  | None => (init_client (Globals None None None None None None),
             startup_alert "CLOUDFLARE_ACCOUNT_ID")
  | Some account =>
  match env !! "CLOUDFLARE_R2_ACCESS_KEY_ID" with
  | None => (init_client (Globals (Some account) None None None None None),
             startup_alert "CLOUDFLARE_R2_ACCESS_KEY_ID")
  | Some access =>
  match env !! "CLOUDFLARE_R2_SECRET_ACCESS_KEY" with
  | None => (init_client (Globals (Some account) (Some access) None None None None),
             startup_alert "CLOUDFLARE_R2_SECRET_ACCESS_KEY")
  | Some secret =>
  match env !! "CLOUDFLARE_R2_BUCKET_NAME" with
  | None => (init_client (Globals (Some account) (Some access) (Some secret) None None None),
             startup_alert "CLOUDFLARE_R2_BUCKET_NAME")
  | Some bucket =>
      (init_client (Globals (Some account) (Some access) (Some secret) (Some bucket)
                      (Some ("https://" +:+ account +:+ ".r2.cloudflarestorage.com")) None),
       [])
  end end end end.

(** The import of the module when the construction of the client can
    fail. [boto_client c] is [None] when [boto3.client] builds the client
    [c] and the exception it raises otherwise (it refuses an endpoint
    that is not a valid URL, such as the one made from an empty account
    identifier). An exception at line 27 is not caught: the import fails
    and the module has no globals for [handler] to read. *)
Definition import_module (boto_client : s3_client → option exn)
    (env : gmap string string) : outcome (globals * list string) :=
  let r := module_init env in
  match s3 r.1 with
  | None => Ok r
  | Some c =>
      match boto_client c with
      | None => Ok r
      | Some e => Raise e
      end
  end.

(** Reading a module-level name. *)
Definition global {A} (name : string) (v : option A) : M A :=
  match v with
  | Some a => mret a
  | None => raise (NameError name)
  end.

(** ** [uuid.uuid4] and [str] of a UUID (uuid.py) *)

Module Uuid.

(** [UUID(bytes=..., version=4)]: the variant bits are set to RFC 4122
    and the version nibble to 4. *)
Definition with_version4 (int : Z) : Z :=
  let int := Z.land int (Z.lnot (Z.shiftl 0xc000 48)) in
  let int := Z.lor int (Z.shiftl 0x8000 48) in
  let int := Z.land int (Z.lnot (Z.shiftl 0xf000 64)) in
  Z.lor int (Z.shiftl 4 76).

(** [str(u)]: 32 hexadecimal digits in groups of 8-4-4-4-12. *)
Definition to_str (int : Z) : string :=
  let hex := PyStr.hex 32 int in
  String.substring 0 8 hex +:+ "-" +:+ String.substring 8 4 hex +:+ "-" +:+
  String.substring 12 4 hex +:+ "-" +:+ String.substring 16 4 hex +:+ "-" +:+
  String.substring 20 12 hex.

(** [str(uuid.uuid4())] *)
Definition uuid4_str (E : Env) : M string :=
  match urandom16 E with
  | Some r => mret (to_str (with_version4 (r mod 2 ^ 128)))
  | None => raise RandomSourceError
  end.

End Uuid.

(** ** The storage client and [subprocess] *)

(** [s3.download_file(bucket, key, filename)]: on success the object is
    written to [filename]; a failed transfer leaves no file behind. *)
Definition s3_download_file (E : Env) (bucket key filename : string) : M unit :=
  log (Download bucket key filename) ;;
  match download_result E bucket key filename with
  | Some e => raise e
  | None =>
      f ← get_fs;
      match Fs.writable filename f with
      | Some e => raise e
      | None => set_fs (<[filename := File]> f)
      end
  end.

(** [s3.upload_file(filename, bucket, key)]: the local file must exist. *)
Definition s3_upload_file (E : Env) (filename bucket key : string) : M unit :=
  log (Upload filename bucket key) ;;
  f ← get_fs;
  match f !! filename with
  | Some File =>
      match upload_result E filename bucket key with
      | Some e => raise e
      | None => mret tt
      end
  | Some Dir => raise (OSError EISDIR filename)
  | None => raise (OSError ENOENT filename)
  end.

Module Ffmpeg.
Import PyStr.

(** The image sequence pattern: the first [%03d] of the output name is
    replaced by the frame number. *)
Fixpoint expand (pat : string) (i : N) : string :=
  match pat with
  | EmptyString => EmptyString
  | String c r =>
      if startswith "%03d" pat then format_03d i +:+ slice_from 4 pat
      else String c (expand r i)
  end.

Fixpoint is_sequence (pat : string) : bool :=
  match pat with
  | EmptyString => false
  | String c r => startswith "%03d" pat || is_sequence r
  end.

(** Whether [ffmpeg] writes the output [out] as an image sequence: the
    name holds a frame number pattern and its extension is that of an
    image. Of the two extensions this program passes, [.jpg] is one and
    [.mp4] is not; a video is written under its name as it stands, a
    pattern in it included. *)
Definition image_sequence (out : string) : bool :=
  is_sequence out && endswith ".jpg" out.

(** The files a run writes, given the number [n] of outputs it produced:
    the output name is the last argument; an image sequence yields the
    frames numbered from 1, any other name yields that one file. *)
Definition outputs (command : list string) (n : nat) : list string :=
  match last command with
  | None => []
  | Some out =>
      if image_sequence out then map (λ i, expand out (N.of_nat i)) (seq 1 n)
      else match n with O => [] | S _ => [out] end
  end.

End Ffmpeg.

(** [subprocess.run(command, check=True)] *)
Definition subprocess_run_check (E : Env) (command : list string) : M unit :=
  log (Subprocess command) ;;
  match ffmpeg_result E command with
  | None => raise (OSError ENOENT (default "" (head command)))
  | Some (returncode, n) =>
      f ← get_fs;
      set_fs (foldl (λ f p, Fs.write_file p f) f (Ffmpeg.outputs command n)) ;;
      if returncode =? 0 then mret tt
      else raise (CalledProcessError returncode command)
  end.

(** [sorted(l)] on a list of strings. *)
Definition sorted (l : list string) : list string := merge_sort String.le l.

(** ** The pipeline stages *)

(** [transcode_to_mp4(input_path, output_path)], lines 39-55 *)
Definition transcode_to_mp4 (E : Env) (input_path output_path : string) : M unit :=
  print ("Transcoding " +:+ input_path +:+ " to " +:+ output_path +:+ "...") ;;
  let command :=
    [ "ffmpeg";
      "-i"; input_path;
      "-c:v"; "libx264";
      "-preset"; "fast";
      "-c:a"; "aac";
      "-b:a"; "128k";
      "-movflags"; "+faststart";
      output_path ] in
  subprocess_run_check E command ;;
  print "Transcoding complete.".

(** [generate_thumbnails(input_path, output_dir)], lines 58-76 *)
Definition generate_thumbnails (E : Env) (input_path output_dir : string) : M (list string) :=
  print ("Generating thumbnails for " +:+ input_path +:+ "...") ;;
  let output_pattern := OsPath.join output_dir "thumb_%03d.jpg" in
  let command :=
    [ "ffmpeg";
      "-i"; input_path;
      "-vf"; "fps=1/10";
      "-q:v"; "3";
      output_pattern ] in
  subprocess_run_check E command ;;
  found ← Fs.glob (OsPath.join output_dir "thumb_*.jpg");
  let thumbnail_files := sorted found in
  print ("Generated " +:+ PyStr.decimal (N.of_nat (length thumbnail_files)) +:+ " thumbnails.") ;;
  mret thumbnail_files.

(** The mapping returned by the analysis placeholder. *)
Definition ai_metadata : pyval :=
  PDict (list_to_map
    [ ("status", PStr "pending");
      ("message", PStr "AI analysis will be implemented in the future.") ]).

(** [analyze_thumbnails_ai(thumbnail_paths)], lines 79-95 *)
Definition analyze_thumbnails_ai (thumbnail_paths : list string) : M pyval :=
  print "AI analysis placeholder: Not implemented yet." ;;
  mret ai_metadata.

(** ** The responses *)

Definition error_response (message : string) : pyval :=
  PDict (list_to_map [ ("error", PStr message) ]).

Definition success_response (s3_transcoded_key : string) (s3_thumbnail_keys : list string)
    (ai_results : pyval) (public_base_url : string) : pyval :=
  PDict (list_to_map
    [ ("status", PStr "success");
      ("transcoded_video_key", PStr s3_transcoded_key);
      ("thumbnail_keys", PList (PStr <$> s3_thumbnail_keys));
      ("ai_analysis", ai_results);
      ("public_base_url", PStr public_base_url) ]).

Definition misconfigured_response : pyval :=
  error_response "Server is misconfigured. Missing R2 environment variables.".

Definition missing_key_response : pyval :=
  error_response "Missing 'source_video_key' in job input.".

(** ** The handler *)

(** [not S3_ENDPOINT_URL or not s3] (line 102): [s3] is only read when
    the endpoint is truthy; a client object is always truthy. *)
Definition misconfigured (g : globals) : M bool :=
  if negb (truthy (S3_ENDPOINT_URL g)) then mret true
  else (_ ← global "s3" (s3 g); mret false).

(** The thumbnail upload loop, lines 152-158. [s3_thumbnail_keys] is the
    list built so far. *)
Fixpoint upload_thumbnails (E : Env) (bucket s3_output_prefix : string)
    (thumbnail_paths : list string) (s3_thumbnail_keys : list string) : M (list string) :=
  match thumbnail_paths with
  | [] => mret s3_thumbnail_keys
  | thumb_path :: rest =>
      let thumb_filename := OsPath.basename thumb_path in
      let s3_thumb_key := s3_output_prefix +:+ "/thumbnails/" +:+ thumb_filename in
      print ("Uploading thumbnail " +:+ s3_thumb_key +:+ "...") ;;
      s3_upload_file E thumb_path bucket s3_thumb_key ;;
      upload_thumbnails E bucket s3_output_prefix rest (s3_thumbnail_keys ++ [s3_thumb_key])
  end.

(** The publish stage and the success response, lines 143-171. *)
Definition publish (E : Env) (bucket job_id transcoded_filename local_transcoded_path : string)
    (thumbnail_paths : list string) (ai_results : pyval) : M pyval :=
  let s3_output_prefix := "processed/" +:+ job_id in
  let s3_transcoded_key := s3_output_prefix +:+ "/" +:+ transcoded_filename in
  print ("Uploading transcoded video to " +:+ s3_transcoded_key +:+ "...") ;;
  s3_upload_file E local_transcoded_path bucket s3_transcoded_key ;;
  s3_thumbnail_keys ← upload_thumbnails E bucket s3_output_prefix thumbnail_paths [];
  print "All uploads complete." ;;
  mret (success_response s3_transcoded_key s3_thumbnail_keys ai_results
          (default "https://YOUR-PUBLIC-URL.dev" (environ E !! "CLOUDFLARE_R2_PUBLIC_URL")
             +:+ "/" +:+ s3_output_prefix)).

(** The suite of the [try] statement, lines 127-171. The module-level
    names [S3_BUCKET_NAME] and [s3] are read where the suite first uses
    them. *)
Definition job_body (E : Env) (g : globals)
    (job_id source_video_key local_input_path transcoded_filename
       local_transcoded_path local_output_dir : string) : M pyval :=
  bucket ← global "S3_BUCKET_NAME" (S3_BUCKET_NAME g);
  print ("Downloading " +:+ source_video_key +:+ " from R2 bucket " +:+ bucket +:+ "...") ;;
  _ ← global "s3" (s3 g);
  s3_download_file E bucket source_video_key local_input_path ;;
  print "Download complete." ;;
  transcode_to_mp4 E local_input_path local_transcoded_path ;;
  thumbnail_paths ← generate_thumbnails E local_transcoded_path local_output_dir;
  ai_results ← analyze_thumbnails_ai thumbnail_paths;
  publish E bucket job_id transcoded_filename local_transcoded_path thumbnail_paths ai_results.

(** The first steps of that suite, lines 127-135: the download and the
    transcode. Returns the bucket name read on the way. *)
Definition download_and_transcode (E : Env) (g : globals)
    (source_video_key local_input_path local_transcoded_path : string) : M string :=
  bucket ← global "S3_BUCKET_NAME" (S3_BUCKET_NAME g);
  print ("Downloading " +:+ source_video_key +:+ " from R2 bucket " +:+ bucket +:+ "...") ;;
  _ ← global "s3" (s3 g);
  s3_download_file E bucket source_video_key local_input_path ;;
  print "Download complete." ;;
  transcode_to_mp4 E local_input_path local_transcoded_path ;;
  mret bucket.

(** The [except Exception as e] clause, lines 173-175. *)
Definition job_failed (E : Env) (e : exn) : M pyval :=
  print ("Job failed: " +:+ str_exn E e) ;;
  mret (error_response (str_exn E e)).

(** The [try] statement without its [finally] clause: the single boundary
    that turns every exception of the suite into an error response. *)
Definition guarded_body (E : Env) (g : globals)
    (job_id source_video_key local_input_path transcoded_filename
       local_transcoded_path local_output_dir : string) : M pyval :=
  try_except
    (job_body E g job_id source_video_key local_input_path transcoded_filename
       local_transcoded_path local_output_dir)
    is_Exception
    (job_failed E).

(** The body of the cleanup loop for one directory, lines 182-185. *)
Definition cleanup_dir (dir_path : string) : M unit :=
  Fs.exists_ dir_path ≫= λ present : bool,
  if present then
    files ← Fs.glob (dir_path +:+ "/*");
    for_each files Fs.remove ;;
    Fs.rmdir dir_path
  else mret tt.

(** The [finally] clause, lines 177-186. *)
Definition cleanup (local_input_dir local_output_dir : string) : M unit :=
  print "Cleaning up local files..." ;;
  for_each [local_input_dir; local_output_dir] cleanup_dir ;;
  print "Cleanup complete.".

(** Lines 114-186: everything after the key has been read. *)
Definition run_job (E : Env) (g : globals) (source_video_key : pyval) : M pyval :=
  job_id ← Uuid.uuid4_str E;
  let local_input_dir := "/tmp/" +:+ job_id +:+ "_input" in
  let local_output_dir := "/tmp/" +:+ job_id +:+ "_output" in
  Fs.makedirs local_input_dir ;;
  Fs.makedirs local_output_dir ;;
  key ← fspath source_video_key;
  let local_input_path := OsPath.join local_input_dir (OsPath.basename key) in
  let transcoded_filename := (OsPath.splitext (OsPath.basename key)).1 +:+ "_processed.mp4" in
  let local_transcoded_path := OsPath.join local_output_dir transcoded_filename in
  try_finally
    (guarded_body E g job_id key local_input_path transcoded_filename
       local_transcoded_path local_output_dir)
    (cleanup local_input_dir local_output_dir).

(** [handler(job)], lines 98-186. The [try] around the read of
    [source_video_key] catches [KeyError] only and returns at once; the
    rest of the function runs outside it. *)
Definition handler (E : Env) (job : pyval) : M pyval :=
  let g := (module_init (environ E)).1 in
  misconfigured g ≫= λ bad : bool,
  if bad then mret misconfigured_response
  else
    job_input ← subscript job "input";
    try_or_return
      (subscript job_input "source_video_key")
      is_KeyError
      (λ _, mret missing_key_response)
      (λ source_video_key, run_job E g source_video_key).

(** ** Vocabulary of the properties *)

(** The four variables the module reads at start-up. *)
Definition required_variables : list string :=
  [ "CLOUDFLARE_ACCOUNT_ID"; "CLOUDFLARE_R2_ACCESS_KEY_ID";
    "CLOUDFLARE_R2_SECRET_ACCESS_KEY"; "CLOUDFLARE_R2_BUCKET_NAME" ].

(** The storage configuration is absent when one of them is not set. *)
Definition configuration_absent (env : gmap string string) : Prop :=
  ∃ name, name ∈ required_variables ∧ env !! name = None.

Definition configured (env : gmap string string) : Prop :=
  ∀ name, name ∈ required_variables → is_Some (env !! name).

(** The two response shapes. *)
Definition error_shape (r : pyval) : Prop :=
  ∃ message, r = error_response message.

Definition success_shape (r : pyval) : Prop :=
  ∃ transcoded_key thumbnail_keys ai url,
    r = success_response transcoded_key thumbnail_keys ai url.

(** [r[k]] when [r] is a dictionary holding [k]. *)
Definition field (r : pyval) (k : string) : option pyval :=
  match r with
  | PDict d => d !! k
  | _ => None
  end.

(** The job identifier drawn from the random value [r], and the scratch
    directories named after a job identifier. *)
Definition job_id_of (r : Z) : string :=
  Uuid.to_str (Uuid.with_version4 (r mod 2 ^ 128)).

Definition input_dir (job_id : string) : string := "/tmp/" +:+ job_id +:+ "_input".
Definition output_dir (job_id : string) : string := "/tmp/" +:+ job_id +:+ "_output".

(** The object key under which a thumbnail is published. *)
Definition thumbnail_key (job_id thumb_path : string) : string :=
  "processed/" +:+ job_id +:+ "/thumbnails/" +:+ OsPath.basename thumb_path.

(** The file that [ffmpeg] writes for frame [i] of the thumbnail run. *)
Definition frame_path (output_dir : string) (i : N) : string :=
  Ffmpeg.expand (OsPath.join output_dir "thumb_%03d.jpg") i.

(** The name of that file inside the output directory, and the command
    line of the thumbnail run. *)
Definition frame_name (i : N) : string :=
  "thumb_" +:+ PyStr.format_03d i +:+ ".jpg".

Definition thumbnail_command (input_path output_dir : string) : list string :=
  [ "ffmpeg"; "-i"; input_path; "-vf"; "fps=1/10"; "-q:v"; "3";
    OsPath.join output_dir "thumb_%03d.jpg" ].

(** What makes a name an entry that [glob] lists for [thumb_*.jpg]: a
    single path component, not [.] or [..], not hidden, matching the
    pattern. *)
Definition listed_thumbnail (name : string) : bool :=
  negb (String.eqb name "") && negb (PyStr.contains "/" name) &&
  negb (String.eqb name ".") && negb (String.eqb name "..") &&
  negb (Fnmatch.ishidden name) && Fnmatch.fnmatch "thumb_*.jpg" name.

(** Strict lexicographic order on strings. *)
Definition str_lt (a b : string) : Prop := String.compare a b = Lt.

(** Whether the frames numbered [from], [from + 1], ..., [from + count]
    have strictly increasing file names ([suffix] follows the number). *)
Fixpoint frames_increase (suffix : string) (from : N) (count : nat) : bool :=
  match count with
  | O => true
  | S count' =>
      match String.compare (PyStr.format_03d from +:+ suffix)
                           (PyStr.format_03d (from + 1) +:+ suffix) with
      | Lt => frames_increase suffix (from + 1) count'
      | _ => false
      end
  end.

(** The world [w1] holds no path that the world [w] did not hold. *)
Definition shrinks (w w1 : world) : Prop :=
  ∀ q, fs w !! q = None → fs w1 !! q = None.

Definition is_upload (c : call) : bool :=
  match c with Upload _ _ _ => true | _ => false end.

(** The world [w1] has seen the same uploads as the world [w]. *)
Definition same_uploads (w w1 : world) : Prop :=
  filter (λ c, is_upload c = true) (calls w1) = filter (λ c, is_upload c = true) (calls w).

(** The command line of the transcode run. *)
Definition transcode_command (input_path output_path : string) : list string :=
  [ "ffmpeg"; "-i"; input_path; "-c:v"; "libx264"; "-preset"; "fast";
    "-c:a"; "aac"; "-b:a"; "128k"; "-movflags"; "+faststart"; output_path ].

(** The upload of one thumbnail, and the calls that a complete run of the
    [try] suite makes, in order: the download, the transcode run, the
    thumbnail run on the transcoded file, the upload of the transcoded
    file, then one upload per thumbnail. *)
Definition thumbnail_upload (bucket job_id thumb_path : string) : call :=
  Upload thumb_path bucket (thumbnail_key job_id thumb_path).

Definition pipeline_calls (bucket job_id key local_input_path transcoded_filename
    local_transcoded_path local_output_dir : string) (thumbnail_paths : list string)
  : list call :=
  [ Download bucket key local_input_path;
    Subprocess (transcode_command local_input_path local_transcoded_path);
    Subprocess (thumbnail_command local_transcoded_path local_output_dir);
    Upload local_transcoded_path bucket
      ("processed/" +:+ job_id +:+ "/" +:+ transcoded_filename) ]
  ++ (thumbnail_upload bucket job_id <$> thumbnail_paths).

(** The object key of an upload call. *)
Definition upload_key (c : call) : option string :=
  match c with
  | Upload _ _ key => Some key
  | _ => None
  end.

(** Every entry of the directory [d] is a regular file whose name does
    not start with a dot. *)
Definition visible_files_only (d : string) (f : gmap string node) : Prop :=
  ∀ q n x, f !! q = Some x → Fs.child_name d q = Some n →
    x = File ∧ Fnmatch.ishidden n = false.

(** The path [q] is the directory [d] or one of its entries. *)
Definition inside (d q : string) : bool :=
  String.eqb q d || bool_decide (is_Some (Fs.child_name d q)).

(** The path [p] is an entry of the directory [d] whose name does not
    start with a dot. *)
Definition visible_entry (d p : string) : Prop :=
  ∃ n, p = d +:+ String "/" n ∧ n ≠ "" ∧
       PyStr.contains "/" n = false ∧ Fnmatch.ishidden n = false.

(** The filesystem [f'] is [f] with, possibly, more regular files, each
    of them a visible entry of [i] or of [o]. *)
Definition adds_visible_files (i o : string) (f f' : gmap string node) : Prop :=
  f ⊆ f' ∧
  ∀ q x, f' !! q = Some x →
    f !! q = Some x ∨ (x = File ∧ (visible_entry i q ∨ visible_entry o q)).

(** Nothing is at the path [d] nor below it. *)
Definition vacant (d : string) (f : gmap string node) : Prop :=
  ∀ q, inside d q = true → f !! q = None.

(** ** Sample environments and jobs *)

Module Sample.

Definition env_vars : gmap string string :=
  list_to_map
    [ ("CLOUDFLARE_ACCOUNT_ID", "acct");
      ("CLOUDFLARE_R2_ACCESS_KEY_ID", "access");
      ("CLOUDFLARE_R2_SECRET_ACCESS_KEY", "secret");
      ("CLOUDFLARE_R2_BUCKET_NAME", "media") ].

(** A rendering of exceptions as text. *)
Definition str (e : exn) : string :=
  match e with
  | KeyError k => "'" +:+ k +:+ "'"
  | TypeError m => m
  | NameError n => "name '" +:+ n +:+ "' is not defined"
  | OSError n f => "[Errno " +:+ PyStr.decimal (Z.to_N n) +:+ "] '" +:+ f +:+ "'"
  | CalledProcessError rc _ =>
      "Command returned non-zero exit status " +:+ PyStr.decimal (Z.to_N rc) +:+ "."
  | StorageError m => m
  | RandomSourceError => "no randomness source"
  end.

(** The storage client refuses an empty key before any transfer. *)
Definition download (bucket key filename : string) : option exn :=
  if String.eqb key "" then
    Some (StorageError "Parameter validation failed: Invalid length for parameter Key, value: 0, valid min length: 1")
  else None.

(** The random value behind the sample job identifier. *)
Definition random : Z := 0x123456789abcdef0123456789abcdef0.

(** An environment in which every transfer of a non-empty key succeeds,
    the transcode run exits with [status] after writing its output and
    the thumbnail run exits with 0 after writing [frames] images. *)
Definition env (vars : gmap string string) (status : Z) (frames : nat) : Env :=
  {| environ := vars;
     urandom16 := Some random;
     download_result := download;
     upload_result := λ _ _ _, None;
     ffmpeg_result := λ command,
       if bool_decide ("libx264" ∈ command) then Some (status, 1%nat)
       else Some (0, frames);
     str_exn := str |}.

(** The same environment on a system without a randomness source. *)
Definition env_without_random : Env :=
  {| environ := env_vars;
     urandom16 := None;
     download_result := download;
     upload_result := λ _ _ _, None;
     ffmpeg_result := λ _, Some (0, 0%nat);
     str_exn := str |}.

Definition job_id : string := "12345678-9abc-4ef0-9234-56789abcdef0".

Definition input_with (v : pyval) : gmap string pyval :=
  list_to_map [ ("source_video_key", v) ].

Definition job_dict (v : pyval) : gmap string pyval :=
  list_to_map [ ("id", PStr "job-1"); ("input", PDict (input_with v)) ].

Definition job_with (v : pyval) : pyval := PDict (job_dict v).

Definition job (source_video_key : string) : pyval := job_with (PStr source_video_key).

(** A job whose input has no [source_video_key]. *)
Definition dict_without_key : gmap string pyval :=
  list_to_map [ ("id", PStr "job-1"); ("input", PDict ∅) ].

Definition job_without_key : pyval := PDict dict_without_key.

(** A job argument without [input]. *)
Definition dict_without_input : gmap string pyval :=
  list_to_map [ ("id", PStr "job-1") ].

Definition job_without_input : pyval := PDict dict_without_input.

(** An empty temporary root. *)
Definition w0 : world := World ∅ [] [].

(** Whether a run returned, and the value it returned ([d] when it
    raised). *)
Definition returned {A} (x : outcome A * world) : bool :=
  match x.1 with
  | Ok _ => true
  | Raise _ => false
  end.

Definition value_of {A} (d : A) (x : outcome A * world) : A :=
  match x.1 with
  | Ok v => v
  | Raise _ => d
  end.

Definition response_of (x : outcome pyval * world) : pyval := value_of PNone x.

(** An output directory after the transcode and thumbnail runs. *)
Definition two_thumbnails : list string :=
  [ "/tmp/j_output/thumb_001.jpg"; "/tmp/j_output/thumb_002.jpg" ].

Definition w_output : world :=
  World (list_to_map [ ("/tmp/j_output", Dir);
                       ("/tmp/j_output/clip_processed.mp4", File);
                       ("/tmp/j_output/thumb_001.jpg", File);
                       ("/tmp/j_output/thumb_002.jpg", File) ]) [] [].

(** The publish stage run on that directory. *)
Definition published : outcome pyval * world :=
  publish (env env_vars 0 2) "media" "j" "clip_processed.mp4"
    "/tmp/j_output/clip_processed.mp4" two_thumbnails ai_metadata w_output.

(** The creation of both scratch directories of the sample job in a
    world [w]. *)
Definition scratch (w : world) : outcome unit * world :=
  (Fs.makedirs (input_dir (job_id_of random)) ;;
   Fs.makedirs (output_dir (job_id_of random))) w.

(** The guarded suite of the run on [key], started in [w]. *)
Definition guarded (status : Z) (key : string) (w : world) : outcome pyval * world :=
  guarded_body (env env_vars status 3) (module_init env_vars).1 (job_id_of random) key
    (OsPath.join (input_dir (job_id_of random)) (OsPath.basename key))
    ((OsPath.splitext (OsPath.basename key)).1 +:+ "_processed.mp4")
    (OsPath.join (output_dir (job_id_of random))
       ((OsPath.splitext (OsPath.basename key)).1 +:+ "_processed.mp4"))
    (output_dir (job_id_of random)) w.

(** The cleanup of the sample job, started in [w]. *)
Definition cleaned (w : world) : outcome unit * world :=
  cleanup (input_dir (job_id_of random)) (output_dir (job_id_of random)) w.

(** A world that holds an empty output directory, and the thumbnail
    stage run in it when [ffmpeg] writes a thousand frames. *)
Definition w_dir : world := World {[ "/tmp/j_output" := Dir ]} [] [].

Definition three_frames : outcome (list string) * world :=
  generate_thumbnails (env env_vars 0 3)
    "/tmp/j_output/clip_processed.mp4" "/tmp/j_output" w_dir.

Definition thousand_frames : list string :=
  value_of [] (generate_thumbnails (env env_vars 0 1000)
                 "/tmp/j_output/clip_processed.mp4" "/tmp/j_output" w_dir).

(** A world in which the path of the sample output directory is taken by
    a file. *)
Definition w_taken : world :=
  World {[ output_dir job_id := File ]} [] [].

(** A full run of the handler on ["videos/clip.mov"]. *)
Definition clip_run : outcome pyval * world :=
  handler (env env_vars 0 3) (job "videos/clip.mov") w0.

(** A run on a source whose base name starts with a dot, with a
    transcode run that exits with [status]. *)
Definition hidden_run (status : Z) : outcome pyval * world :=
  handler (env env_vars status 3) (job "videos/.clip.mov") w0.

(** A run on a job whose [source_video_key] is JSON [null]. *)
Definition null_key_run : outcome pyval * world :=
  handler (env env_vars 0 3) (job_with PNone) w0.

(** The sample environment with a storage service that refuses the
    second thumbnail. *)
Definition env_upload_fails : Env :=
  {| environ := env_vars;
     urandom16 := Some random;
     download_result := download;
     upload_result := λ filename _ _,
       if String.eqb filename "/tmp/j_output/thumb_002.jpg"
       then Some (StorageError "An error occurred (503) when calling the PutObject operation")
       else None;
     ffmpeg_result := λ _, Some (0, 3%nat);
     str_exn := str |}.

(** The sample environment with a thumbnail run that exits with status
    1 after a transcode run that succeeded. *)
Definition env_thumbnails_fail : Env :=
  {| environ := env_vars;
     urandom16 := Some random;
     download_result := download;
     upload_result := λ _ _ _, None;
     ffmpeg_result := λ command,
       if bool_decide ("libx264" ∈ command) then Some (0, 1%nat)
       else Some (1, 0%nat);
     str_exn := str |}.

(** A temporary root that holds the scratch directories of a job [j]
    after a run: the source in one, the transcoded file and a thumbnail
    in the other, and a file of another job. *)
Definition w_scratch : world :=
  World (list_to_map [ ("/tmp/j_input", Dir);
                       ("/tmp/j_input/clip.mov", File);
                       ("/tmp/j_output", Dir);
                       ("/tmp/j_output/clip_processed.mp4", File);
                       ("/tmp/j_output/thumb_001.jpg", File);
                       ("/tmp/k_input", Dir);
                       ("/tmp/k_input/other.mov", File) ]) [] [].

(** The cleanup of job [j] in that root. *)
Definition scratch_cleaned : outcome unit * world :=
  cleanup "/tmp/j_input" "/tmp/j_output" w_scratch.

(** A storage library that refuses the endpoint made from an empty
    account identifier and builds every other client. *)
Definition boto_client (c : s3_client) : option exn :=
  if String.eqb (endpoint_url c) "https://.r2.cloudflarestorage.com"
  then Some (StorageError "Invalid endpoint: https://.r2.cloudflarestorage.com")
  else None.

(** The sample variables with an account identifier that is set and
    empty. *)
Definition env_vars_empty_account : gmap string string :=
  <["CLOUDFLARE_ACCOUNT_ID" := ""]> env_vars.

(** A process started without the bucket name, given a job argument
    without [input]. *)
Definition unconfigured_run : outcome pyval * world :=
  handler (env (delete "CLOUDFLARE_R2_BUCKET_NAME" env_vars) 0 3) job_without_input w0.

(** A clip too short for a single thumbnail: the thumbnail run exits
    with 0 and writes no frame. The run of the handler on it, the run
    on such a clip whose name starts with a dot, and the guarded suite
    of the latter. *)
Definition short_clip_run : outcome pyval * world :=
  handler (env env_vars 0 0) (job "videos/clip.mov") w0.

Definition short_hidden_run : outcome pyval * world :=
  handler (env env_vars 0 0) (job "videos/.clip.mov") w0.

Definition short_hidden_guarded : outcome pyval * world :=
  guarded_body (env env_vars 0 0) (module_init env_vars).1 (job_id_of random)
    "videos/.clip.mov"
    (OsPath.join (input_dir (job_id_of random)) ".clip.mov")
    ".clip_processed.mp4"
    (OsPath.join (output_dir (job_id_of random)) ".clip_processed.mp4")
    (output_dir (job_id_of random)) (scratch w0).2.

(** The same short clip with a storage service that refuses every
    upload. *)
Definition env_upload_refused : Env :=
  {| environ := env_vars;
     urandom16 := Some random;
     download_result := download;
     upload_result := λ _ _ _,
       Some (StorageError "An error occurred (503) when calling the PutObject operation");
     ffmpeg_result := λ command,
       if bool_decide ("libx264" ∈ command) then Some (0, 1%nat)
       else Some (0, 0%nat);
     str_exn := str |}.

Definition refused_run : outcome pyval * world :=
  handler env_upload_refused (job "videos/clip.mov") w0.

End Sample.

(** * Properties *)

(** ** The monad *)

Lemma bind_unfold {A B} (m : M A) (f : A → M B) (w : world) :
  (m ≫= f) w =
  match m w with
  | (Ok a, w') => f a w'
  | (Raise e, w') => (Raise e, w')
  end.
Proof. reflexivity. Qed.

Lemma bind_Ok {A B} (m : M A) (f : A → M B) w a w' :
  m w = (Ok a, w') → (m ≫= f) w = f a w'.
Proof. intros H. rewrite bind_unfold, H. reflexivity. Qed.

Lemma bind_Ok_inv {A B} (m : M A) (f : A → M B) w b w' :
  (m ≫= f) w = (Ok b, w') →
  ∃ a w1, m w = (Ok a, w1) ∧ f a w1 = (Ok b, w').
Proof.
  rewrite bind_unfold. destruct (m w) as [[a|e] w1]; intros H.
  - eauto.
  - discriminate.
Qed.

Lemma run_returned {A} (d : A) (x : outcome A * world) :
  Sample.returned x = true → x = (Ok (Sample.value_of d x), x.2).
Proof.
  unfold Sample.returned, Sample.value_of. destruct x as [[a|e] w]; cbn; [reflexivity | discriminate].
Qed.

Lemma run_split {A} (x : outcome A * world) (o : outcome A) :
  x.1 = o → x = (o, x.2).
Proof. destruct x as [o' w]. cbn. intros ->. reflexivity. Qed.

Lemma pair_Ok_inj {A} (a a' : A) (w w' : world) :
  (Ok a, w) = (Ok a', w') → a = a' ∧ w = w'.
Proof. intros H. injection H as -> ->. split; reflexivity. Qed.

Lemma glob_run pathname w :
  Fs.glob pathname w = (Ok (Fs.matches pathname (fs w)), w).
Proof. reflexivity. Qed.

Lemma exists_run p w :
  Fs.exists_ p w = (Ok (bool_decide (is_Some (fs w !! p))), w).
Proof. reflexivity. Qed.

Lemma remove_run p w :
  Fs.remove p w =
    match fs w !! p with
    | Some File => (Ok tt, World (delete p (fs w)) (stdout w) (calls w ++ [Remove p]))
    | Some Dir => (Raise (OSError EISDIR p), World (fs w) (stdout w) (calls w ++ [Remove p]))
    | None => (Raise (OSError ENOENT p), World (fs w) (stdout w) (calls w ++ [Remove p]))
    end.
Proof.
  unfold Fs.remove, log, get_fs. rewrite !bind_unfold.
  change (fs (World (fs w) (stdout w) (calls w ++ [Remove p]))) with (fs w).
  destruct (fs w !! p) as [[]|]; reflexivity.
Qed.

Lemma rmdir_run p w :
  Fs.rmdir p w =
    match fs w !! p with
    | Some Dir =>
        match Fs.listdir p (fs w) with
        | [] => (Ok tt, World (delete p (fs w)) (stdout w) (calls w ++ [Rmdir p]))
        | _ :: _ => (Raise (OSError ENOTEMPTY p), World (fs w) (stdout w) (calls w ++ [Rmdir p]))
        end
    | Some File => (Raise (OSError ENOTDIR p), World (fs w) (stdout w) (calls w ++ [Rmdir p]))
    | None => (Raise (OSError ENOENT p), World (fs w) (stdout w) (calls w ++ [Rmdir p]))
    end.
Proof.
  unfold Fs.rmdir, log, get_fs. rewrite !bind_unfold.
  change (fs (World (fs w) (stdout w) (calls w ++ [Rmdir p]))) with (fs w).
  destruct (fs w !! p) as [[]|]; try reflexivity.
  destruct (Fs.listdir p (fs w)); reflexivity.
Qed.

Lemma print_run line w :
  print line w = (Ok tt, World (fs w) (stdout w ++ [line]) (calls w)).
Proof. reflexivity. Qed.

(** ** Strings and paths *)

Section Paths.
Import PyStr.

Lemma append_empty_r a : a +:+ "" = a.
Proof.
  induction a as [|x a IH]; [reflexivity|].
  change (String x a +:+ "") with (String x (a +:+ "")). by rewrite IH.
Qed.

Lemma append_assoc a b c : a +:+ b +:+ c = (a +:+ b) +:+ c.
Proof.
  induction a as [|x a IH]; [reflexivity|].
  change (String x a +:+ b +:+ c) with (String x (a +:+ b +:+ c)).
  rewrite IH. reflexivity.
Qed.

Lemma append_inj a s s' : a +:+ s = a +:+ s' → s = s'.
Proof.
  induction a as [|x a IH]; intros H; [exact H|].
  change (String x (a +:+ s) = String x (a +:+ s')) in H.
  injection H as H. by apply IH.
Qed.

Lemma str_length_append a b :
  String.length (a +:+ b) = (String.length a + String.length b)%nat.
Proof.
  induction a as [|x a IH]; [reflexivity|].
  change (String x a +:+ b) with (String x (a +:+ b)). cbn [String.length].
  by rewrite IH.
Qed.

Lemma contains_append c a b :
  contains c (a +:+ b) = contains c a || contains c b.
Proof.
  induction a as [|x a IH]; [reflexivity|].
  change (String x a +:+ b) with (String x (a +:+ b)). cbn [contains].
  rewrite IH. apply orb_assoc.
Qed.

Lemma substring_whole s : String.substring 0 (String.length s) s = s.
Proof.
  induction s as [|x s IH]; [reflexivity|]. cbn. by rewrite IH.
Qed.

Lemma substring_prefix a s : String.substring 0 (String.length a) (a +:+ s) = a.
Proof.
  induction a as [|x a IH]; [by destruct s|].
  change (String x a +:+ s) with (String x (a +:+ s)). cbn. by rewrite IH.
Qed.

Lemma substring_suffix a s :
  String.substring (String.length a) (String.length s) (a +:+ s) = s.
Proof.
  induction a as [|x a IH]; [apply substring_whole|].
  change (String x a +:+ s) with (String x (a +:+ s)). cbn. exact IH.
Qed.

Lemma slice_to_append a s : slice_to (Z.of_nat (String.length a)) (a +:+ s) = a.
Proof. unfold slice_to. rewrite Nat2Z.id. apply substring_prefix. Qed.

Lemma slice_from_append a s : slice_from (Z.of_nat (String.length a)) (a +:+ s) = s.
Proof.
  unfold slice_from. rewrite Nat2Z.id, str_length_append.
  replace (String.length a + String.length s - String.length a)%nat
    with (String.length s) by lia.
  apply substring_suffix.
Qed.

(** [rfind] finds the last occurrence: either there is none, or the
    string splits at it. *)
Lemma rfind_from_spec c p i acc :
  (contains c p = false ∧ rfind_from c p i acc = acc) ∨
  (∃ a b, p = a +:+ String c b ∧ contains c b = false ∧
          rfind_from c p i acc = i + Z.of_nat (String.length a)).
Proof.
  revert i acc. induction p as [|x p IH]; intros i acc; [left; done|].
  cbn [rfind_from contains].
  destruct (IH (i + 1) (if Ascii.eqb x c then i else acc))
    as [[Hn Hr] | (a & b & -> & Hb & Hr)].
  - destruct (Ascii.eqb_spec x c) as [->|Hx].
    + right. exists "", p. rewrite Hr. split; [reflexivity|]. split; [exact Hn|].
      cbn. lia.
    + left. rewrite Hn, Hr. done.
  - right. exists (String x a), b. split; [reflexivity|]. split; [exact Hb|].
    rewrite Hr. cbn [String.length]. lia.
Qed.

Lemma rfind_spec c p :
  (contains c p = false ∧ rfind c p = -1) ∨
  (∃ a b, p = a +:+ String c b ∧ contains c b = false ∧
          rfind c p = Z.of_nat (String.length a)).
Proof.
  unfold rfind. destruct (rfind_from_spec c p 0 (-1)) as [H | (a & b & H1 & H2 & H3)].
  - left. exact H.
  - right. exists a, b. rewrite H3. done.
Qed.

Lemma append_split a s a' s' :
  a +:+ s = a' +:+ s' →
  (String.length a ≤ String.length a')%nat →
  ∃ t, a' = a +:+ t ∧ s = t +:+ s'.
Proof.
  revert a'. induction a as [|x a IH]; intros a' H Hl.
  - exists a'. done.
  - destruct a' as [|y a']; [cbn in Hl; lia|].
    change (String x (a +:+ s) = String y (a' +:+ s')) in H.
    injection H as -> H. cbn in Hl.
    destruct (IH a' H ltac:(lia)) as (t & -> & ->). exists t. done.
Qed.

Lemma splitext_loop_cases steps p filenameIndex dotIndex :
  OsPath.splitext_loop steps p filenameIndex dotIndex = (p, "") ∨
  OsPath.splitext_loop steps p filenameIndex dotIndex
    = (slice_to dotIndex p, slice_from dotIndex p).
Proof.
  revert filenameIndex. induction steps as [|steps IH]; intros fi; [by left|].
  cbn [OsPath.splitext_loop].
  destruct (fi <? dotIndex); [|by left].
  destruct (negb _); [by right | apply IH].
Qed.

(** [os.path.splitext] cuts the path in two, [root + ext == p], and the
    extension is empty or is the last dot of the path followed by
    characters that hold neither a dot nor a separator. *)
Lemma splitext_spec p :
  (OsPath.splitext p).1 +:+ (OsPath.splitext p).2 = p ∧
  ((OsPath.splitext p).2 = "" ∨
   ∃ e, (OsPath.splitext p).2 = String "." e ∧
        contains "." e = false ∧ contains "/" e = false).
Proof.
  unfold OsPath.splitext.
  destruct (rfind "/" p <? rfind "." p) eqn:Hlt;
    [|cbn; split; [apply append_empty_r | by left]].
  apply Z.ltb_lt in Hlt.
  destruct (splitext_loop_cases (S (String.length p)) p (rfind "/" p + 1) (rfind "." p))
    as [-> | ->]; [cbn; split; [apply append_empty_r | by left]|].
  destruct (rfind_spec "." p) as [[_ Hd] | (a & b & Hp & Hb & Hd)].
  { destruct (rfind_spec "/" p) as [[_ Hs] | (a' & b' & _ & _ & Hs)]; lia. }
  rewrite Hd. cbn [fst snd]. subst p.
  rewrite slice_to_append, slice_from_append. split; [reflexivity|].
  right. exists b. split; [reflexivity|]. split; [exact Hb|].
  destruct (rfind_spec "/" (a +:+ String "." b)) as [[Hn _] | (a' & b' & Hp' & Hb' & Hs)].
  - rewrite contains_append in Hn. apply orb_false_iff in Hn as [_ Hn].
    cbn [contains] in Hn. apply orb_false_iff in Hn as [_ Hn]. exact Hn.
  - destruct (append_split a' (String "/" b') a (String "." b)) as (t & Ht & Hb2);
      [by rewrite Hp' | lia |].
    destruct t as [|y t].
    + rewrite append_empty_r in Ht. subst a'. lia.
    + change (String "/" b' = String y (t +:+ String "." b)) in Hb2.
      injection Hb2 as _ ->.
      rewrite contains_append in Hb'. apply orb_false_iff in Hb' as [_ Hb'].
      cbn [contains] in Hb'. apply orb_false_iff in Hb' as [_ Hb']. exact Hb'.
Qed.

(** [os.path.basename] returns the part after the last separator. *)
Lemma basename_spec p :
  contains "/" (OsPath.basename p) = false ∧
  (contains "/" p = false → OsPath.basename p = p) ∧
  (∀ d n, contains "/" n = false → OsPath.basename (d +:+ String "/" n) = n).
Proof.
  assert (Hmain : ∀ q, (contains "/" q = false ∧ OsPath.basename q = q) ∨
            (∃ a b, q = a +:+ String "/" b ∧ contains "/" b = false ∧ OsPath.basename q = b)).
  { intros q. unfold OsPath.basename.
    destruct (rfind_spec "/" q) as [[Hn ->] | (a & b & Hq & Hb & ->)].
    - left. split; [exact Hn|]. cbn. unfold slice_from. cbn.
      rewrite Nat.sub_0_r. apply substring_whole.
    - right. exists a, b. split; [exact Hq|]. split; [exact Hb|].
      subst q.
      replace (Z.of_nat (String.length a) + 1)
        with (Z.of_nat (String.length (a +:+ "/"))) by (rewrite str_length_append; cbn; lia).
      replace (a +:+ String "/" b) with ((a +:+ "/") +:+ b)
        by (rewrite <- append_assoc; reflexivity).
      apply slice_from_append. }
  split; [|split].
  - destruct (Hmain p) as [[Hn ->] | (a & b & _ & Hb & ->)]; assumption.
  - intros Hn. destruct (Hmain p) as [[_ H] | (a & b & Hp & _ & _)]; [exact H|].
    rewrite Hp, contains_append in Hn. apply orb_false_iff in Hn as [_ Hn].
    cbn in Hn. discriminate Hn.
  - intros d n Hn.
    destruct (Hmain (d +:+ String "/" n)) as [[Hc _] | (a & b & Hq & Hb & ->)].
    + rewrite contains_append in Hc. apply orb_false_iff in Hc as [_ Hc].
      cbn in Hc. discriminate Hc.
    + destruct (Nat.le_gt_cases (String.length d) (String.length a)) as [Hl|Hl].
      * destruct (append_split d (String "/" n) a (String "/" b) Hq Hl) as (t & -> & Ht).
        destruct t as [|y t]; [by injection Ht|].
        change (String "/" n = String y (t +:+ String "/" b)) in Ht.
        injection Ht as _ ->. rewrite contains_append in Hn.
        apply orb_false_iff in Hn as [_ Hn]. cbn in Hn. discriminate Hn.
      * destruct (append_split a (String "/" b) d (String "/" n) (eq_sym Hq) ltac:(lia))
          as (t & -> & Ht).
        destruct t as [|y t]; [by injection Ht|].
        change (String "/" b = String y (t +:+ String "/" n)) in Ht.
        injection Ht as _ ->. rewrite contains_append in Hb.
        apply orb_false_iff in Hb as [_ Hb]. cbn in Hb. discriminate Hb.
Qed.

End Paths.

Example basename_clip : OsPath.basename "videos/clip.mov" = "clip.mov".
Proof. reflexivity. Qed.

Example basename_trailing_separator : OsPath.basename "videos/" = "".
Proof. reflexivity. Qed.

Example splitext_clip : OsPath.splitext "clip.mov" = ("clip", ".mov").
Proof. reflexivity. Qed.

Example splitext_leading_dot : OsPath.splitext ".mov" = (".mov", "").
Proof. reflexivity. Qed.

Example splitext_two_dots : OsPath.splitext "a.tar.gz" = ("a.tar", ".gz").
Proof. reflexivity. Qed.

Example split_pattern : OsPath.split "/tmp/x_input/*" = ("/tmp/x_input", "*").
Proof. reflexivity. Qed.

Example join_pattern :
  OsPath.join "/tmp/x_output" "thumb_%03d.jpg" = "/tmp/x_output/thumb_%03d.jpg".
Proof. reflexivity. Qed.

Example format_03d_7 : PyStr.format_03d 7 = "007".
Proof. reflexivity. Qed.

Example format_03d_1000 : PyStr.format_03d 1000 = "1000".
Proof. reflexivity. Qed.

Example fnmatch_thumbnail : Fnmatch.fnmatch "thumb_*.jpg" "thumb_001.jpg" = true.
Proof. reflexivity. Qed.

Example fnmatch_transcoded : Fnmatch.fnmatch "thumb_*.jpg" "clip_processed.mp4" = false.
Proof. reflexivity. Qed.

Example glob_star_skips_hidden :
  Fs.matches "/tmp/x_input/*"
    (list_to_map [ ("/tmp/x_input", Dir); ("/tmp/x_input/.clip.mov", File);
                   ("/tmp/x_input/clip.mov", File) ])
  = [ "/tmp/x_input/clip.mov" ].
Proof. vm_compute. reflexivity. Qed.

Example uuid4_sample : job_id_of Sample.random = Sample.job_id.
Proof. vm_compute. reflexivity. Qed.

(** ** Start-up configuration *)

Lemma module_init_absent env :
  configuration_absent env → S3_ENDPOINT_URL (module_init env).1 = None.
Proof.
  intros (name & Hin & Hnone). unfold module_init.
  destruct (env !! "CLOUDFLARE_ACCOUNT_ID") eqn:H1; [|reflexivity].
  destruct (env !! "CLOUDFLARE_R2_ACCESS_KEY_ID") eqn:H2; [|reflexivity].
  destruct (env !! "CLOUDFLARE_R2_SECRET_ACCESS_KEY") eqn:H3; [|reflexivity].
  destruct (env !! "CLOUDFLARE_R2_BUCKET_NAME") eqn:H4; [|reflexivity].
  exfalso. unfold required_variables in Hin.
  repeat (apply elem_of_cons in Hin as [-> | Hin]; [congruence|]).
  by apply elem_of_nil in Hin.
Qed.

Lemma module_init_configured env :
  configured env →
  ∃ account access secret bucket,
    (module_init env).1 =
      Globals (Some account) (Some access) (Some secret) (Some bucket)
        (Some ("https://" +:+ account +:+ ".r2.cloudflarestorage.com"))
        (Some (S3Client ("https://" +:+ account +:+ ".r2.cloudflarestorage.com")
                 access secret "auto")).
Proof.
  intros Hc. unfold module_init.
  destruct (Hc "CLOUDFLARE_ACCOUNT_ID") as [a ->]; [set_solver|].
  destruct (Hc "CLOUDFLARE_R2_ACCESS_KEY_ID") as [b ->]; [set_solver|].
  destruct (Hc "CLOUDFLARE_R2_SECRET_ACCESS_KEY") as [c ->]; [set_solver|].
  destruct (Hc "CLOUDFLARE_R2_BUCKET_NAME") as [d ->]; [set_solver|].
  exists a, b, c, d. reflexivity.
Qed.

Lemma misconfigured_false env w :
  configured env → misconfigured (module_init env).1 w = (Ok false, w).
Proof.
  intros Hc. destruct (module_init_configured env Hc) as (a & b & c & d & ->).
  reflexivity.
Qed.

Lemma handler_configured E job w :
  configured (environ E) →
  handler E job w =
    (job_input ← subscript job "input";
     try_or_return (subscript job_input "source_video_key") is_KeyError
       (λ _, mret missing_key_response)
       (λ source_video_key, run_job E (module_init (environ E)).1 source_video_key)) w.
Proof.
  intros Hc. unfold handler.
  rewrite (bind_Ok _ _ _ _ _ (misconfigured_false _ w Hc)). reflexivity.
Qed.

Lemma sample_job_input v :
  Sample.job_dict v !! "input" = Some (PDict (Sample.input_with v)).
Proof.
  unfold Sample.job_dict. cbn [list_to_map foldr].
  rewrite lookup_insert_ne by discriminate. apply lookup_insert_eq.
Qed.

Lemma sample_input_key v :
  Sample.input_with v !! "source_video_key" = Some v.
Proof. apply lookup_insert_eq. Qed.

Lemma sample_configured : configured Sample.env_vars.
Proof.
  intros name Hin. unfold required_variables in Hin.
  repeat (apply elem_of_cons in Hin as [-> | Hin]; [vm_compute; eauto|]).
  by apply elem_of_nil in Hin.
Qed.

(** C8. When the storage configuration is absent at process start, every
    job, whatever its argument, gets the misconfiguration error response,
    and the world is left as it was: no call to the storage client, no
    directory created, nothing printed. *)
Theorem handler_misconfigured E job w :
  configuration_absent (environ E) →
  handler E job w = (Ok misconfigured_response, w) ∧
  misconfigured_response =
    error_response "Server is misconfigured. Missing R2 environment variables.".
Proof.
  intros Habs. split; [|reflexivity].
  unfold handler, misconfigured.
  rewrite (module_init_absent _ Habs). reflexivity.
Qed.

(** The sample process started without [CLOUDFLARE_R2_BUCKET_NAME]. *)
Lemma handler_misconfigured_witness :
  configuration_absent (delete "CLOUDFLARE_R2_BUCKET_NAME" Sample.env_vars) ∧
  handler (Sample.env (delete "CLOUDFLARE_R2_BUCKET_NAME" Sample.env_vars) 0 3)
    (Sample.job "videos/clip.mov") Sample.w0
  = (Ok misconfigured_response, Sample.w0).
Proof.
  assert (H : configuration_absent (delete "CLOUDFLARE_R2_BUCKET_NAME" Sample.env_vars)).
  { exists "CLOUDFLARE_R2_BUCKET_NAME". split; [set_solver | apply lookup_delete_eq]. }
  split; [exact H|].
  exact (proj1 (handler_misconfigured
    (Sample.env (delete "CLOUDFLARE_R2_BUCKET_NAME" Sample.env_vars) 0 3)
    (Sample.job "videos/clip.mov") Sample.w0 H)).
Defined.

(** ** Input validation *)

Lemma handler_with_key E d job_input v w :
  configured (environ E) →
  d !! "input" = Some (PDict job_input) →
  job_input !! "source_video_key" = Some v →
  handler E (PDict d) w = run_job E (module_init (environ E)).1 v w.
Proof.
  intros Hc Hd Hk. rewrite handler_configured by done.
  unfold subscript, try_or_return. rewrite bind_unfold, Hd. cbn. rewrite Hk. reflexivity.
Qed.

Lemma run_job_unfold E g v w r :
  urandom16 E = Some r →
  run_job E g v w =
    (Fs.makedirs (input_dir (job_id_of r)) ;;
     Fs.makedirs (output_dir (job_id_of r)) ;;
     key ← fspath v;
     try_finally
       (guarded_body E g (job_id_of r) key
          (OsPath.join (input_dir (job_id_of r)) (OsPath.basename key))
          ((OsPath.splitext (OsPath.basename key)).1 +:+ "_processed.mp4")
          (OsPath.join (output_dir (job_id_of r))
             ((OsPath.splitext (OsPath.basename key)).1 +:+ "_processed.mp4"))
          (output_dir (job_id_of r)))
       (cleanup (input_dir (job_id_of r)) (output_dir (job_id_of r)))) w.
Proof.
  intros Hr. unfold run_job, Uuid.uuid4_str. rewrite Hr. reflexivity.
Qed.

(** C3, as amended. With storage configured, for every job whose input
    mapping has no [source_video_key], [handler] returns the error
    response ["Missing 'source_video_key' in job input."] at once and
    leaves the world as it was: no directory created, no transfer
    started. (An empty key is not rejected here.) *)
Theorem handler_missing_key E d job_input w :
  configured (environ E) →
  d !! "input" = Some (PDict job_input) →
  job_input !! "source_video_key" = None →
  handler E (PDict d) w = (Ok missing_key_response, w) ∧
  missing_key_response = error_response "Missing 'source_video_key' in job input.".
Proof.
  intros Hc Hd Hk. split; [|reflexivity].
  rewrite handler_configured by done.
  unfold subscript, try_or_return. rewrite bind_unfold, Hd. cbn. rewrite Hk. reflexivity.
Qed.

(** The sample job whose input is the empty mapping. *)
Lemma handler_missing_key_witness :
  handler (Sample.env Sample.env_vars 0 3) Sample.job_without_key Sample.w0
  = (Ok missing_key_response, Sample.w0).
Proof.
  refine (proj1 (handler_missing_key (Sample.env Sample.env_vars 0 3)
    Sample.dict_without_key ∅ Sample.w0 sample_configured _ _)).
  - reflexivity.
  - apply lookup_empty.
Defined.

(** The claim of C3 fails for an empty key: the key is present, so
    no [KeyError] is raised; both scratch directories are created and the
    download is attempted before the job fails with the storage client's
    message. *)
Lemma handler_empty_key_allocates :
  let r := handler (Sample.env Sample.env_vars 0 3) (Sample.job "") Sample.w0 in
  r ≠ (Ok missing_key_response, Sample.w0) ∧
  r.1 = Ok (error_response
    "Parameter validation failed: Invalid length for parameter Key, value: 0, valid min length: 1") ∧
  calls r.2 =
    [ Makedirs (input_dir Sample.job_id);
      Makedirs (output_dir Sample.job_id);
      Download "media" "" (input_dir Sample.job_id +:+ "/");
      Rmdir (input_dir Sample.job_id);
      Rmdir (output_dir Sample.job_id) ].
Proof.
  assert (Hc : calls (handler (Sample.env Sample.env_vars 0 3) (Sample.job "") Sample.w0).2 =
    [ Makedirs (input_dir Sample.job_id);
      Makedirs (output_dir Sample.job_id);
      Download "media" "" (input_dir Sample.job_id +:+ "/");
      Rmdir (input_dir Sample.job_id);
      Rmdir (output_dir Sample.job_id) ]) by (vm_compute; reflexivity).
  cbv zeta. split; [|split].
  - intros Heq. rewrite Heq in Hc. discriminate Hc.
  - vm_compute. reflexivity.
  - exact Hc.
Qed.

(** C10, as amended. With storage configured, a job argument without
    ['input'] makes [handler] raise [KeyError('input')] instead of
    returning a response; so do the failures of the steps that precede
    the [try] statement: a failure to draw the job identifier and a
    failure of either [os.makedirs] leave [handler] as exceptions. *)
Theorem handler_failures_before_boundary E w :
  configured (environ E) →
  (∀ d, d !! "input" = None →
     handler E (PDict d) w = (Raise (KeyError "input"), w)) ∧
  (∀ d job_input v,
     d !! "input" = Some (PDict job_input) →
     job_input !! "source_video_key" = Some v →
     urandom16 E = None →
     handler E (PDict d) w = (Raise RandomSourceError, w)) ∧
  (∀ d job_input v r e w',
     d !! "input" = Some (PDict job_input) →
     job_input !! "source_video_key" = Some v →
     urandom16 E = Some r →
     (Fs.makedirs (input_dir (job_id_of r)) ;;
      Fs.makedirs (output_dir (job_id_of r))) w = (Raise e, w') →
     handler E (PDict d) w = (Raise e, w')).
Proof.
  intros Hc. split; [|split].
  - intros d Hd. rewrite handler_configured by done.
    unfold subscript. rewrite bind_unfold, Hd. reflexivity.
  - intros d ji v Hd Hk Hr. rewrite (handler_with_key E d ji v) by done.
    unfold run_job, Uuid.uuid4_str. rewrite Hr. reflexivity.
  - intros d ji v r e w' Hd Hk Hr Hmk. rewrite (handler_with_key E d ji v) by done.
    rewrite (run_job_unfold E _ v w r Hr).
    rewrite bind_unfold in Hmk. rewrite bind_unfold.
    destruct (Fs.makedirs (input_dir (job_id_of r)) w) as [[[]|e1] w1].
    + rewrite bind_unfold, Hmk. reflexivity.
    + injection Hmk as -> ->. reflexivity.
Qed.

(** The sample job without [input]; a system without a randomness
    source; an output directory whose path is taken by a file. *)
Lemma handler_failures_before_boundary_witness :
  handler (Sample.env Sample.env_vars 0 3) Sample.job_without_input Sample.w0
    = (Raise (KeyError "input"), Sample.w0) ∧
  handler Sample.env_without_random (Sample.job "videos/clip.mov") Sample.w0
    = (Raise RandomSourceError, Sample.w0) ∧
  handler (Sample.env Sample.env_vars 0 3) (Sample.job "videos/clip.mov") Sample.w_taken
    = (Raise (OSError EEXIST (output_dir Sample.job_id)), (Sample.scratch Sample.w_taken).2).
Proof.
  split; [|split].
  - refine (proj1 (handler_failures_before_boundary (Sample.env Sample.env_vars 0 3)
      Sample.w0 sample_configured) Sample.dict_without_input _).
    reflexivity.
  - exact (proj1 (proj2 (handler_failures_before_boundary Sample.env_without_random
      Sample.w0 sample_configured))
      (Sample.job_dict (PStr "videos/clip.mov")) (Sample.input_with (PStr "videos/clip.mov"))
      (PStr "videos/clip.mov") (sample_job_input _) (sample_input_key _) eq_refl).
  - refine (proj2 (proj2 (handler_failures_before_boundary (Sample.env Sample.env_vars 0 3)
      Sample.w_taken sample_configured))
      (Sample.job_dict (PStr "videos/clip.mov")) (Sample.input_with (PStr "videos/clip.mov"))
      (PStr "videos/clip.mov") Sample.random _ _ _ _ _ _).
    + apply sample_job_input.
    + apply sample_input_key.
    + reflexivity.
    + apply (run_split (Sample.scratch Sample.w_taken)). vm_compute. reflexivity.
Defined.

(** The claim of C10 fails as worded when the storage configuration is
    absent: the check of line 102 comes before the read of
    [job['input']], so a job argument without ['input'] is answered with
    the misconfiguration response and no [KeyError] is raised. *)
Lemma handler_unconfigured_without_input :
  Sample.dict_without_input !! "input" = None ∧
  Sample.unconfigured_run = (Ok misconfigured_response, Sample.w0) ∧
  (∀ w, Sample.unconfigured_run ≠ (Raise (KeyError "input"), w)).
Proof.
  assert (H : Sample.unconfigured_run = (Ok misconfigured_response, Sample.w0))
    by (vm_compute; reflexivity).
  split; [reflexivity|]. split; [exact H|].
  intros w Heq. rewrite H in Heq. discriminate Heq.
Qed.

(** ** Inversion of a successful run *)

Lemma try_finally_Ok_inv {A} (body : M A) (final : M unit) w a w' :
  try_finally body final w = (Ok a, w') →
  ∃ w1, body w = (Ok a, w1) ∧ final w1 = (Ok tt, w').
Proof.
  unfold try_finally. destruct (body w) as [r w1].
  destruct (final w1) as [[[]|e] w2] eqn:Hf; intros H; [|discriminate].
  injection H as -> ->. exists w1. split; [reflexivity | exact Hf].
Qed.

Lemma try_except_Ok_inv {A} (body : M A) catches handle w a w' :
  try_except body catches handle w = (Ok a, w') →
  body w = (Ok a, w') ∨
  ∃ e w1, body w = (Raise e, w1) ∧ catches e = true ∧ handle e w1 = (Ok a, w').
Proof.
  unfold try_except. destruct (body w) as [[b|e] w1]; intros H.
  - left. exact H.
  - destruct (catches e) eqn:Hc; [|discriminate]. right. eauto.
Qed.

Lemma field_error_response_status message :
  field (error_response message) "status" = None.
Proof. reflexivity. Qed.


Lemma job_failed_run E e w :
  job_failed E e w =
    (Ok (error_response (str_exn E e)),
     World (fs w) (stdout w ++ ["Job failed: " +:+ str_exn E e]) (calls w)).
Proof. reflexivity. Qed.

Lemma s3_upload_file_run E filename bucket key w :
  s3_upload_file E filename bucket key w =
    let w1 := World (fs w) (stdout w) (calls w ++ [Upload filename bucket key]) in
    match fs w !! filename with
    | Some File =>
        match upload_result E filename bucket key with
        | Some e => (Raise e, w1)
        | None => (Ok tt, w1)
        end
    | Some Dir => (Raise (OSError EISDIR filename), w1)
    | None => (Raise (OSError ENOENT filename), w1)
    end.
Proof.
  unfold s3_upload_file, log, get_fs. rewrite !bind_unfold. cbv zeta.
  change (fs (World (fs w) (stdout w) (calls w ++ [Upload filename bucket key]))) with (fs w).
  destruct (fs w !! filename) as [[]|]; [|reflexivity..].
  destruct (upload_result E filename bucket key); reflexivity.
Qed.

Ltac inv_bind H :=
  let a := fresh "a" in
  let w := fresh "w" in
  let Hm := fresh "Hm" in
  apply bind_Ok_inv in H as (a & w & Hm & H).

Lemma upload_thumbnails_keys E bucket prefix paths acc w keys w' :
  upload_thumbnails E bucket prefix paths acc w = (Ok keys, w') →
  keys = (acc ++ ((λ p, prefix +:+ "/thumbnails/" +:+ OsPath.basename p) <$> paths))%list.
Proof.
  revert acc w. induction paths as [|p paths IH]; intros acc w H.
  - cbn in H. injection H as <- _. by rewrite app_nil_r.
  - cbn [upload_thumbnails] in H.
    inv_bind H. inv_bind H.
    apply IH in H. rewrite H, <- app_assoc. reflexivity.
Qed.

Lemma publish_Ok_inv E bucket job_id tf ltp paths ai w r w' :
  publish E bucket job_id tf ltp paths ai w = (Ok r, w') →
  r = success_response ("processed/" +:+ job_id +:+ "/" +:+ tf)
        (thumbnail_key job_id <$> paths) ai
        (default "https://YOUR-PUBLIC-URL.dev" (environ E !! "CLOUDFLARE_R2_PUBLIC_URL")
           +:+ "/processed/" +:+ job_id).
Proof.
  unfold publish. intros H.
  inv_bind H. inv_bind H. inv_bind H. inv_bind H.
  apply upload_thumbnails_keys in Hm1. cbn [app] in Hm1. subst a1.
  injection H as <- _. reflexivity.
Qed.

(** A run that returns a success response went through every stage. *)
Lemma handler_success_inv E job w r w' :
  handler E job w = (Ok r, w') →
  field r "status" = Some (PStr "success") →
  ∃ d job_input key rnd bucket w1 paths w2 ai w3 w4,
    job = PDict d ∧
    d !! "input" = Some (PDict job_input) ∧
    job_input !! "source_video_key" = Some (PStr key) ∧
    urandom16 E = Some rnd ∧
    let job_id := job_id_of rnd in
    let transcoded_filename :=
      (OsPath.splitext (OsPath.basename key)).1 +:+ "_processed.mp4" in
    let local_transcoded_path := OsPath.join (output_dir job_id) transcoded_filename in
    generate_thumbnails E local_transcoded_path (output_dir job_id) w1 = (Ok paths, w2) ∧
    analyze_thumbnails_ai paths w2 = (Ok ai, w3) ∧
    publish E bucket job_id transcoded_filename local_transcoded_path paths ai w3 = (Ok r, w4) ∧
    cleanup (input_dir job_id) (output_dir job_id) w4 = (Ok tt, w').
Proof.
  unfold handler. intros H Hs.
  inv_bind H. destruct a.
  { injection H as <- _. discriminate Hs. }
  inv_bind H.
  destruct job as [| | | | |d]; try discriminate Hm0.
  cbn in Hm0. destruct (d !! "input") as [ji|] eqn:Hd; [|discriminate].
  injection Hm0 as <- <-.
  unfold try_or_return in H.
  destruct ji as [| | | | |ji]; try discriminate H.
  cbn in H. destruct (ji !! "source_video_key") as [v|] eqn:Hk; cbn in H.
  2:{ injection H as <- _. discriminate Hs. }
  unfold run_job, Uuid.uuid4_str in H.
  destruct (urandom16 E) as [rnd|] eqn:Hr; [|discriminate].
  rewrite bind_unfold in H. cbn [mret M_ret] in H.
  inv_bind H. inv_bind H. inv_bind H.
  destruct v as [| | |key| |]; try discriminate Hm2.
  injection Hm2 as <- <-.
  apply try_finally_Ok_inv in H as (w4 & Hb & Hc).
  apply try_except_Ok_inv in Hb as [Hb | (e & wx & _ & _ & Hb)].
  2:{ rewrite job_failed_run in Hb. injection Hb as <- _. discriminate Hs. }
  unfold job_body in Hb.
  inv_bind Hb. inv_bind Hb. inv_bind Hb. inv_bind Hb. inv_bind Hb. inv_bind Hb.
  inv_bind Hb. inv_bind Hb.
  do 11 eexists.
  split; [reflexivity|]. split; [exact Hd|]. split; [exact Hk|]. split; [reflexivity|].
  cbv zeta. split; [eassumption|]. split; [eassumption|]. split; [eassumption|].
  exact Hc.
Qed.

(** ** Publish stage *)

(** C6. In every success response the transcoded object key is
    [processed/<job_id>/<stem>_processed.mp4], where [<stem>] is the base
    name of [source_video_key] without its extension as
    [os.path.splitext] takes it off: the base name is the part after the
    last separator, it is [<stem>] followed by the extension, and the
    extension is empty or is the last dot of the name with what follows
    it. ["videos/clip.mov"] gives [processed/<job_id>/clip_processed.mp4]. *)
Theorem handler_transcoded_key E d job_input key w r w' :
  d !! "input" = Some (PDict job_input) →
  job_input !! "source_video_key" = Some (PStr key) →
  handler E (PDict d) w = (Ok r, w') →
  field r "status" = Some (PStr "success") →
  (∃ rnd,
     urandom16 E = Some rnd ∧
     field r "transcoded_video_key" =
       Some (PStr ("processed/" +:+ job_id_of rnd +:+ "/" +:+
                   (OsPath.splitext (OsPath.basename key)).1 +:+ "_processed.mp4"))) ∧
  PyStr.contains "/" (OsPath.basename key) = false ∧
  (OsPath.splitext (OsPath.basename key)).1 +:+ (OsPath.splitext (OsPath.basename key)).2
    = OsPath.basename key ∧
  ((OsPath.splitext (OsPath.basename key)).2 = "" ∨
   ∃ e, (OsPath.splitext (OsPath.basename key)).2 = String "." e ∧
        PyStr.contains "." e = false ∧ PyStr.contains "/" e = false) ∧
  (OsPath.splitext (OsPath.basename "videos/clip.mov")).1 = "clip".
Proof.
  intros Hd Hk H Hs.
  split; [|split; [apply basename_spec|split; [apply splitext_spec|split;
    [apply splitext_spec | reflexivity]]]].
  destruct (handler_success_inv _ _ _ _ _ H Hs)
    as (d' & ji & key' & rnd & bk & w1 & paths & w2 & ai & w3 & w4 &
        Hj & Hd' & Hk' & Hr & Hg & Ha & Hp & Hc).
  injection Hj as <-. rewrite Hd in Hd'. injection Hd' as <-.
  rewrite Hk in Hk'. injection Hk' as <-.
  apply publish_Ok_inv in Hp. subst r.
  exists rnd. split; [exact Hr | reflexivity].
Qed.

(** The run on ["videos/clip.mov"]. *)
Lemma handler_transcoded_key_witness :
  field (Sample.response_of Sample.clip_run) "transcoded_video_key" =
    Some (PStr ("processed/" +:+ job_id_of Sample.random +:+ "/" +:+
                (OsPath.splitext (OsPath.basename "videos/clip.mov")).1 +:+ "_processed.mp4")) ∧
  "processed/" +:+ job_id_of Sample.random +:+ "/" +:+
    (OsPath.splitext (OsPath.basename "videos/clip.mov")).1 +:+ "_processed.mp4"
  = "processed/12345678-9abc-4ef0-9234-56789abcdef0/clip_processed.mp4".
Proof.
  split; [|vm_compute; reflexivity].
  assert (H : Sample.clip_run = (Ok (Sample.response_of Sample.clip_run), Sample.clip_run.2))
    by (apply run_returned; vm_compute; reflexivity).
  assert (Hs : field (Sample.response_of Sample.clip_run) "status" = Some (PStr "success"))
    by (vm_compute; reflexivity).
  destruct (proj1 (handler_transcoded_key (Sample.env Sample.env_vars 0 3)
      (Sample.job_dict (PStr "videos/clip.mov")) (Sample.input_with (PStr "videos/clip.mov"))
      "videos/clip.mov" Sample.w0 _ _
      (sample_job_input _) (sample_input_key _) H Hs))
    as (rnd & Hr & Hf).
  injection Hr as <-. exact Hf.
Defined.

(** A clip too short for a single thumbnail: the job succeeds with an
    empty list of thumbnail keys. *)
Example zero_thumbnails_job_succeeds :
  let r := Sample.response_of
             (handler (Sample.env Sample.env_vars 0 0) (Sample.job "videos/clip.mov") Sample.w0) in
  field r "status" = Some (PStr "success") ∧
  field r "thumbnail_keys" = Some (PList []).
Proof. cbv zeta. split; vm_compute; reflexivity. Qed.

(** ** Analysis placeholder *)

(** C9, as amended. For every list of thumbnail paths, the empty one
    included, the analysis stage returns the fixed mapping
    [{status: "pending", message: "AI analysis will be implemented in the
    future."}] whatever its input; it leaves the filesystem untouched and
    calls no collaborator, its one effect being a fixed line printed on
    standard output. *)
Theorem analyze_thumbnails_ai_placeholder thumbnail_paths w :
  analyze_thumbnails_ai thumbnail_paths w =
    (Ok ai_metadata,
     World (fs w) (stdout w ++ ["AI analysis placeholder: Not implemented yet."]) (calls w)) ∧
  field ai_metadata "status" = Some (PStr "pending") ∧
  field ai_metadata "message" = Some (PStr "AI analysis will be implemented in the future.") ∧
  ∀ k, k ≠ "status" → k ≠ "message" → field ai_metadata k = None.
Proof.
  split; [reflexivity|]. split; [reflexivity|]. split; [reflexivity|].
  intros k H1 H2. unfold field, ai_metadata. cbn [list_to_map foldr].
  rewrite lookup_insert_ne by (cbn; congruence).
  rewrite lookup_insert_ne by (cbn; congruence).
  apply lookup_empty.
Qed.

(** The placeholder on two thumbnail paths: the mapping has no
    ["error"] entry. *)
Lemma analyze_thumbnails_ai_placeholder_witness :
  analyze_thumbnails_ai Sample.two_thumbnails Sample.w0 =
    (Ok ai_metadata,
     World ∅ ["AI analysis placeholder: Not implemented yet."] []) ∧
  field ai_metadata "error" = None.
Proof.
  destruct (analyze_thumbnails_ai_placeholder Sample.two_thumbnails Sample.w0)
    as (Hrun & _ & _ & Hother).
  split; [exact Hrun|].
  apply Hother; discriminate.
Defined.

(** The claim of C9 fails on "no I/O, no state change": the stage
    prints, so the world after the call differs from the world before. *)
Lemma analyze_thumbnails_ai_prints :
  analyze_thumbnails_ai [] Sample.w0 ≠ (Ok ai_metadata, Sample.w0) ∧
  stdout (analyze_thumbnails_ai [] Sample.w0).2 =
    ["AI analysis placeholder: Not implemented yet."].
Proof. split; [discriminate | reflexivity]. Qed.

(** ** The catch-all boundary *)

Lemma job_body_Ok_success E g job_id key lip tf ltp out w r w' :
  job_body E g job_id key lip tf ltp out w = (Ok r, w') → success_shape r.
Proof.
  unfold job_body. intros H.
  inv_bind H. inv_bind H. inv_bind H. inv_bind H. inv_bind H. inv_bind H.
  inv_bind H. inv_bind H.
  apply publish_Ok_inv in H. subst r. unfold success_shape. eauto 10.
Qed.

Lemma guarded_body_total E g job_id key lip tf ltp out w :
  ∃ r w',
    guarded_body E g job_id key lip tf ltp out w = (Ok r, w') ∧
    (success_shape r ∨ error_shape r).
Proof.
  unfold guarded_body, try_except.
  destruct (job_body E g job_id key lip tf ltp out w) as [[r|e] w1] eqn:Hb.
  - exists r, w1. split; [reflexivity|]. left. eapply job_body_Ok_success, Hb.
  - cbn. rewrite job_failed_run. eexists _, _. split; [reflexivity|].
    right. unfold error_shape. eauto.
Qed.

(** ** Cleanup *)

Lemma shrinks_refl w : shrinks w w.
Proof. intros q H. exact H. Qed.

Lemma shrinks_trans w1 w2 w3 : shrinks w1 w2 → shrinks w2 w3 → shrinks w1 w3.
Proof. intros H12 H23 q H. apply H23, H12, H. Qed.

Lemma remove_shrinks p w o w1 : Fs.remove p w = (o, w1) → shrinks w w1.
Proof.
  rewrite remove_run. intros H q Hq.
  destruct (fs w !! p) as [[]|]; injection H as _ <-; cbn; try exact Hq.
  rewrite lookup_delete. case_decide; [reflexivity | exact Hq].
Qed.

Lemma rmdir_Ok p w w1 :
  Fs.rmdir p w = (Ok tt, w1) → fs w1 !! p = None ∧ shrinks w w1.
Proof.
  rewrite rmdir_run. intros H.
  destruct (fs w !! p) as [[]|]; try discriminate H.
  destruct (Fs.listdir p (fs w)); [|discriminate H].
  injection H as <-. cbn. split; [apply lookup_delete_eq|].
  intros q Hq. cbn. rewrite lookup_delete. case_decide; [reflexivity | exact Hq].
Qed.

Lemma for_each_remove_shrinks files w o w1 :
  for_each files Fs.remove w = (o, w1) → shrinks w w1.
Proof.
  revert w. induction files as [|f files IH]; intros w H.
  - injection H as _ <-. apply shrinks_refl.
  - cbn [for_each] in H. rewrite bind_unfold in H.
    destruct (Fs.remove f w) as [[[]|e] wa] eqn:Hr.
    + eapply shrinks_trans; [eapply remove_shrinks, Hr | eapply IH, H].
    + injection H as _ <-. eapply remove_shrinks, Hr.
Qed.

Lemma cleanup_dir_Ok dir_path w w1 :
  cleanup_dir dir_path w = (Ok tt, w1) →
  fs w1 !! dir_path = None ∧ shrinks w w1.
Proof.
  unfold cleanup_dir. rewrite bind_unfold, exists_run.
  case_bool_decide as Hex.
  - rewrite bind_unfold, glob_run, bind_unfold.
    destruct (for_each (Fs.matches (dir_path +:+ "/*") (fs w)) Fs.remove w)
      as [[[]|e] wa] eqn:Hf; [|discriminate].
    intros H. apply rmdir_Ok in H as [Hd Hs]. split; [exact Hd|].
    eapply shrinks_trans; [eapply for_each_remove_shrinks, Hf | exact Hs].
  - intros H. apply pair_Ok_inj in H as [_ <-]. split; [|apply shrinks_refl].
    destruct (fs w !! dir_path) eqn:Hl; [|reflexivity].
    exfalso. apply Hex. eauto.
Qed.

(** Once the cleanup step has completed, neither scratch directory
    exists. *)
Lemma cleanup_Ok local_input_dir local_output_dir w w1 :
  cleanup local_input_dir local_output_dir w = (Ok tt, w1) →
  fs w1 !! local_input_dir = None ∧ fs w1 !! local_output_dir = None.
Proof.
  unfold cleanup. intros H.
  inv_bind H. inv_bind H.
  rewrite print_run in H. apply pair_Ok_inj in H as [_ <-]. cbn [fs].
  cbn [for_each] in Hm0.
  inv_bind Hm0. inv_bind Hm0. apply pair_Ok_inj in Hm0 as [_ <-].
  destruct a1, a2.
  apply cleanup_dir_Ok in Hm1 as [Hi _].
  apply cleanup_dir_Ok in Hm2 as [Ho Hs].
  split; [apply Hs, Hi | exact Ho].
Qed.

(** The cleanup step tolerates directories that are already gone: it
    touches nothing and raises nothing. *)
Lemma cleanup_absent local_input_dir local_output_dir w :
  fs w !! local_input_dir = None →
  fs w !! local_output_dir = None →
  cleanup local_input_dir local_output_dir w =
    (Ok tt, World (fs w)
              (stdout w ++ ["Cleaning up local files..."] ++ ["Cleanup complete."])
              (calls w)).
Proof.
  intros Hi Ho. unfold cleanup.
  rewrite bind_unfold, print_run, bind_unfold. cbn [for_each].
  assert (Hdir : ∀ d w2, fs w2 !! d = None → cleanup_dir d w2 = (Ok tt, w2)).
  { intros d w2 Hd. unfold cleanup_dir. rewrite bind_unfold, exists_run.
    case_bool_decide as Hex; [|reflexivity].
    rewrite Hd in Hex. by destruct Hex. }
  rewrite bind_unfold, (Hdir local_input_dir) by exact Hi.
  rewrite bind_unfold, (Hdir local_output_dir) by exact Ho.
  cbn [mret M_ret]. rewrite print_run. cbn [fs stdout calls].
  rewrite <- app_assoc. reflexivity.
Qed.

(** Whenever [handler] returns after it has read a [source_video_key],
    both scratch directories of the job are gone. *)
Lemma handler_returned_scratch_removed E d job_input v w r w' :
  configured (environ E) →
  d !! "input" = Some (PDict job_input) →
  job_input !! "source_video_key" = Some v →
  handler E (PDict d) w = (Ok r, w') →
  ∃ rnd,
    urandom16 E = Some rnd ∧
    fs w' !! input_dir (job_id_of rnd) = None ∧
    fs w' !! output_dir (job_id_of rnd) = None.
Proof.
  intros Hc Hd Hk H.
  rewrite (handler_with_key E d job_input v) in H by done.
  destruct (urandom16 E) as [rnd|] eqn:Hr.
  2:{ unfold run_job, Uuid.uuid4_str in H. rewrite Hr in H. discriminate H. }
  rewrite (run_job_unfold E _ v w rnd Hr) in H.
  inv_bind H. inv_bind H. inv_bind H.
  apply try_finally_Ok_inv in H as (w4 & _ & Hcl).
  apply cleanup_Ok in Hcl. exists rnd. split; [reflexivity | exact Hcl].
Qed.

(** The run on ["videos/clip.mov"] returns with both scratch directories
    removed and nothing left in the temporary root. *)
Example clip_run_cleans_up :
  Sample.returned Sample.clip_run = true ∧
  fs Sample.clip_run.2 !! input_dir Sample.job_id = None ∧
  fs Sample.clip_run.2 !! output_dir Sample.job_id = None ∧
  map_to_list (fs Sample.clip_run.2) = [].
Proof. split; [|split; [|split]]; vm_compute; reflexivity. Qed.

(** C1, at the failing input. The source key ["videos/.clip.mov"] is
    downloaded to [<input dir>/.clip.mov]; [glob("<input dir>/*")] does not
    list names that start with a dot, so the file is not removed,
    [os.rmdir] raises [OSError] (directory not empty), the loop stops
    before the output directory, and [handler] ends with that exception
    while both scratch directories and their files are still there. *)
Theorem cleanup_misses_hidden_files :
  let r := Sample.hidden_run 0 in
  r.1 = Raise (OSError ENOTEMPTY (input_dir Sample.job_id)) ∧
  fs r.2 !! input_dir Sample.job_id = Some Dir ∧
  fs r.2 !! (input_dir Sample.job_id +:+ "/.clip.mov") = Some File ∧
  fs r.2 !! output_dir Sample.job_id = Some Dir ∧
  fs r.2 !! (output_dir Sample.job_id +:+ "/.clip_processed.mp4") = Some File.
Proof.
  cbv zeta.
  split; [|split; [|split; [|split]]]; vm_compute; reflexivity.
Qed.

Lemma s3_download_file_ok E bucket key filename w :
  download_result E bucket key filename = None →
  Fs.writable filename (fs w) = None →
  s3_download_file E bucket key filename w =
    (Ok tt, World (<[filename := File]> (fs w)) (stdout w)
              (calls w ++ [Download bucket key filename])).
Proof.
  intros Hd Hw. unfold s3_download_file, log, get_fs. rewrite bind_unfold, Hd.
  rewrite bind_unfold.
  change (fs (World (fs w) (stdout w) (calls w ++ [Download bucket key filename])))
    with (fs w).
  rewrite Hw. reflexivity.
Qed.

Lemma subprocess_run_check_failed E command status n w :
  ffmpeg_result E command = Some (status, n) →
  status ≠ 0 →
  subprocess_run_check E command w =
    (Raise (CalledProcessError status command),
     World (foldl (λ f p, Fs.write_file p f) (fs w) (Ffmpeg.outputs command n))
       (stdout w) (calls w ++ [Subprocess command])).
Proof.
  intros Hr Hs. unfold subprocess_run_check, log, get_fs, set_fs.
  rewrite bind_unfold, Hr, !bind_unfold. cbn [fs stdout calls].
  destruct (Z.eqb_spec status 0) as [->|_]; [done | reflexivity].
Qed.

(** When the download has succeeded and the transcode run exits with a
    status other than 0, the guarded suite ends with the error response
    built from [CalledProcessError] and has made no upload: the only
    calls it added are the download and the transcode run. *)
Lemma transcode_failure_no_upload E g job_id key lip tf ltp out w bucket client status n :
  S3_BUCKET_NAME g = Some bucket →
  s3 g = Some client →
  download_result E bucket key lip = None →
  Fs.writable lip (fs w) = None →
  ffmpeg_result E (transcode_command lip ltp) = Some (status, n) →
  status ≠ 0 →
  ∃ w',
    guarded_body E g job_id key lip tf ltp out w =
      (Ok (error_response (str_exn E (CalledProcessError status (transcode_command lip ltp)))), w') ∧
    calls w' =
      (calls w ++ [Download bucket key lip; Subprocess (transcode_command lip ltp)])%list ∧
    filter (λ c, is_upload c = true) (calls w') = filter (λ c, is_upload c = true) (calls w).
Proof.
  intros Hb Hc Hd Hw Hf Hs.
  unfold guarded_body, try_except, job_body. rewrite Hb, Hc.
  cbn [global]. rewrite bind_unfold. cbn [mret M_ret].
  rewrite bind_unfold, print_run, bind_unfold. cbn [mret M_ret].
  rewrite bind_unfold, s3_download_file_ok by assumption.
  rewrite bind_unfold, print_run.
  unfold transcode_to_mp4. cbv zeta. fold (transcode_command lip ltp).
  rewrite bind_unfold, bind_unfold, print_run, bind_unfold.
  rewrite (subprocess_run_check_failed E _ status n) by assumption.
  cbn [is_Exception]. rewrite job_failed_run. cbn [fs stdout calls].
  eexists. split; [reflexivity|]. cbn [calls]. split.
  - rewrite <- app_assoc. reflexivity.
  - rewrite <- app_assoc, filter_app. cbn. apply app_nil_r.
Qed.

Lemma same_uploads_refl w : same_uploads w w.
Proof. reflexivity. Qed.

Lemma same_uploads_trans w1 w2 w3 :
  same_uploads w1 w2 → same_uploads w2 w3 → same_uploads w1 w3.
Proof. unfold same_uploads. intros H12 H23. by rewrite H23. Qed.

Lemma same_uploads_log w f out c :
  is_upload c = false → same_uploads w (World f out (calls w ++ [c])).
Proof.
  intros Hc. unfold same_uploads. cbn [calls]. rewrite filter_app.
  rewrite filter_cons_False by (rewrite Hc; discriminate).
  rewrite filter_nil. apply app_nil_r.
Qed.

Lemma remove_same_uploads p w o w1 : Fs.remove p w = (o, w1) → same_uploads w w1.
Proof.
  rewrite remove_run. intros H.
  destruct (fs w !! p) as [[]|]; injection H as _ <-; by apply same_uploads_log.
Qed.

Lemma rmdir_same_uploads p w o w1 : Fs.rmdir p w = (o, w1) → same_uploads w w1.
Proof.
  rewrite rmdir_run. intros H.
  destruct (fs w !! p) as [[]|]; [|destruct (Fs.listdir p (fs w))|];
    injection H as _ <-; by apply same_uploads_log.
Qed.

Lemma for_each_remove_same_uploads files w o w1 :
  for_each files Fs.remove w = (o, w1) → same_uploads w w1.
Proof.
  revert w. induction files as [|f files IH]; intros w H.
  - injection H as _ <-. apply same_uploads_refl.
  - cbn [for_each] in H. rewrite bind_unfold in H.
    destruct (Fs.remove f w) as [[[]|e] wa] eqn:Hr.
    + eapply same_uploads_trans; [eapply remove_same_uploads, Hr | eapply IH, H].
    + injection H as _ <-. eapply remove_same_uploads, Hr.
Qed.

Lemma cleanup_dir_same_uploads dir_path w o w1 :
  cleanup_dir dir_path w = (o, w1) → same_uploads w w1.
Proof.
  unfold cleanup_dir. rewrite bind_unfold, exists_run.
  case_bool_decide as Hex.
  - rewrite bind_unfold, glob_run, bind_unfold.
    destruct (for_each (Fs.matches (dir_path +:+ "/*") (fs w)) Fs.remove w)
      as [[[]|e] wa] eqn:Hf.
    + intros H. eapply same_uploads_trans;
        [eapply for_each_remove_same_uploads, Hf | eapply rmdir_same_uploads, H].
    + intros H. injection H as _ <-. eapply for_each_remove_same_uploads, Hf.
  - intros H. injection H as _ <-. apply same_uploads_refl.
Qed.

(** The cleanup step uploads nothing, whether it completes or raises. *)
Lemma cleanup_same_uploads local_input_dir local_output_dir w o w1 :
  cleanup local_input_dir local_output_dir w = (o, w1) → same_uploads w w1.
Proof.
  unfold cleanup. rewrite bind_unfold, print_run, bind_unfold. cbn [for_each].
  rewrite bind_unfold.
  set (wp := World (fs w) (stdout w ++ ["Cleaning up local files..."]) (calls w)).
  assert (Hp : same_uploads w wp) by reflexivity.
  destruct (cleanup_dir local_input_dir wp) as [[[]|e] wa] eqn:Ha.
  2:{ intros H. injection H as _ <-.
      eapply same_uploads_trans; [exact Hp | eapply cleanup_dir_same_uploads, Ha]. }
  rewrite bind_unfold.
  destruct (cleanup_dir local_output_dir wa) as [[[]|e] wb] eqn:Hb.
  2:{ intros H. injection H as _ <-.
      eapply same_uploads_trans; [exact Hp|].
      eapply same_uploads_trans; eapply cleanup_dir_same_uploads; eassumption. }
  cbn [mret M_ret]. rewrite print_run. intros H. injection H as _ <-.
  eapply same_uploads_trans; [exact Hp|].
  eapply same_uploads_trans; [eapply cleanup_dir_same_uploads, Ha|].
  eapply same_uploads_trans; [eapply cleanup_dir_same_uploads, Hb|].
  reflexivity.
Qed.

(** A job whose transcode run exits with a status other than 0, after a
    download that succeeded: whether or not the cleanup step then
    completes, the job has made no upload; and when the cleanup step
    completes, [handler] returns the error response built from
    [CalledProcessError] and both scratch directories are gone. *)
Lemma handler_transcode_failure E d job_input key rnd bucket w w1 status n :
  configured (environ E) →
  d !! "input" = Some (PDict job_input) →
  job_input !! "source_video_key" = Some (PStr key) →
  urandom16 E = Some rnd →
  (Fs.makedirs (input_dir (job_id_of rnd)) ;;
   Fs.makedirs (output_dir (job_id_of rnd))) w = (Ok tt, w1) →
  let local_input_path := OsPath.join (input_dir (job_id_of rnd)) (OsPath.basename key) in
  let local_transcoded_path :=
    OsPath.join (output_dir (job_id_of rnd))
      ((OsPath.splitext (OsPath.basename key)).1 +:+ "_processed.mp4") in
  environ E !! "CLOUDFLARE_R2_BUCKET_NAME" = Some bucket →
  download_result E bucket key local_input_path = None →
  Fs.writable local_input_path (fs w1) = None →
  ffmpeg_result E (transcode_command local_input_path local_transcoded_path)
    = Some (status, n) →
  status ≠ 0 →
  same_uploads w1 (handler E (PDict d) w).2 ∧
  ((∃ e, (handler E (PDict d) w).1 = Raise e) ∨
   ((handler E (PDict d) w).1 =
      Ok (error_response
            (str_exn E (CalledProcessError status
                          (transcode_command local_input_path local_transcoded_path)))) ∧
    fs (handler E (PDict d) w).2 !! input_dir (job_id_of rnd) = None ∧
    fs (handler E (PDict d) w).2 !! output_dir (job_id_of rnd) = None)).
Proof.
  intros Hc Hd Hk Hr Hmk lip ltp Hb Hdl Hw Hf Hs.
  destruct (module_init_configured _ Hc) as (a & b & c & bk & Hg).
  assert (Hbk : S3_BUCKET_NAME (module_init (environ E)).1 = Some bucket).
  { rewrite Hg. cbn. unfold module_init in Hg. rewrite Hb in Hg.
    destruct (environ E !! "CLOUDFLARE_ACCOUNT_ID"); [|discriminate Hg].
    destruct (environ E !! "CLOUDFLARE_R2_ACCESS_KEY_ID"); [|discriminate Hg].
    destruct (environ E !! "CLOUDFLARE_R2_SECRET_ACCESS_KEY"); [|discriminate Hg].
    cbn in Hg. by injection Hg as _ _ _ <-. }
  assert (Hs3 : ∃ client, s3 (module_init (environ E)).1 = Some client).
  { rewrite Hg. eauto. }
  destruct Hs3 as (client & Hs3).
  destruct (transcode_failure_no_upload E (module_init (environ E)).1 (job_id_of rnd) key
      lip ((OsPath.splitext (OsPath.basename key)).1 +:+ "_processed.mp4") ltp
      (output_dir (job_id_of rnd)) w1 bucket client status n Hbk Hs3 Hdl Hw Hf Hs)
    as (w2 & Hgb & _ & Hup).
  rewrite (handler_with_key E d job_input (PStr key)) by done.
  rewrite (run_job_unfold E _ _ w rnd Hr).
  rewrite bind_unfold in Hmk. rewrite bind_unfold.
  destruct (Fs.makedirs (input_dir (job_id_of rnd)) w) as [[[]|e1] wa]; [|discriminate].
  rewrite bind_unfold, Hmk. cbn [fspath]. rewrite bind_unfold. cbn [mret M_ret].
  unfold try_finally. fold lip ltp. rewrite Hgb.
  destruct (cleanup (input_dir (job_id_of rnd)) (output_dir (job_id_of rnd)) w2)
    as [[[]|e] w3] eqn:Hcl; cbn [fst snd].
  - split.
    + eapply same_uploads_trans; [exact Hup | eapply cleanup_same_uploads, Hcl].
    + right. split; [reflexivity|]. eapply cleanup_Ok, Hcl.
  - split.
    + eapply same_uploads_trans; [exact Hup | eapply cleanup_same_uploads, Hcl].
    + left. eauto.
Qed.

(** C4, at the failing input. Same source key, and the transcode run
    exits with status 1: no upload is made, but the cleanup step raises as
    above, so [handler] ends with [OSError] instead of returning the error
    response, and both scratch directories remain. *)
Theorem transcode_failure_hidden_source :
  let r := Sample.hidden_run 1 in
  r.1 = Raise (OSError ENOTEMPTY (input_dir Sample.job_id)) ∧
  filter (λ c, is_upload c = true) (calls r.2) = [] ∧
  fs r.2 !! input_dir Sample.job_id = Some Dir ∧
  fs r.2 !! output_dir Sample.job_id = Some Dir.
Proof.
  cbv zeta.
  split; [|split; [|split]]; vm_compute; reflexivity.
Qed.

(** ** Thumbnail order *)

Section StringOrder.

Lemma str_lt_le a b : str_lt a b → String.le a b.
Proof.
  unfold str_lt, String.le, String.leb. intros ->. exact I.
Qed.

Lemma str_lt_irrefl a : ¬ str_lt a a.
Proof.
  unfold str_lt. intros H. pose proof (String.compare_antisym a a) as Ha.
  rewrite H in Ha. discriminate Ha.
Qed.

Lemma str_le_lt_or_eq a b : String.le a b → str_lt a b ∨ a = b.
Proof.
  unfold str_lt, String.le, String.leb.
  destruct (String.compare a b) eqn:Hc; intros H.
  - right. by apply String.compare_eq_iff.
  - by left.
  - destruct H.
Qed.

Lemma str_lt_trans a b c : str_lt a b → str_lt b c → str_lt a c.
Proof.
  intros Hab Hbc.
  assert (Hac : String.le a c).
  { etrans; eapply str_lt_le; eassumption. }
  destruct (str_le_lt_or_eq a c Hac) as [H | Heq]; [exact H|].
  subst c. exfalso.
  pose proof (String.compare_antisym a b) as Ha.
  unfold str_lt in Hab, Hbc. rewrite Hab, Hbc in Ha. discriminate Ha.
Qed.

Lemma compare_common_prefix p a b :
  String.compare (p +:+ a) (p +:+ b) = String.compare a b.
Proof.
  induction p as [|c p IH]; [reflexivity|].
  change (String c p +:+ a) with (String c (p +:+ a)).
  change (String c p +:+ b) with (String c (p +:+ b)).
  cbn [String.compare].
  assert (Hc : Ascii.compare c c = Eq) by apply N.compare_refl.
  rewrite Hc. exact IH.
Qed.

End StringOrder.

Section Frames.
Import PyStr.

Lemma startswith_percent_cons c r q :
  Ascii.eqb c "%" = false → startswith (String "%" q) (String c r) = false.
Proof.
  intros H. cbn [startswith]. rewrite Ascii.eqb_sym, H. reflexivity.
Qed.

Lemma expand_literal_prefix p rest i :
  contains "%" p = false →
  Ffmpeg.expand (p +:+ rest) i = p +:+ Ffmpeg.expand rest i.
Proof.
  induction p as [|c p IH]; intros Hp; [reflexivity|].
  cbn [contains] in Hp. apply orb_false_iff in Hp as [Hc Hp].
  change (String c p +:+ rest) with (String c (p +:+ rest)).
  cbn [Ffmpeg.expand].
  rewrite (startswith_percent_cons c (p +:+ rest) "03d" Hc).
  rewrite (IH Hp). reflexivity.
Qed.

Lemma frame_path_shape output_dir :
  contains "%" output_dir = false →
  ∃ p, ∀ i, frame_path output_dir i = p +:+ "thumb_" +:+ format_03d i +:+ ".jpg".
Proof.
  intros Hd. unfold frame_path, OsPath.join.
  change (startswith "/" "thumb_%03d.jpg") with false. cbv iota.
  destruct (String.eqb output_dir "" || endswith_sep output_dir).
  - exists output_dir. intros i. rewrite (expand_literal_prefix _ _ _ Hd). reflexivity.
  - exists (output_dir +:+ "/"). intros i.
    assert (Hp : contains "%" (output_dir +:+ "/") = false).
    { clear -Hd. induction output_dir as [|c r IH]; [reflexivity|].
      cbn [contains] in Hd. apply orb_false_iff in Hd as [Hc Hr].
      change (String c r +:+ "/") with (String c (r +:+ "/")).
      cbn [contains]. rewrite Hc, (IH Hr). reflexivity. }
    rewrite (append_assoc output_dir "/" "thumb_%03d.jpg").
    rewrite (expand_literal_prefix _ _ _ Hp). reflexivity.
Qed.

Lemma frames_increase_step suffix from count k :
  frames_increase suffix from count = true →
  (k < count)%nat →
  str_lt (format_03d (from + N.of_nat k) +:+ suffix)
         (format_03d (from + N.of_nat k + 1) +:+ suffix).
Proof.
  revert from k. induction count as [|count IH]; intros from k H Hk; [lia|].
  cbn [frames_increase] in H.
  destruct (String.compare (format_03d from +:+ suffix)
              (format_03d (from + 1) +:+ suffix)) eqn:Hc; try discriminate H.
  destruct k as [|k].
  - rewrite N.add_0_r. exact Hc.
  - replace (from + N.of_nat (S k))%N with (from + 1 + N.of_nat k)%N by lia.
    apply IH; [exact H | lia].
Qed.

Lemma frames_increase_999 : frames_increase ".jpg" 1 998 = true.
Proof. vm_compute. reflexivity. Qed.

Lemma frame_names_ordered (i j : N) :
  (1 ≤ i)%N → (i < j)%N → (j ≤ 999)%N →
  str_lt (format_03d i +:+ ".jpg") (format_03d j +:+ ".jpg").
Proof.
  intros Hi Hij Hj.
  assert (Hgen : ∀ d : nat, (N.of_nat d + i < 999)%N →
            str_lt (format_03d i +:+ ".jpg") (format_03d (i + 1 + N.of_nat d) +:+ ".jpg")).
  { induction d as [|d IH]; intros Hd.
    - rewrite N.add_0_r.
      replace i with (1 + N.of_nat (N.to_nat (i - 1)))%N at 1 2 by lia.
      apply (frames_increase_step ".jpg" 1 998 _ frames_increase_999). lia.
    - eapply str_lt_trans; [apply IH; lia|].
      replace (i + 1 + N.of_nat (S d))%N with (i + 1 + N.of_nat d + 1)%N by lia.
      replace (i + 1 + N.of_nat d)%N with (1 + N.of_nat (N.to_nat (i + N.of_nat d)))%N by lia.
      apply (frames_increase_step ".jpg" 1 998 _ frames_increase_999). lia. }
  replace j with (i + 1 + N.of_nat (N.to_nat (j - i - 1)))%N by lia.
  apply Hgen. lia.
Qed.

End Frames.

Lemma generate_thumbnails_Ok_inv E input_path output_dir w paths w' :
  generate_thumbnails E input_path output_dir w = (Ok paths, w') →
  paths = sorted (Fs.matches (OsPath.join output_dir "thumb_*.jpg") (fs w')).
Proof.
  unfold generate_thumbnails. intros H.
  inv_bind H. inv_bind H. inv_bind H. inv_bind H.
  apply pair_Ok_inj in H as [<- <-].
  rewrite glob_run in Hm1. apply pair_Ok_inj in Hm1 as [<- <-].
  rewrite print_run in Hm2. apply pair_Ok_inj in Hm2 as [_ <-].
  reflexivity.
Qed.

(** ** Thumbnails in capture order *)

Section Listing.
Import PyStr.

Variable o : string.
Hypothesis o_nonempty : o ≠ "".
Hypothesis o_no_trailing_sep : endswith_sep o = false.

Lemma rfind_last c a b :
  contains c b = false → rfind c (a +:+ String c b) = Z.of_nat (String.length a).
Proof.
  intros Hb.
  destruct (rfind_spec c (a +:+ String c b)) as [[Hn _] | (a' & b' & Hp & Hb' & ->)].
  { rewrite contains_append in Hn. apply orb_false_iff in Hn as [_ Hn].
    cbn [contains] in Hn. rewrite Ascii.eqb_refl in Hn. discriminate Hn. }
  f_equal. f_equal.
  destruct (Nat.le_gt_cases (String.length a) (String.length a')) as [Hl|Hl].
  - destruct (append_split a (String c b) a' (String c b') Hp Hl) as (t & -> & Ht).
    destruct t as [|y t]; [by rewrite append_empty_r|].
    change (String c b = String y (t +:+ String c b')) in Ht.
    injection Ht as _ ->. rewrite contains_append in Hb.
    apply orb_false_iff in Hb as [_ Hb]. cbn [contains] in Hb.
    rewrite Ascii.eqb_refl in Hb. discriminate Hb.
  - destruct (append_split a' (String c b') a (String c b) (eq_sym Hp) ltac:(lia))
      as (t & -> & Ht).
    destruct t as [|y t]; [by rewrite append_empty_r|].
    change (String c b' = String y (t +:+ String c b)) in Ht.
    injection Ht as _ ->. rewrite contains_append in Hb'.
    apply orb_false_iff in Hb' as [_ Hb']. cbn [contains] in Hb'.
    rewrite Ascii.eqb_refl in Hb'. discriminate Hb'.
Qed.

Lemma rstrip_sep_append_sep a : rstrip_sep (a +:+ "/") = rstrip_sep a.
Proof.
  induction a as [|x a IH]; [reflexivity|].
  change (String x a +:+ "/") with (String x (a +:+ "/")).
  cbn [rstrip_sep]. rewrite IH. reflexivity.
Qed.

Lemma rstrip_sep_id a : a ≠ "" → endswith_sep a = false → rstrip_sep a = a.
Proof.
  induction a as [|x a IH]; [done|]. intros _ He.
  cbn [rstrip_sep]. destruct a as [|y a].
  - cbn in He. cbn. rewrite He. reflexivity.
  - rewrite IH; [reflexivity | done | exact He].
Qed.

Lemma all_sep_append_sep a : a ≠ "" → endswith_sep a = false → all_sep (a +:+ "/") = false.
Proof.
  induction a as [|x a IH]; [done|]. intros _ He.
  change (String x a +:+ "/") with (String x (a +:+ "/")). cbn [all_sep].
  destruct a as [|y a].
  - cbn in He. rewrite He. reflexivity.
  - rewrite IH; [apply andb_false_r | done | exact He].
Qed.

Lemma entry_assoc name : o +:+ String "/" name = (o +:+ "/") +:+ name.
Proof. rewrite <- append_assoc. reflexivity. Qed.

Lemma split_entry name :
  contains "/" name = false → OsPath.split (o +:+ String "/" name) = (o, name).
Proof.
  intros Hn. unfold OsPath.split. rewrite (rfind_last "/" o name Hn).
  replace (Z.of_nat (String.length o) + 1)
    with (Z.of_nat (String.length (o +:+ "/")))
    by (rewrite str_length_append; cbn; lia).
  rewrite (entry_assoc name), slice_to_append, slice_from_append.
  rewrite all_sep_append_sep by assumption.
  destruct (String.eqb_spec (o +:+ "/") "") as [He|_].
  { destruct o; discriminate He. }
  cbn [negb andb]. rewrite rstrip_sep_append_sep, rstrip_sep_id by assumption.
  reflexivity.
Qed.

Lemma join_entry name :
  startswith "/" name = false → OsPath.join o name = o +:+ String "/" name.
Proof.
  intros Hn. unfold OsPath.join. rewrite Hn, o_no_trailing_sep.
  destruct (String.eqb_spec o "") as [He|_]; [done | reflexivity].
Qed.

Lemma startswith_append a b : startswith a (a +:+ b) = true.
Proof.
  induction a as [|x a IH]; [reflexivity|].
  change (String x a +:+ b) with (String x (a +:+ b)). cbn [startswith].
  rewrite Ascii.eqb_refl. exact IH.
Qed.

Lemma child_entry name :
  name ≠ "" → contains "/" name = false →
  Fs.child_name o (o +:+ String "/" name) = Some name.
Proof.
  intros Hne Hn. unfold Fs.child_name.
  rewrite (entry_assoc name), startswith_append, slice_from_append, Hn.
  destruct (String.eqb_spec name "") as [He|_]; [done | reflexivity].
Qed.

Lemma entry_ne_dir name : o +:+ String "/" name ≠ o.
Proof.
  intros H. apply (f_equal String.length) in H.
  rewrite str_length_append in H. cbn in H. lia.
Qed.

Lemma entry_inj name name' :
  o +:+ String "/" name = o +:+ String "/" name' → name = name'.
Proof. intros H. apply append_inj in H. by injection H. Qed.

Lemma listed_thumbnail_true name :
  listed_thumbnail name = true →
  name ≠ "" ∧ contains "/" name = false ∧ name ≠ "." ∧ name ≠ ".." ∧
  Fnmatch.ishidden name = false ∧ Fnmatch.fnmatch "thumb_*.jpg" name = true.
Proof.
  unfold listed_thumbnail. intros H.
  repeat (apply andb_true_iff in H as [H ?]).
  repeat match goal with
         | H : negb _ = true |- _ => apply negb_true_iff in H
         end.
  repeat split; try assumption; intros ->; discriminate.
Qed.

Lemma writable_entry f name :
  f !! o = Some Dir →
  f !! (o +:+ String "/" name) = None →
  listed_thumbnail name = true →
  Fs.writable (o +:+ String "/" name) f = None.
Proof.
  intros Hd Hf Hl.
  destruct (listed_thumbnail_true name Hl) as (H1 & H2 & H3 & H4 & _).
  unfold Fs.writable. rewrite (split_entry name H2), Hf, Hd.
  destruct (String.eqb_spec name "") as [?|_]; [done|].
  destruct (String.eqb_spec name ".") as [?|_]; [done|].
  destruct (String.eqb_spec name "..") as [?|_]; [done|].
  reflexivity.
Qed.

Lemma listdir_insert_entry f name :
  f !! o = Some Dir →
  f !! (o +:+ String "/" name) = None →
  listed_thumbnail name = true →
  Fs.listdir o (<[o +:+ String "/" name := File]> f) ≡ₚ name :: Fs.listdir o f.
Proof.
  intros Hd Hf Hl.
  destruct (listed_thumbnail_true name Hl) as (H1 & H2 & _).
  unfold Fs.listdir.
  rewrite lookup_insert_ne by apply entry_ne_dir. rewrite Hd.
  rewrite (map_to_list_insert f _ File Hf). cbn [omap list_omap fst].
  rewrite (child_entry name H1 H2). reflexivity.
Qed.

(** Writing fresh, listed names into the directory adds exactly these
    names to its listing. *)
Lemma write_entries names f :
  NoDup names →
  Forall (λ n, listed_thumbnail n = true) names →
  (∀ n, n ∈ names → f !! (o +:+ String "/" n) = None) →
  f !! o = Some Dir →
  foldl (λ f p, Fs.write_file p f) f ((λ n, o +:+ String "/" n) <$> names) !! o = Some Dir ∧
  Fs.listdir o (foldl (λ f p, Fs.write_file p f) f ((λ n, o +:+ String "/" n) <$> names))
    ≡ₚ (names ++ Fs.listdir o f)%list.
Proof.
  revert f. induction names as [|n names IH]; intros f Hnd Hall Hfresh Hd.
  { split; [exact Hd | reflexivity]. }
  apply NoDup_cons in Hnd as [Hn Hnd]. apply Forall_cons in Hall as [Hl Hall].
  cbn [fmap list_fmap foldl].
  assert (Hw : Fs.write_file (o +:+ String "/" n) f = <[o +:+ String "/" n := File]> f).
  { unfold Fs.write_file. rewrite writable_entry; [reflexivity | exact Hd | | exact Hl].
    apply Hfresh. left. }
  change (list_fmap string string (λ n0, o +:+ String "/" n0) names)
    with ((λ n0, o +:+ String "/" n0) <$> names).
  rewrite Hw.
  destruct (IH (<[o +:+ String "/" n := File]> f) Hnd Hall) as [Hd' Hp].
  - intros n' Hn'. rewrite lookup_insert_ne.
    + apply Hfresh. by right.
    + intros Heq. apply entry_inj in Heq. subst n'. contradiction.
  - rewrite lookup_insert_ne by apply entry_ne_dir. exact Hd.
  - split; [exact Hd'|]. rewrite Hp.
    rewrite listdir_insert_entry; [| exact Hd | apply Hfresh; left | exact Hl].
    cbn [app]. symmetry. apply Permutation_middle.
Qed.

Lemma matches_thumbnails f :
  Fs.matches (OsPath.join o "thumb_*.jpg") f =
    OsPath.join o <$>
      filter (λ n, Fnmatch.fnmatch "thumb_*.jpg" n = true)
        (filter (λ n, Fnmatch.ishidden n = false) (Fs.listdir o f)).
Proof.
  unfold Fs.matches. rewrite (join_entry "thumb_*.jpg") by reflexivity.
  rewrite (split_entry "thumb_*.jpg") by reflexivity. reflexivity.
Qed.

Lemma filter_listed names :
  Forall (λ n, listed_thumbnail n = true) names →
  filter (λ n, Fnmatch.fnmatch "thumb_*.jpg" n = true)
    (filter (λ n, Fnmatch.ishidden n = false) names) = names.
Proof.
  induction 1 as [|n names Hl _ IH]; [reflexivity|].
  destruct (listed_thumbnail_true n Hl) as (_ & _ & _ & _ & Hh & Hm).
  rewrite filter_cons_True by exact Hh. rewrite filter_cons_True by exact Hm.
  by rewrite IH.
Qed.

Lemma fresh_of_no_match f n :
  f !! o = Some Dir →
  Fs.matches (OsPath.join o "thumb_*.jpg") f = [] →
  listed_thumbnail n = true →
  f !! (o +:+ String "/" n) = None.
Proof.
  intros Hd Hm Hl.
  destruct (listed_thumbnail_true n Hl) as (H1 & H2 & _ & _ & Hh & Hf).
  destruct (f !! (o +:+ String "/" n)) as [x|] eqn:Hx; [|reflexivity].
  exfalso. rewrite matches_thumbnails in Hm. apply fmap_nil_inv in Hm.
  assert (Hin : n ∈ filter (λ n, Fnmatch.fnmatch "thumb_*.jpg" n = true)
                    (filter (λ n, Fnmatch.ishidden n = false) (Fs.listdir o f))).
  { apply list_elem_of_filter. split; [exact Hf|].
    apply list_elem_of_filter. split; [exact Hh|].
    unfold Fs.listdir. rewrite Hd. apply list_elem_of_omap.
    exists (o +:+ String "/" n, x). split.
    - by apply elem_of_map_to_list.
    - apply (child_entry n H1 H2). }
  rewrite Hm in Hin. by apply elem_of_nil in Hin.
Qed.

(** After fresh, listed names are written into a directory that held no
    thumbnail, [glob] finds exactly the files written. *)
Lemma matches_after_write names f :
  NoDup names →
  Forall (λ n, listed_thumbnail n = true) names →
  f !! o = Some Dir →
  Fs.matches (OsPath.join o "thumb_*.jpg") f = [] →
  Fs.matches (OsPath.join o "thumb_*.jpg")
    (foldl (λ f p, Fs.write_file p f) f ((λ n, o +:+ String "/" n) <$> names))
    ≡ₚ (λ n, o +:+ String "/" n) <$> names.
Proof.
  intros Hnd Hall Hd Hm.
  destruct (write_entries names f Hnd Hall) as [_ Hp]; [|exact Hd|].
  { intros n Hn. apply fresh_of_no_match; [exact Hd | exact Hm|].
    rewrite Forall_forall in Hall. by apply Hall. }
  rewrite matches_thumbnails. rewrite Hp.
  rewrite !filter_app, fmap_app.
  rewrite matches_thumbnails in Hm. rewrite Hm, app_nil_r.
  rewrite (filter_listed names Hall).
  assert (Heq : OsPath.join o <$> names = (λ n, o +:+ String "/" n) <$> names);
    [|by rewrite Heq].
  apply list_fmap_ext. intros i n Hn.
  apply join_entry.
  rewrite Forall_forall in Hall.
  destruct (listed_thumbnail_true n) as (_ & H2 & _).
  { apply Hall. eapply list_elem_of_lookup_2, Hn. }
  destruct n as [|c n]; [reflexivity|]. cbn [contains] in H2.
  apply orb_false_iff in H2 as [H2 _]. cbn [startswith].
  rewrite Ascii.eqb_sym, H2. reflexivity.
Qed.

End Listing.

Lemma frames_listed_999 :
  forallb (λ i, listed_thumbnail (frame_name (N.of_nat i))) (seq 1 999) = true.
Proof. vm_compute. reflexivity. Qed.

Lemma frame_name_listed (i : nat) :
  (1 ≤ i ≤ 999)%nat → listed_thumbnail (frame_name (N.of_nat i)) = true.
Proof.
  intros Hi. pose proof frames_listed_999 as H.
  rewrite forallb_forall in H. apply H. apply in_seq. lia.
Qed.

Lemma frame_name_lt (i j : nat) :
  (1 ≤ i)%nat → (i < j)%nat → (j ≤ 999)%nat →
  str_lt (frame_name (N.of_nat i)) (frame_name (N.of_nat j)).
Proof.
  intros Hi Hij Hj. unfold str_lt, frame_name.
  rewrite (compare_common_prefix "thumb_").
  apply frame_names_ordered; lia.
Qed.

Lemma entry_lt o a b : str_lt a b → str_lt (o +:+ String "/" a) (o +:+ String "/" b).
Proof.
  unfold str_lt. intros H.
  rewrite (entry_assoc o a), (entry_assoc o b), compare_common_prefix. exact H.
Qed.

Lemma frame_path_entry o i :
  o ≠ "" → PyStr.endswith_sep o = false → PyStr.contains "%" o = false →
  frame_path o i = o +:+ String "/" (frame_name i).
Proof.
  intros H1 H2 H3. unfold frame_path.
  rewrite (join_entry o H1 H2 "thumb_%03d.jpg") by reflexivity.
  rewrite (entry_assoc o "thumb_%03d.jpg"), expand_literal_prefix.
  - rewrite (entry_assoc o (frame_name i)). reflexivity.
  - rewrite contains_append, H3. reflexivity.
Qed.

Lemma is_sequence_append a s :
  Ffmpeg.is_sequence s = true → Ffmpeg.is_sequence (a +:+ s) = true.
Proof.
  intros Hs. induction a as [|x a IH]; [exact Hs|].
  change (String x a +:+ s) with (String x (a +:+ s)).
  cbn [Ffmpeg.is_sequence]. rewrite IH. apply orb_true_r.
Qed.

Lemma endswith_append q a : PyStr.endswith q (a +:+ q) = true.
Proof.
  unfold PyStr.endswith. rewrite str_length_append.
  replace (String.length a + String.length q - String.length q)%nat
    with (String.length a) by lia.
  rewrite substring_suffix, String.eqb_refl, andb_true_r.
  apply Nat.leb_le. lia.
Qed.

Lemma endswith_other_suffix q q' a :
  String.length q = String.length q' → q' ≠ q → PyStr.endswith q (a +:+ q') = false.
Proof.
  intros Hl Hne. unfold PyStr.endswith. rewrite str_length_append, Hl.
  replace (String.length a + String.length q' - String.length q')%nat
    with (String.length a) by lia.
  rewrite substring_suffix. apply andb_false_iff. right.
  apply String.eqb_neq. exact Hne.
Qed.

(** The thumbnail pattern is an image sequence; the name of a transcoded
    video is not, whatever its stem holds. *)
Lemma image_sequence_thumbnails a :
  Ffmpeg.image_sequence (a +:+ "thumb_%03d.jpg") = true.
Proof.
  unfold Ffmpeg.image_sequence. rewrite is_sequence_append by reflexivity.
  change "thumb_%03d.jpg" with ("thumb_%03d" +:+ ".jpg").
  rewrite append_assoc. apply endswith_append.
Qed.

Lemma image_sequence_video a :
  Ffmpeg.image_sequence (a +:+ "_processed.mp4") = false.
Proof.
  unfold Ffmpeg.image_sequence. apply andb_false_iff. right.
  change "_processed.mp4" with ("_processed" +:+ ".mp4").
  rewrite append_assoc. apply endswith_other_suffix; [reflexivity | discriminate].
Qed.

Lemma sorted_seq_fmap {A} (R : relation A) (f : nat → A) (a n : nat) :
  (∀ i j, (a ≤ i)%nat → (i < j)%nat → (j < a + n)%nat → R (f i) (f j)) →
  StronglySorted R (f <$> seq a n).
Proof.
  revert a. induction n as [|n IH]; intros a H; [constructor|].
  cbn [seq fmap list_fmap]. constructor.
  - apply IH. intros i j ???. apply H; lia.
  - apply Forall_forall. intros x Hx.
    apply list_elem_of_fmap in Hx as (j & -> & Hj).
    apply list_elem_of_In, in_seq in Hj. apply H; lia.
Qed.

Lemma strictly_sorted_NoDup (l : list string) : StronglySorted str_lt l → NoDup l.
Proof.
  induction 1 as [|x l _ IH Hx]; [constructor|].
  apply NoDup_cons. split; [|exact IH].
  intros Hin. rewrite Forall_forall in Hx. by apply (str_lt_irrefl x), Hx.
Qed.

Lemma subprocess_run_check_ok E command n w :
  ffmpeg_result E command = Some (0, n) →
  subprocess_run_check E command w =
    (Ok tt,
     World (foldl (λ f p, Fs.write_file p f) (fs w) (Ffmpeg.outputs command n))
       (stdout w) (calls w ++ [Subprocess command])).
Proof.
  intros Hr. unfold subprocess_run_check, log, get_fs, set_fs.
  rewrite bind_unfold, Hr, !bind_unfold. reflexivity.
Qed.

(** When [ffmpeg] exits with 0 after writing [n <= 999] frames into an
    output directory that held no thumbnail, the thumbnail stage returns
    the files of frames 1, 2, ..., [n], in this order. *)
Lemma generate_thumbnails_chronological E input_path o w n :
  o ≠ "" → PyStr.endswith_sep o = false → PyStr.contains "%" o = false →
  fs w !! o = Some Dir →
  Fs.matches (OsPath.join o "thumb_*.jpg") (fs w) = [] →
  ffmpeg_result E (thumbnail_command input_path o) = Some (0, n) →
  (n ≤ 999)%nat →
  ∃ w',
    generate_thumbnails E input_path o w =
      (Ok ((λ i, frame_path o (N.of_nat i)) <$> seq 1 n), w').
Proof.
  intros H1 H2 H3 Hd Hm Hr Hn.
  assert (Hsort :
    sorted (Fs.matches (OsPath.join o "thumb_*.jpg")
              (foldl (λ f p, Fs.write_file p f) (fs w)
                 (Ffmpeg.outputs (thumbnail_command input_path o) n)))
    = (λ i, frame_path o (N.of_nat i)) <$> seq 1 n);
    [|unfold generate_thumbnails; cbv zeta; fold (thumbnail_command input_path o);
      rewrite bind_unfold, print_run, bind_unfold;
      rewrite (subprocess_run_check_ok E _ n) by exact Hr;
      rewrite bind_unfold, glob_run; cbn [fs stdout calls];
      rewrite Hsort, bind_unfold, print_run; eexists; reflexivity].
  set (names := (λ i, frame_name (N.of_nat i)) <$> seq 1 n).
  assert (Hout : Ffmpeg.outputs (thumbnail_command input_path o) n
                 = (λ x, o +:+ String "/" x) <$> names).
  { unfold Ffmpeg.outputs, thumbnail_command. cbn [last].
    rewrite (join_entry o H1 H2 "thumb_%03d.jpg") by reflexivity.
    rewrite (entry_assoc o "thumb_%03d.jpg"), image_sequence_thumbnails.
    unfold names. rewrite <- list_fmap_compose.
    apply list_fmap_ext. intros k i _. cbn.
    rewrite <- (entry_assoc o "thumb_%03d.jpg").
    rewrite <- (join_entry o H1 H2 "thumb_%03d.jpg") by reflexivity.
    apply (frame_path_entry o (N.of_nat i) H1 H2 H3). }
  assert (Hall : Forall (λ x, listed_thumbnail x = true) names).
  { apply Forall_forall. intros x Hx.
    apply list_elem_of_fmap in Hx as (i & -> & Hi).
    apply list_elem_of_In, in_seq in Hi. apply frame_name_listed. lia. }
  assert (Hlt : StronglySorted str_lt names).
  { apply sorted_seq_fmap. intros i j ???. apply frame_name_lt; lia. }
  assert (Hfinal : (λ i, frame_path o (N.of_nat i)) <$> seq 1 n
                   = (λ x, o +:+ String "/" x) <$> names).
  { unfold names. rewrite <- list_fmap_compose. apply list_fmap_ext.
    intros k i _. apply (frame_path_entry o (N.of_nat i) H1 H2 H3). }
  rewrite Hfinal, Hout.
  apply (StronglySorted_unique String.le).
  - apply StronglySorted_merge_sort; apply _.
  - unfold names. rewrite <- list_fmap_compose. apply sorted_seq_fmap.
    intros i j ???. apply str_lt_le, entry_lt, frame_name_lt; lia.
  - unfold sorted. rewrite merge_sort_Permutation.
    apply (matches_after_write o H1 H2 names (fs w));
      [apply strictly_sorted_NoDup, Hlt | exact Hall | exact Hd | exact Hm].
Qed.

(** C7, as amended. The list that the thumbnail stage returns is the
    list of matched files in lexicographic order: it is sorted and it is a
    permutation of what [glob] finds in the output directory. For frame
    numbers up to 999 the three-digit zero padding makes this order the
    capture order: whenever [1 <= i < j <= 999], the file of frame [i]
    sorts strictly before the file of frame [j]; and when [ffmpeg] exits
    with 0 after writing [n <= 999] frames into an output directory that
    held no thumbnail, the stage returns the files of frames 1, 2, ...,
    [n] in this order. *)
Theorem generate_thumbnails_sorted E input_path output_dir w :
  (∀ paths w',
     generate_thumbnails E input_path output_dir w = (Ok paths, w') →
     StronglySorted String.le paths ∧
     paths ≡ₚ Fs.matches (OsPath.join output_dir "thumb_*.jpg") (fs w')) ∧
  (PyStr.contains "%" output_dir = false →
   ∀ i j : N, (1 ≤ i)%N → (i < j)%N → (j ≤ 999)%N →
     str_lt (frame_path output_dir i) (frame_path output_dir j)) ∧
  (∀ n : nat,
     output_dir ≠ "" →
     PyStr.endswith_sep output_dir = false →
     PyStr.contains "%" output_dir = false →
     fs w !! output_dir = Some Dir →
     Fs.matches (OsPath.join output_dir "thumb_*.jpg") (fs w) = [] →
     ffmpeg_result E (thumbnail_command input_path output_dir) = Some (0, n) →
     (n ≤ 999)%nat →
     ∃ w',
       generate_thumbnails E input_path output_dir w =
         (Ok ((λ i, frame_path output_dir (N.of_nat i)) <$> seq 1 n), w')).
Proof.
  split; [|split].
  - intros paths w' H. apply generate_thumbnails_Ok_inv in H as ->. split.
    + apply StronglySorted_merge_sort; apply _.
    + apply merge_sort_Permutation.
  - intros Hd i j Hi Hij Hj.
    destruct (frame_path_shape output_dir Hd) as (p & Hp).
    unfold str_lt. rewrite !Hp.
    rewrite compare_common_prefix.
    rewrite (compare_common_prefix "thumb_").
    apply frame_names_ordered; assumption.
  - intros n. apply generate_thumbnails_chronological.
Qed.

(** The thumbnail stage on three frames. *)
Lemma generate_thumbnails_sorted_witness :
  StronglySorted String.le (Sample.value_of [] Sample.three_frames) ∧
  str_lt (frame_path "/tmp/j_output" 9) (frame_path "/tmp/j_output" 10) ∧
  ∃ w', Sample.three_frames =
          (Ok [ "/tmp/j_output/thumb_001.jpg"; "/tmp/j_output/thumb_002.jpg";
                "/tmp/j_output/thumb_003.jpg" ], w').
Proof.
  destruct (generate_thumbnails_sorted (Sample.env Sample.env_vars 0 3)
      "/tmp/j_output/clip_processed.mp4" "/tmp/j_output" Sample.w_dir) as (Hs & Ho & Hc).
  split; [|split].
  - exact (proj1 (Hs (Sample.value_of [] Sample.three_frames) Sample.three_frames.2
                    (run_returned [] Sample.three_frames eq_refl))).
  - apply (Ho eq_refl 9%N 10%N); lia.
  - refine (Hc 3%nat _ eq_refl eq_refl _ _ _ _).
    + discriminate.
    + reflexivity.
    + vm_compute. reflexivity.
    + vm_compute. reflexivity.
    + lia.
Defined.

Lemma tuple4_inj {A B C D} (a a' : A) (b b' : B) (c c' : C) (d d' : D) :
  (a, b, c, d) = (a', b', c', d') → a = a' ∧ b = b' ∧ c = c' ∧ d = d'.
Proof. intros H. injection H as -> -> -> ->. auto. Qed.

(** The claim of C7 fails from the thousandth thumbnail on: [%03d] pads
    to three digits and prints [1000] with four, and
    ["thumb_1000.jpg"] sorts before ["thumb_101.jpg"]. With a thousand
    frames the returned list holds frame 1000 right after frame 100 and
    before frame 101. *)
Lemma thumbnails_out_of_order :
  length Sample.thousand_frames = 1000%nat ∧
  Sample.thousand_frames !! 99%nat = Some (frame_path "/tmp/j_output" 100) ∧
  Sample.thousand_frames !! 100%nat = Some (frame_path "/tmp/j_output" 1000) ∧
  Sample.thousand_frames !! 101%nat = Some (frame_path "/tmp/j_output" 101) ∧
  str_lt (frame_path "/tmp/j_output" 1000) (frame_path "/tmp/j_output" 101) ∧
  frame_path "/tmp/j_output" 1000 = "/tmp/j_output/thumb_1000.jpg" ∧
  frame_path "/tmp/j_output" 101 = "/tmp/j_output/thumb_101.jpg".
Proof.
  assert (H : (length Sample.thousand_frames,
               Sample.thousand_frames !! 99%nat,
               Sample.thousand_frames !! 100%nat,
               Sample.thousand_frames !! 101%nat)
              = (1000%nat,
                 Some (frame_path "/tmp/j_output" 100),
                 Some (frame_path "/tmp/j_output" 1000),
                 Some (frame_path "/tmp/j_output" 101)))
    by (vm_compute; reflexivity).
  apply tuple4_inj in H as (H1 & H2 & H3 & H4).
  split; [exact H1|]. split; [exact H2|]. split; [exact H3|]. split; [exact H4|].
  split; [|split]; vm_compute; reflexivity.
Qed.

(** * Further properties *)

(** ** Start-up and the configuration check *)

Lemma bind_Raise_inv {A B} (m : M A) (f : A → M B) w e w' :
  (m ≫= f) w = (Raise e, w') →
  m w = (Raise e, w') ∨ ∃ a w1, m w = (Ok a, w1) ∧ f a w1 = (Raise e, w').
Proof.
  rewrite bind_unfold. destruct (m w) as [[a|e1] w1]; intros H.
  - right. eauto.
  - left. injection H as -> ->. reflexivity.
Qed.

Lemma module_init_cases env :
  (configured env ∧ (module_init env).2 = [] ∧
   (∃ account, env !! "CLOUDFLARE_ACCOUNT_ID" = Some account ∧
      S3_ENDPOINT_URL (module_init env).1 =
        Some ("https://" +:+ account +:+ ".r2.cloudflarestorage.com")) ∧
   is_Some (s3 (module_init env).1) ∧
   S3_BUCKET_NAME (module_init env).1 = env !! "CLOUDFLARE_R2_BUCKET_NAME") ∨
  (∃ pre name post,
     required_variables = (pre ++ name :: post)%list ∧
     (∀ n, n ∈ pre → is_Some (env !! n)) ∧
     env !! name = None ∧
     (module_init env).2 = startup_alert name ∧
     S3_ENDPOINT_URL (module_init env).1 = None ∧
     s3 (module_init env).1 = None).
Proof.
  unfold module_init.
  destruct (env !! "CLOUDFLARE_ACCOUNT_ID") as [a|] eqn:H1.
  2:{ right. exists [], "CLOUDFLARE_ACCOUNT_ID", (tail required_variables).
      split; [reflexivity|]. split; [intros n Hn; by apply elem_of_nil in Hn|].
      split; [exact H1|]. split; [reflexivity|]. split; reflexivity. }
  destruct (env !! "CLOUDFLARE_R2_ACCESS_KEY_ID") as [b|] eqn:H2.
  2:{ right. exists ["CLOUDFLARE_ACCOUNT_ID"], "CLOUDFLARE_R2_ACCESS_KEY_ID",
        (tail (tail required_variables)).
      split; [reflexivity|]. split.
      { intros n Hn. apply list_elem_of_singleton in Hn as ->. rewrite H1. eauto. }
      split; [exact H2|]. split; [reflexivity|]. split; reflexivity. }
  destruct (env !! "CLOUDFLARE_R2_SECRET_ACCESS_KEY") as [c|] eqn:H3.
  2:{ right. exists ["CLOUDFLARE_ACCOUNT_ID"; "CLOUDFLARE_R2_ACCESS_KEY_ID"],
        "CLOUDFLARE_R2_SECRET_ACCESS_KEY", ["CLOUDFLARE_R2_BUCKET_NAME"].
      split; [reflexivity|]. split.
      { intros n Hn. repeat (apply elem_of_cons in Hn as [-> | Hn]; [eauto|]).
        by apply elem_of_nil in Hn. }
      split; [exact H3|]. split; [reflexivity|]. split; reflexivity. }
  destruct (env !! "CLOUDFLARE_R2_BUCKET_NAME") as [d|] eqn:H4.
  2:{ right. exists ["CLOUDFLARE_ACCOUNT_ID"; "CLOUDFLARE_R2_ACCESS_KEY_ID";
                     "CLOUDFLARE_R2_SECRET_ACCESS_KEY"],
        "CLOUDFLARE_R2_BUCKET_NAME", [].
      split; [reflexivity|]. split.
      { intros n Hn. repeat (apply elem_of_cons in Hn as [-> | Hn]; [eauto|]).
        by apply elem_of_nil in Hn. }
      split; [exact H4|]. split; [reflexivity|]. split; reflexivity. }
  left. split.
  { intros n Hn. unfold required_variables in Hn.
    repeat (apply elem_of_cons in Hn as [-> | Hn]; [eauto|]).
    by apply elem_of_nil in Hn. }
  split; [reflexivity|]. split; [exists a; split; reflexivity|].
  split; [cbn; eauto | reflexivity].
Qed.

Lemma misconfigured_total env w :
  ∃ b, misconfigured (module_init env).1 w = (Ok b, w) ∧
       (b = true ↔ configuration_absent env).
Proof.
  destruct (module_init_cases env)
    as [(Hc & _ & (a & _ & Hu) & [client Hs] & _) | (pre & name & post & Hreq & _ & Hn & _ & Hu & _)].
  - exists false. unfold misconfigured. rewrite Hu, Hs. split; [reflexivity|].
    split; [discriminate|]. intros (n & Hin & Hnone).
    destruct (Hc n Hin) as [x Hx]. congruence.
  - exists true. unfold misconfigured. rewrite Hu. split; [reflexivity|].
    split; [|reflexivity]. intros _. exists name. split; [|exact Hn].
    rewrite Hreq. apply elem_of_app. right. left.
Qed.

Lemma import_module_Ok boto_client env g out :
  import_module boto_client env = Ok (g, out) → (g, out) = module_init env.
Proof.
  unfold import_module. destruct (s3 (module_init env).1) as [c|].
  - destruct (boto_client c); [discriminate|]. intros H. injection H as <-. reflexivity.
  - intros H. injection H as <-. reflexivity.
Qed.

(** X1. The module body (lines 9-33) reads the four variables in a fixed
    order. Either all four are set: then [boto3.client] is called with
    the endpoint [https://<account>.r2.cloudflarestorage.com], the two
    keys and the region [auto]; when it raises, the exception ends the
    import and no global is left for [handler]; when it returns, nothing
    was printed and the client is bound. Or the start-up alert names the
    first variable, in reading order, that is not set: then
    [boto3.client] is not called, the import completes, and neither the
    endpoint nor the client is bound. *)
Theorem module_init_reports_first_missing boto_client env :
  (configured env ∧
   ∃ account access secret bucket,
     env !! "CLOUDFLARE_ACCOUNT_ID" = Some account ∧
     env !! "CLOUDFLARE_R2_ACCESS_KEY_ID" = Some access ∧
     env !! "CLOUDFLARE_R2_SECRET_ACCESS_KEY" = Some secret ∧
     env !! "CLOUDFLARE_R2_BUCKET_NAME" = Some bucket ∧
     let endpoint := "https://" +:+ account +:+ ".r2.cloudflarestorage.com" in
     let client := S3Client endpoint access secret "auto" in
     match boto_client client with
     | Some e => import_module boto_client env = Raise e
     | None =>
         import_module boto_client env =
           Ok (Globals (Some account) (Some access) (Some secret) (Some bucket)
                 (Some endpoint) (Some client), [])
     end) ∨
  (∃ pre name post,
     required_variables = (pre ++ name :: post)%list ∧
     (∀ n, n ∈ pre → is_Some (env !! n)) ∧
     env !! name = None ∧
     ∃ g,
       import_module boto_client env = Ok (g, startup_alert name) ∧
       S3_ENDPOINT_URL g = None ∧
       s3 g = None).
Proof.
  destruct (module_init_cases env)
    as [(Hc & _) | (pre & name & post & Hreq & Hpre & Hnone & Hout & Hurl & Hs3)].
  - left. split; [exact Hc|].
    destruct (Hc "CLOUDFLARE_ACCOUNT_ID") as [account Ha];
      [apply list_elem_of_In; cbn; tauto|].
    destruct (Hc "CLOUDFLARE_R2_ACCESS_KEY_ID") as [access Hb];
      [apply list_elem_of_In; cbn; tauto|].
    destruct (Hc "CLOUDFLARE_R2_SECRET_ACCESS_KEY") as [secret Hs];
      [apply list_elem_of_In; cbn; tauto|].
    destruct (Hc "CLOUDFLARE_R2_BUCKET_NAME") as [bucket Hk];
      [apply list_elem_of_In; cbn; tauto|].
    exists account, access, secret, bucket.
    split; [exact Ha|]. split; [exact Hb|]. split; [exact Hs|]. split; [exact Hk|].
    cbv zeta. unfold import_module, module_init. rewrite Ha, Hb, Hs, Hk.
    assert (Hi : init_client
                   (Globals (Some account) (Some access) (Some secret) (Some bucket)
                      (Some ("https://" +:+ account +:+ ".r2.cloudflarestorage.com")) None)
                 = Globals (Some account) (Some access) (Some secret) (Some bucket)
                     (Some ("https://" +:+ account +:+ ".r2.cloudflarestorage.com"))
                     (Some (S3Client ("https://" +:+ account +:+ ".r2.cloudflarestorage.com")
                              access secret "auto")))
      by reflexivity.
    rewrite Hi. cbn [fst s3].
    destruct (boto_client _); reflexivity.
  - right. exists pre, name, post.
    split; [exact Hreq|]. split; [exact Hpre|]. split; [exact Hnone|].
    exists (module_init env).1. split; [|split; [exact Hurl | exact Hs3]].
    unfold import_module. rewrite Hs3, <- Hout. by destruct (module_init env).
Qed.

(** X2. In a process that started, that is when the import of the
    module completed, the check [not S3_ENDPOINT_URL or not s3] of line
    102 never fails on the unbound name [s3]: it evaluates to a truth
    value without touching the world, and that value is true exactly
    when one of the four variables is not set. The globals that
    [handler] reads are those the import left. *)
Theorem configuration_check_decides boto_client env g out w :
  import_module boto_client env = Ok (g, out) →
  g = (module_init env).1 ∧
  ∃ b, misconfigured g w = (Ok b, w) ∧
       (b = true ↔ configuration_absent env).
Proof.
  intros H. apply import_module_Ok in H.
  assert (Hg : g = (module_init env).1) by (rewrite <- H; reflexivity).
  split; [exact Hg|]. rewrite Hg. exact (misconfigured_total env w).
Qed.

(** The sample variables: the import completes and the check finds the
    storage configured. *)
Lemma configuration_check_decides_witness :
  ∃ b, misconfigured (module_init Sample.env_vars).1 Sample.w0 = (Ok b, Sample.w0) ∧
       (b = true ↔ configuration_absent Sample.env_vars).
Proof.
  destruct (configuration_check_decides Sample.boto_client Sample.env_vars
              (module_init Sample.env_vars).1 (module_init Sample.env_vars).2 Sample.w0)
    as (_ & b & Hb & Hiff).
  - vm_compute. reflexivity.
  - exists b. split; [exact Hb | exact Hiff].
Defined.

(** An account identifier that is set and empty: all four variables are
    set, the storage library refuses the endpoint, and the import
    fails. *)
Example import_fails_on_empty_account :
  configured Sample.env_vars_empty_account ∧
  import_module Sample.boto_client Sample.env_vars_empty_account =
    Raise (StorageError "Invalid endpoint: https://.r2.cloudflarestorage.com").
Proof.
  split; [|vm_compute; reflexivity].
  intros name Hn. apply list_elem_of_In in Hn. cbn in Hn.
  destruct Hn as [<- | [<- | [<- | [<- | []]]]]; vm_compute; eauto.
Qed.

(** ** What [handler] returns and what it raises *)

Lemma makedirs_run p w :
  Fs.makedirs p w =
    match fs w !! p with
    | Some Dir => (Ok tt, World (fs w) (stdout w) (calls w ++ [Makedirs p]))
    | Some File => (Raise (OSError EEXIST p), World (fs w) (stdout w) (calls w ++ [Makedirs p]))
    | None => (Ok tt, World (<[p := Dir]> (fs w)) (stdout w) (calls w ++ [Makedirs p]))
    end.
Proof.
  unfold Fs.makedirs, log, get_fs. rewrite !bind_unfold.
  change (fs (World (fs w) (stdout w) (calls w ++ [Makedirs p]))) with (fs w).
  destruct (fs w !! p) as [[]|]; reflexivity.
Qed.

Lemma subscript_raises v k w e w1 :
  subscript v k w = (Raise e, w1) →
  (e = KeyError k ∨ ∃ msg, e = TypeError msg) ∧ w1 = w.
Proof.
  destruct v as [| | | | |d]; cbn; intros H; try (injection H as <- <-; split; eauto).
  destruct (d !! k); [discriminate|]. injection H as <- <-. split; eauto.
Qed.

Lemma remove_raises p w e w1 :
  Fs.remove p w = (Raise e, w1) → ∃ errno filename, e = OSError errno filename.
Proof.
  rewrite remove_run. destruct (fs w !! p) as [[]|]; intros H;
    [discriminate | injection H as <- _; eauto..].
Qed.

Lemma rmdir_raises p w e w1 :
  Fs.rmdir p w = (Raise e, w1) → ∃ errno filename, e = OSError errno filename.
Proof.
  rewrite rmdir_run. destruct (fs w !! p) as [[]|]; [|destruct (Fs.listdir p (fs w))|];
    intros H; try discriminate; injection H as <- _; eauto.
Qed.

Lemma for_each_remove_raises files w e w1 :
  for_each files Fs.remove w = (Raise e, w1) → ∃ errno filename, e = OSError errno filename.
Proof.
  revert w. induction files as [|f files IH]; intros w H; [discriminate|].
  cbn [for_each] in H. apply bind_Raise_inv in H as [H | (a & wa & _ & H)].
  - eapply remove_raises, H.
  - eapply IH, H.
Qed.

Lemma cleanup_dir_raises dir_path w e w1 :
  cleanup_dir dir_path w = (Raise e, w1) → ∃ errno filename, e = OSError errno filename.
Proof.
  unfold cleanup_dir. rewrite bind_unfold, exists_run.
  case_bool_decide as Hex; [|discriminate].
  rewrite bind_unfold, glob_run. intros H.
  apply bind_Raise_inv in H as [H | (a & wa & _ & H)].
  - eapply for_each_remove_raises, H.
  - eapply rmdir_raises, H.
Qed.

Lemma cleanup_raises local_input_dir local_output_dir w e w1 :
  cleanup local_input_dir local_output_dir w = (Raise e, w1) →
  ∃ errno filename, e = OSError errno filename.
Proof.
  unfold cleanup. rewrite bind_unfold, print_run. intros H.
  apply bind_Raise_inv in H as [H | (a & wa & _ & H)]; [|discriminate H].
  cbn [for_each] in H.
  apply bind_Raise_inv in H as [H | (a & wa & _ & H)]; [eapply cleanup_dir_raises, H|].
  apply bind_Raise_inv in H as [H | (b & wb & _ & H)]; [eapply cleanup_dir_raises, H|].
  discriminate H.
Qed.

Lemma handler_Ok_shape E job w r w' :
  handler E job w = (Ok r, w') → success_shape r ∨ error_shape r.
Proof.
  unfold handler. intros H.
  destruct (misconfigured_total (environ E) w) as (b & Hb & _).
  rewrite (bind_Ok _ _ _ _ _ Hb) in H. destruct b.
  { apply pair_Ok_inj in H as [<- _]. right. eexists. reflexivity. }
  inv_bind H. unfold try_or_return in H.
  destruct (subscript a "source_video_key" w0) as [[v|e] wk] eqn:Hk.
  - unfold run_job in H. inv_bind H. inv_bind H. inv_bind H. inv_bind H.
    apply try_finally_Ok_inv in H as (w5 & Hg & _).
    match type of Hg with
    | guarded_body ?E ?g ?j ?k ?lip ?tf ?ltp ?out ?w = _ =>
        destruct (guarded_body_total E g j k lip tf ltp out w) as (r' & w'' & Hg' & Hs)
    end.
    rewrite Hg in Hg'. apply pair_Ok_inj in Hg' as [-> _]. exact Hs.
  - destruct (is_KeyError e); [|discriminate H].
    apply pair_Ok_inj in H as [<- _]. right. eexists. reflexivity.
Qed.

(** X4. The exceptions that can leave [handler] are these only:
    [KeyError('input')] from a job mapping without ["input"] and the
    failure of the randomness source, both before anything is touched;
    [TypeError] from a job, an input or a key of the wrong type; and
    [OSError] from creating the directories or from the cleanup. A
    failed download, transcode, thumbnail run or upload never leaves
    [handler] as an exception, and no unbound module-level name is ever
    read. *)
Theorem handler_raises_only E job w e w' :
  handler E job w = (Raise e, w') →
  (e = KeyError "input" ∧ w' = w) ∨
  (∃ msg, e = TypeError msg) ∨
  (e = RandomSourceError ∧ w' = w) ∨
  (∃ errno filename, e = OSError errno filename).
Proof.
  unfold handler. intros H.
  destruct (misconfigured_total (environ E) w) as (b & Hb & _).
  rewrite (bind_Ok _ _ _ _ _ Hb) in H. destruct b; [discriminate H|].
  apply bind_Raise_inv in H as [H | (ji & w0 & Hji & H)].
  { apply subscript_raises in H as [[-> | Hm] ->]; [left; done | right; left; exact Hm]. }
  assert (w0 = w) as ->.
  { destruct job as [| | | | |d]; try discriminate Hji.
    cbn in Hji. destruct (d !! "input"); [|discriminate Hji]. by injection Hji as _ <-. }
  unfold try_or_return in H.
  destruct (subscript ji "source_video_key" w) as [[v|e1] wk] eqn:Hk.
  2:{ apply subscript_raises in Hk as [[-> | (msg & ->)] ->]; [discriminate H|].
      cbn in H. injection H as <- _. right. left. eauto. }
  assert (wk = w) as ->.
  { destruct ji as [| | | | |d]; try discriminate Hk.
    cbn in Hk. destruct (d !! "source_video_key"); [|discriminate Hk]. by injection Hk as _ <-. }
  unfold run_job, Uuid.uuid4_str in H.
  destruct (urandom16 E) as [rnd|].
  2:{ injection H as <- <-. right. right. left. done. }
  rewrite bind_unfold in H. cbn [mret M_ret] in H.
  apply bind_Raise_inv in H as [H | (a1 & w1 & _ & H)].
  { rewrite makedirs_run in H. destruct (fs w !! _) as [[]|]; try discriminate H.
    injection H as <- _. right. right. right. eauto. }
  apply bind_Raise_inv in H as [H | (a2 & w2 & _ & H)].
  { rewrite makedirs_run in H. destruct (fs w1 !! _) as [[]|]; try discriminate H.
    injection H as <- _. right. right. right. eauto. }
  apply bind_Raise_inv in H as [H | (key & w3 & _ & H)].
  { destruct v; try discriminate H; injection H as <- _; right; left; eauto. }
  unfold try_finally in H.
  match type of H with
  | context [guarded_body ?E ?g ?j ?k ?lip ?tf ?ltp ?out ?w] =>
      destruct (guarded_body_total E g j k lip tf ltp out w) as (r' & w'' & Hg' & _);
      rewrite Hg' in H
  end.
  destruct (cleanup _ _ w'') as [[[]|e2] w4] eqn:Hcl; [discriminate H|].
  injection H as <- _. right. right. right. eapply cleanup_raises, Hcl.
Qed.

(** X3. Whenever [handler] returns, whatever the environment and the
    job, the response has one of the two shapes and a caller can tell
    them apart by the key ["error"]: a success response has
    [status = "success"] and no ["error"]; an error response has a string
    under ["error"] and no ["status"]. *)
Theorem handler_response_shape E job w r w' :
  handler E job w = (Ok r, w') →
  (success_shape r ∧ field r "status" = Some (PStr "success") ∧ field r "error" = None) ∨
  (error_shape r ∧ field r "status" = None ∧ ∃ message, field r "error" = Some (PStr message)).
Proof.
  intros H. destruct (handler_Ok_shape E job w r w' H) as [Hs|Hs].
  - left. split; [exact Hs|]. destruct Hs as (tk & keys & ai & url & ->).
    split; reflexivity.
  - right. split; [exact Hs|]. destruct Hs as (m & ->).
    split; [reflexivity|]. exists m. reflexivity.
Qed.

(** ** The order of the external calls *)

Lemma s3_download_file_calls E bucket key filename w o w1 :
  s3_download_file E bucket key filename w = (o, w1) →
  calls w1 = (calls w ++ [Download bucket key filename])%list.
Proof.
  unfold s3_download_file, log, get_fs, set_fs. rewrite bind_unfold.
  destruct (download_result E bucket key filename) as [e|].
  - intros H. injection H as _ <-. reflexivity.
  - rewrite bind_unfold. cbn [fs].
    destruct (Fs.writable filename (fs w)); intros H; injection H as _ <-; reflexivity.
Qed.

Lemma subprocess_run_check_calls E command w o w1 :
  subprocess_run_check E command w = (o, w1) →
  calls w1 = (calls w ++ [Subprocess command])%list.
Proof.
  unfold subprocess_run_check, log, get_fs, set_fs. rewrite bind_unfold.
  destruct (ffmpeg_result E command) as [[status n]|].
  - rewrite !bind_unfold. cbn [fs stdout calls].
    destruct (status =? 0); intros H; injection H as _ <-; reflexivity.
  - intros H. injection H as _ <-. reflexivity.
Qed.

Lemma transcode_to_mp4_calls E input_path output_path w o w1 :
  transcode_to_mp4 E input_path output_path w = (o, w1) →
  calls w1 = (calls w ++ [Subprocess (transcode_command input_path output_path)])%list.
Proof.
  unfold transcode_to_mp4. cbv zeta. fold (transcode_command input_path output_path).
  rewrite bind_unfold, print_run, bind_unfold.
  destruct (subprocess_run_check E _ _) as [[[]|e] wa] eqn:Hs;
    apply subprocess_run_check_calls in Hs; cbn [calls] in Hs.
  - rewrite print_run. intros H. injection H as _ <-. exact Hs.
  - intros H. injection H as _ <-. exact Hs.
Qed.

Lemma generate_thumbnails_calls E input_path output_dir w o w1 :
  generate_thumbnails E input_path output_dir w = (o, w1) →
  calls w1 = (calls w ++ [Subprocess (thumbnail_command input_path output_dir)])%list.
Proof.
  unfold generate_thumbnails. cbv zeta. fold (thumbnail_command input_path output_dir).
  rewrite bind_unfold, print_run, bind_unfold.
  destruct (subprocess_run_check E _ _) as [[[]|e] wa] eqn:Hs;
    apply subprocess_run_check_calls in Hs; cbn [calls] in Hs.
  - rewrite bind_unfold, glob_run, bind_unfold, print_run.
    intros H. injection H as _ <-. exact Hs.
  - intros H. injection H as _ <-. exact Hs.
Qed.

Lemma upload_thumbnails_trace E bucket job_id paths acc w o w1 :
  upload_thumbnails E bucket ("processed/" +:+ job_id) paths acc w = (o, w1) →
  ∃ sent,
    sent `prefix_of` paths ∧
    calls w1 = (calls w ++ (thumbnail_upload bucket job_id <$> sent))%list ∧
    (∀ keys, o = Ok keys → sent = paths).
Proof.
  revert acc w. induction paths as [|p paths IH]; intros acc w H.
  { injection H as <- <-. exists []. split; [done|]. split; [by rewrite app_nil_r | done]. }
  cbn [upload_thumbnails] in H.
  rewrite bind_unfold, print_run, bind_unfold, s3_upload_file_run in H.
  cbv zeta in H. cbn [fs stdout calls] in H.
  assert (Hraise : ∀ e, o = Raise e → calls w1 = (calls w ++ [thumbnail_upload bucket job_id p])%list →
    ∃ sent, sent `prefix_of` p :: paths ∧
      calls w1 = (calls w ++ (thumbnail_upload bucket job_id <$> sent))%list ∧
      (∀ keys, o = Ok keys → sent = p :: paths)).
  { intros e -> Hc. exists [p]. split; [by exists paths|]. split; [exact Hc | discriminate]. }
  destruct (fs w !! p) as [[]|].
  2,3: injection H as <- <-; eapply Hraise; reflexivity.
  destruct (upload_result E p bucket _) as [e|].
  { injection H as <- <-. eapply Hraise; reflexivity. }
  apply IH in H as (sent & Hp & Hc & Hok). cbn [calls] in Hc.
  exists (p :: sent). split; [by apply prefix_cons|]. split.
  - rewrite Hc, <- app_assoc. reflexivity.
  - intros keys Hk. f_equal. eapply Hok, Hk.
Qed.

Lemma publish_trace E bucket job_id tf ltp paths ai w o w1 :
  publish E bucket job_id tf ltp paths ai w = (o, w1) →
  ∃ sent,
    sent `prefix_of` paths ∧
    calls w1 = (calls w ++ Upload ltp bucket ("processed/" +:+ job_id +:+ "/" +:+ tf)
                  :: (thumbnail_upload bucket job_id <$> sent))%list ∧
    (∀ r, o = Ok r → sent = paths).
Proof.
  unfold publish. cbv zeta.
  rewrite bind_unfold, print_run, bind_unfold, s3_upload_file_run.
  cbv zeta. cbn [fs stdout calls]. intros H.
  assert (Hraise : ∀ e, o = Raise e →
    calls w1 = (calls w ++ [Upload ltp bucket ("processed/" +:+ job_id +:+ "/" +:+ tf)])%list →
    ∃ sent, sent `prefix_of` paths ∧
      calls w1 = (calls w ++ Upload ltp bucket ("processed/" +:+ job_id +:+ "/" +:+ tf)
                    :: (thumbnail_upload bucket job_id <$> sent))%list ∧
      (∀ r, o = Ok r → sent = paths)).
  { intros e -> Hc. exists []. split; [apply prefix_nil|]. split; [exact Hc | discriminate]. }
  destruct (fs w !! ltp) as [[]|].
  2,3: injection H as <- <-; eapply Hraise; reflexivity.
  destruct (upload_result E ltp bucket _) as [e|].
  { injection H as <- <-. eapply Hraise; reflexivity. }
  rewrite bind_unfold in H.
  destruct (upload_thumbnails E bucket ("processed/" +:+ job_id) paths [] _)
    as [[keys|e] wa] eqn:Hu;
    apply upload_thumbnails_trace in Hu as (sent & Hp & Hc & Hok); cbn [calls] in Hc.
  - rewrite bind_unfold, print_run in H. injection H as <- <-. cbn [calls].
    exists sent. split; [exact Hp|]. split.
    + rewrite Hc, <- app_assoc. reflexivity.
    + intros r _. eapply Hok. reflexivity.
  - injection H as <- <-. exists sent. split; [exact Hp|]. split.
    + rewrite Hc, <- app_assoc. reflexivity.
    + discriminate.
Qed.

Lemma job_body_trace E g job_id key lip tf ltp out w o w1 bucket :
  S3_BUCKET_NAME g = Some bucket →
  job_body E g job_id key lip tf ltp out w = (o, w1) →
  ∃ l paths,
    calls w1 = (calls w ++ l)%list ∧
    l `prefix_of` pipeline_calls bucket job_id key lip tf ltp out paths ∧
    (∀ r, o = Ok r →
       l = pipeline_calls bucket job_id key lip tf ltp out paths ∧
       r = success_response ("processed/" +:+ job_id +:+ "/" +:+ tf)
             (thumbnail_key job_id <$> paths) ai_metadata
             (default "https://YOUR-PUBLIC-URL.dev" (environ E !! "CLOUDFLARE_R2_PUBLIC_URL")
                +:+ "/processed/" +:+ job_id)).
Proof.
  intros Hb. unfold job_body. rewrite Hb. cbn [global].
  rewrite bind_unfold. cbn [mret M_ret]. rewrite bind_unfold, print_run, bind_unfold.
  destruct (s3 g) as [client|]; cbn [global mret M_ret raise].
  2:{ intros H. injection H as <- <-. exists [], []. cbn [calls].
      split; [by rewrite app_nil_r|]. split; [apply prefix_nil | discriminate]. }
  rewrite bind_unfold.
  destruct (s3_download_file E bucket key lip _) as [[[]|e] wa] eqn:Hd;
    apply s3_download_file_calls in Hd; cbn [calls] in Hd.
  2:{ intros H. injection H as <- <-. exists [Download bucket key lip], [].
      split; [exact Hd|]. split; [by eexists | discriminate]. }
  rewrite bind_unfold, print_run, bind_unfold.
  destruct (transcode_to_mp4 E lip ltp _) as [[[]|e] wb] eqn:Ht;
    apply transcode_to_mp4_calls in Ht; cbn [calls] in Ht; rewrite Hd in Ht.
  2:{ intros H. injection H as <- <-.
      exists [Download bucket key lip; Subprocess (transcode_command lip ltp)], [].
      split; [by rewrite Ht, <- app_assoc|]. split; [by eexists | discriminate]. }
  rewrite bind_unfold.
  destruct (generate_thumbnails E ltp out wb) as [[paths|e] wc] eqn:Hg;
    apply generate_thumbnails_calls in Hg; rewrite Ht in Hg.
  2:{ intros H. injection H as <- <-.
      exists [Download bucket key lip; Subprocess (transcode_command lip ltp);
              Subprocess (thumbnail_command ltp out)], [].
      split; [by rewrite Hg, <- !app_assoc|]. split; [by eexists | discriminate]. }
  rewrite bind_unfold. unfold analyze_thumbnails_ai.
  rewrite bind_unfold, print_run. cbn [mret M_ret]. intros H.
  destruct (publish_trace _ _ _ _ _ _ _ _ _ _ H) as (sent & [k Hk] & Hc & Hok).
  cbn [calls] in Hc. rewrite Hg in Hc.
  exists ([Download bucket key lip; Subprocess (transcode_command lip ltp);
           Subprocess (thumbnail_command ltp out);
           Upload ltp bucket ("processed/" +:+ job_id +:+ "/" +:+ tf)]
          ++ (thumbnail_upload bucket job_id <$> sent))%list, paths.
  split; [by rewrite Hc, <- !app_assoc|]. split.
  - exists (thumbnail_upload bucket job_id <$> k). unfold pipeline_calls.
    rewrite Hk, fmap_app, <- !app_assoc. reflexivity.
  - intros r ->. rewrite (Hok r eq_refl). split; [reflexivity|].
    eapply publish_Ok_inv, H.
Qed.

Lemma guarded_body_trace E g job_id key lip tf ltp out w r w' bucket :
  S3_BUCKET_NAME g = Some bucket →
  guarded_body E g job_id key lip tf ltp out w = (Ok r, w') →
  ∃ l paths,
    calls w' = (calls w ++ l)%list ∧
    l `prefix_of` pipeline_calls bucket job_id key lip tf ltp out paths ∧
    (field r "status" = Some (PStr "success") →
       l = pipeline_calls bucket job_id key lip tf ltp out paths ∧
       r = success_response ("processed/" +:+ job_id +:+ "/" +:+ tf)
             (thumbnail_key job_id <$> paths) ai_metadata
             (default "https://YOUR-PUBLIC-URL.dev" (environ E !! "CLOUDFLARE_R2_PUBLIC_URL")
                +:+ "/processed/" +:+ job_id)).
Proof.
  intros Hb. unfold guarded_body, try_except.
  destruct (job_body E g job_id key lip tf ltp out w) as [[r0|e] wa] eqn:Hj;
    destruct (job_body_trace _ _ _ _ _ _ _ _ _ _ _ _ Hb Hj) as (l & paths & Hc & Hp & Hok).
  - intros H. apply pair_Ok_inj in H as [<- <-]. exists l, paths.
    split; [exact Hc|]. split; [exact Hp|]. intros _. by apply Hok.
  - cbn [is_Exception]. rewrite job_failed_run. intros H.
    apply pair_Ok_inj in H as [<- <-]. exists l, paths. cbn [calls].
    split; [exact Hc|]. split; [exact Hp|]. intros Hs. discriminate Hs.
Qed.

(** X5. The calls of the [try] suite (lines 127-171) always come in the
    one order download, transcode run, thumbnail run, upload of the
    transcoded file, uploads of the thumbnails: whatever the suite ends
    with, the calls it made are an initial part of that sequence, so no
    upload is ever made before the download and both [ffmpeg] runs, and
    the thumbnail run reads the transcoded file, not the original. A
    success response is only returned after the whole sequence, and then
    [thumbnail_keys] lists the keys of the thumbnails uploaded, in the
    order of the uploads. *)
Theorem guarded_body_call_order E g job_id key lip tf ltp out w r w' bucket :
  S3_BUCKET_NAME g = Some bucket →
  guarded_body E g job_id key lip tf ltp out w = (Ok r, w') →
  ∃ l paths,
    calls w' = (calls w ++ l)%list ∧
    l `prefix_of` pipeline_calls bucket job_id key lip tf ltp out paths ∧
    (field r "status" = Some (PStr "success") →
       l = pipeline_calls bucket job_id key lip tf ltp out paths ∧
       field r "thumbnail_keys" = Some (PList (PStr <$> (thumbnail_key job_id <$> paths)))).
Proof.
  intros Hb H.
  destruct (guarded_body_trace _ _ _ _ _ _ _ _ _ _ _ _ Hb H) as (l & paths & Hc & Hp & Hok).
  exists l, paths. split; [exact Hc|]. split; [exact Hp|].
  intros Hs. destruct (Hok Hs) as [Hl ->]. split; [exact Hl | reflexivity].
Qed.

(** ** Inversion of a run that returns *)

Lemma makedirs_pair_calls a b w w1 :
  (Fs.makedirs a ;; Fs.makedirs b) w = (Ok tt, w1) →
  calls w1 = (calls w ++ [Makedirs a; Makedirs b])%list ∧
  stdout w1 = stdout w ∧
  fs w1 !! a = Some Dir ∧ fs w1 !! b = Some Dir ∧
  (∀ q, q ≠ a → q ≠ b → fs w1 !! q = fs w !! q).
Proof.
  rewrite bind_unfold, makedirs_run.
  destruct (fs w !! a) as [[]|] eqn:Ha; [discriminate| |];
    rewrite makedirs_run; cbn [fs stdout calls].
  - destruct (fs w !! b) as [[]|] eqn:Hb; [discriminate| |];
      intros H; apply pair_Ok_inj in H as [_ <-]; cbn [fs stdout calls];
      rewrite <- app_assoc; (split; [reflexivity|]); (split; [reflexivity|]).
    + split; [exact Ha|]. split; [exact Hb|]. done.
    + destruct (decide (b = a)) as [->|Hne].
      { rewrite Ha in Hb. discriminate Hb. }
      rewrite lookup_insert_ne by done. split; [exact Ha|].
      split; [apply lookup_insert_eq|]. intros q _ Hq. by rewrite lookup_insert_ne.
  - destruct (decide (a = b)) as [<-|Hne].
    + rewrite lookup_insert_eq. intros H. apply pair_Ok_inj in H as [_ <-].
      cbn [fs stdout calls]. rewrite <- app_assoc.
      split; [reflexivity|]. split; [reflexivity|].
      split; [apply lookup_insert_eq|]. split; [apply lookup_insert_eq|].
      intros q Hq _. by rewrite lookup_insert_ne.
    + rewrite lookup_insert_ne by done.
      destruct (fs w !! b) as [[]|] eqn:Hb; [discriminate| |];
        intros H; apply pair_Ok_inj in H as [_ <-]; cbn [fs stdout calls];
        rewrite <- app_assoc; (split; [reflexivity|]); (split; [reflexivity|]).
      * split; [apply lookup_insert_eq|].
        split; [by rewrite lookup_insert_ne|]. intros q Hq _. by rewrite lookup_insert_ne.
      * split; [rewrite lookup_insert_ne by done; apply lookup_insert_eq|].
        split; [apply lookup_insert_eq|].
        intros q Hq1 Hq2. by rewrite !lookup_insert_ne.
Qed.

Lemma handler_Ok_inv E job w r w' :
  handler E job w = (Ok r, w') →
  (r = misconfigured_response ∧ w' = w ∧ configuration_absent (environ E)) ∨
  (configured (environ E) ∧
   ∃ d ji, job = PDict d ∧ d !! "input" = Some (PDict ji) ∧
     ((r = missing_key_response ∧ w' = w ∧ ji !! "source_video_key" = None) ∨
      ∃ key rnd bucket w1 w2,
        ji !! "source_video_key" = Some (PStr key) ∧
        urandom16 E = Some rnd ∧
        environ E !! "CLOUDFLARE_R2_BUCKET_NAME" = Some bucket ∧
        S3_BUCKET_NAME (module_init (environ E)).1 = Some bucket ∧
        (Fs.makedirs (input_dir (job_id_of rnd)) ;;
         Fs.makedirs (output_dir (job_id_of rnd))) w = (Ok tt, w1) ∧
        guarded_body E (module_init (environ E)).1 (job_id_of rnd) key
          (OsPath.join (input_dir (job_id_of rnd)) (OsPath.basename key))
          ((OsPath.splitext (OsPath.basename key)).1 +:+ "_processed.mp4")
          (OsPath.join (output_dir (job_id_of rnd))
             ((OsPath.splitext (OsPath.basename key)).1 +:+ "_processed.mp4"))
          (output_dir (job_id_of rnd)) w1 = (Ok r, w2) ∧
        cleanup (input_dir (job_id_of rnd)) (output_dir (job_id_of rnd)) w2 = (Ok tt, w'))).
Proof.
  intros H.
  destruct (misconfigured_total (environ E) w) as (b & Hb & Hiff).
  destruct b.
  { left. unfold handler in H. rewrite (bind_Ok _ _ _ _ _ Hb) in H.
    apply pair_Ok_inj in H as [<- <-]. split; [reflexivity|]. split; [reflexivity|].
    by apply Hiff. }
  right.
  destruct (module_init_cases (environ E))
    as [(Hc & _ & _ & _ & Hbk) | (pre & name & post & Hreq & _ & Hn & _)].
  2:{ assert (Hft : false = true); [|discriminate Hft]. apply Hiff. exists name.
      split; [|exact Hn]. rewrite Hreq. apply elem_of_app. right. left. }
  split; [exact Hc|].
  destruct (Hc "CLOUDFLARE_R2_BUCKET_NAME") as [bucket Hbucket].
  { apply list_elem_of_In. cbn. tauto. }
  rewrite Hbucket in Hbk.
  rewrite handler_configured in H by exact Hc.
  inv_bind H.
  destruct job as [| | | | |d]; try discriminate Hm.
  cbn in Hm. destruct (d !! "input") as [ji|] eqn:Hd; [|discriminate Hm].
  apply pair_Ok_inj in Hm as [<- <-].
  unfold try_or_return in H.
  destruct ji as [| | | | |ji]; try discriminate H.
  exists d, ji. split; [reflexivity|]. split; [exact Hd|].
  cbn in H. destruct (ji !! "source_video_key") as [v|] eqn:Hk; cbn in H.
  2:{ left. apply pair_Ok_inj in H as [<- <-]. done. }
  right.
  destruct (urandom16 E) as [rnd|] eqn:Hr.
  2:{ unfold run_job, Uuid.uuid4_str in H. rewrite Hr in H. discriminate H. }
  rewrite (run_job_unfold E _ v w rnd Hr) in H.
  rewrite bind_unfold in H.
  destruct (Fs.makedirs (input_dir (job_id_of rnd)) w) as [[[]|e1] wa] eqn:H1; [|discriminate H].
  rewrite bind_unfold in H.
  destruct (Fs.makedirs (output_dir (job_id_of rnd)) wa) as [[[]|e2] wb] eqn:H2; [|discriminate H].
  destruct v as [| | |key| |]; try discriminate H.
  cbn [fspath] in H. rewrite bind_unfold in H. cbn [mret M_ret] in H.
  apply try_finally_Ok_inv in H as (w2 & Hg & Hcl).
  exists key, rnd, bucket, wb, w2.
  split; [reflexivity|]. split; [reflexivity|]. split; [exact Hbucket|].
  split; [exact Hbk|]. split; [|split; [exact Hg | exact Hcl]].
  rewrite bind_unfold, H1. exact H2.
Qed.

Lemma filter_thumbnail_uploads bucket job_id (paths : list string) :
  filter (λ c, is_upload c = true) (thumbnail_upload bucket job_id <$> paths)
  = thumbnail_upload bucket job_id <$> paths.
Proof.
  induction paths as [|p paths IH]; [reflexivity|].
  cbn [fmap list_fmap]. rewrite filter_cons_True by reflexivity. f_equal. exact IH.
Qed.

Lemma upload_keys_thumbnails bucket job_id (paths : list string) :
  omap upload_key (thumbnail_upload bucket job_id <$> paths) = thumbnail_key job_id <$> paths.
Proof.
  induction paths as [|p paths IH]; [reflexivity|].
  cbn [fmap list_fmap omap list_omap upload_key thumbnail_upload]. f_equal. exact IH.
Qed.

(** X6. A success response reports exactly what the job uploaded: the
    uploads made between the call of [handler] and its return are one
    per reported key, first the object under [transcoded_video_key] and
    then the objects under [thumbnail_keys], in the order of that list;
    nothing else was uploaded, neither before the publish stage nor by
    the cleanup. *)
Theorem handler_success_reports_uploads E job w r w' :
  handler E job w = (Ok r, w') →
  field r "status" = Some (PStr "success") →
  ∃ tk keys ups,
    field r "transcoded_video_key" = Some (PStr tk) ∧
    field r "thumbnail_keys" = Some (PList (PStr <$> keys)) ∧
    filter (λ c, is_upload c = true) (calls w') =
      (filter (λ c, is_upload c = true) (calls w) ++ ups)%list ∧
    omap upload_key ups = tk :: keys ∧
    length ups = S (length keys).
Proof.
  intros H Hs.
  destruct (handler_Ok_inv _ _ _ _ _ H) as [(-> & _) | (_ & d & ji & _ & _ & [(-> & _) | Hrun])];
    [discriminate Hs..|].
  destruct Hrun as (key & rnd & bucket & w1 & w2 & _ & _ & _ & Hbk & Hmk & Hg & Hcl).
  destruct (guarded_body_trace _ _ _ _ _ _ _ _ _ _ _ _ Hbk Hg) as (l & paths & Hc & _ & Hok).
  destruct (Hok Hs) as [-> ->].
  apply makedirs_pair_calls in Hmk as (Hmk & _).
  apply cleanup_same_uploads in Hcl. unfold same_uploads in Hcl.
  eexists _, (thumbnail_key (job_id_of rnd) <$> paths), _.
  split; [reflexivity|]. split; [reflexivity|].
  rewrite Hcl, Hc, Hmk. unfold pipeline_calls.
  rewrite !filter_app, filter_thumbnail_uploads. cbn [filter list_filter].
  rewrite !decide_False by discriminate. rewrite decide_True by reflexivity.
  rewrite app_nil_r. split; [reflexivity|].
  cbn [app omap list_omap upload_key]. rewrite upload_keys_thumbnails.
  split; [reflexivity|]. cbn [length]. by rewrite !length_fmap.
Qed.

(** ** A failed upload *)

Lemma upload_thumbnails_abort E bucket job_id pre p post acc e w :
  (∀ q, q ∈ pre →
     fs w !! q = Some File ∧ upload_result E q bucket (thumbnail_key job_id q) = None) →
  fs w !! p = Some File →
  upload_result E p bucket (thumbnail_key job_id p) = Some e →
  ∃ w',
    upload_thumbnails E bucket ("processed/" +:+ job_id) (pre ++ p :: post) acc w
      = (Raise e, w') ∧
    calls w' = (calls w ++ (thumbnail_upload bucket job_id <$> (pre ++ [p])))%list ∧
    fs w' = fs w.
Proof.
  revert acc w. induction pre as [|q pre IH]; intros acc w Hpre Hp He.
  - cbn [app upload_thumbnails].
    rewrite bind_unfold, print_run, bind_unfold, s3_upload_file_run.
    cbv zeta. cbn [fs stdout calls]. rewrite Hp.
    change (upload_result E p bucket (("processed/" +:+ job_id) +:+ "/thumbnails/" +:+ OsPath.basename p))
      with (upload_result E p bucket (thumbnail_key job_id p)).
    rewrite He. eexists. split; [reflexivity|]. split; reflexivity.
  - destruct (Hpre q) as [Hq Hu]; [left|].
    change ((q :: pre) ++ p :: post)%list with (q :: (pre ++ p :: post))%list.
    cbn [upload_thumbnails].
    rewrite bind_unfold, print_run, bind_unfold, s3_upload_file_run.
    cbv zeta. cbn [fs stdout calls]. rewrite Hq.
    change (upload_result E q bucket (("processed/" +:+ job_id) +:+ "/thumbnails/" +:+ OsPath.basename q))
      with (upload_result E q bucket (thumbnail_key job_id q)).
    rewrite Hu.
    edestruct (IH (acc ++ [("processed/" +:+ job_id) +:+ "/thumbnails/" +:+ OsPath.basename q])%list
                 (World (fs w)
                    (stdout w ++ ["Uploading thumbnail " +:+
                       (("processed/" +:+ job_id) +:+ "/thumbnails/" +:+ OsPath.basename q) +:+ "..."])
                    (calls w ++ [Upload q bucket
                       (("processed/" +:+ job_id) +:+ "/thumbnails/" +:+ OsPath.basename q)])))
      as (w' & Hrun & Hc & Hf).
    + intros q' Hq'. cbn [fs]. apply Hpre. by right.
    + exact Hp.
    + exact He.
    + exists w'. split; [exact Hrun|]. cbn [fs calls] in Hc, Hf. split; [|exact Hf].
      rewrite Hc, <- app_assoc. reflexivity.
Qed.

(** X7. The upload loop (lines 152-158) stops at the first thumbnail
    that the storage service refuses: the transcoded file and the
    thumbnails before it have been uploaded and stay uploaded, the
    refused upload is the last call, the thumbnails after it are never
    attempted, and the publish stage ends with the exception of the
    storage client, which the catch-all boundary then turns into an
    error response. An error response therefore does not mean that
    nothing was published. *)
Theorem upload_failure_keeps_earlier_uploads E job_id tf ltp ai pre p post e w bucket :
  fs w !! ltp = Some File →
  upload_result E ltp bucket ("processed/" +:+ job_id +:+ "/" +:+ tf) = None →
  (∀ q, q ∈ pre →
     fs w !! q = Some File ∧ upload_result E q bucket (thumbnail_key job_id q) = None) →
  fs w !! p = Some File →
  upload_result E p bucket (thumbnail_key job_id p) = Some e →
  ∃ w',
    publish E bucket job_id tf ltp (pre ++ p :: post) ai w = (Raise e, w') ∧
    calls w' = (calls w ++ Upload ltp bucket ("processed/" +:+ job_id +:+ "/" +:+ tf)
                  :: (thumbnail_upload bucket job_id <$> (pre ++ [p])))%list ∧
    fs w' = fs w ∧
    try_except (publish E bucket job_id tf ltp (pre ++ p :: post) ai) is_Exception
      (job_failed E) w
    = (Ok (error_response (str_exn E e)),
       World (fs w') (stdout w' ++ ["Job failed: " +:+ str_exn E e]) (calls w')).
Proof.
  intros Hl Hu Hpre Hp He.
  assert (Hrun : ∃ w',
    publish E bucket job_id tf ltp (pre ++ p :: post) ai w = (Raise e, w') ∧
    calls w' = (calls w ++ Upload ltp bucket ("processed/" +:+ job_id +:+ "/" +:+ tf)
                  :: (thumbnail_upload bucket job_id <$> (pre ++ [p])))%list ∧
    fs w' = fs w).
  { unfold publish. cbv zeta.
    rewrite bind_unfold, print_run, bind_unfold, s3_upload_file_run.
    cbv zeta. cbn [fs stdout calls]. rewrite Hl.
    change (upload_result E ltp bucket (("processed/" +:+ job_id) +:+ "/" +:+ tf))
      with (upload_result E ltp bucket ("processed/" +:+ job_id +:+ "/" +:+ tf)).
    rewrite Hu, bind_unfold.
    edestruct (upload_thumbnails_abort E bucket job_id pre p post [] e) as (w' & Hrun & Hc & Hf);
      [| | | rewrite Hrun].
    - intros q Hq. cbn [fs]. apply Hpre, Hq.
    - exact Hp.
    - exact He.
    - exists w'. split; [reflexivity|]. cbn [fs calls] in Hc, Hf. split; [|exact Hf].
      rewrite Hc, <- app_assoc. reflexivity. }
  destruct Hrun as (w' & Hrun & Hc & Hf). exists w'.
  split; [exact Hrun|]. split; [exact Hc|]. split; [exact Hf|].
  unfold try_except. rewrite Hrun. cbn [is_Exception]. apply job_failed_run.
Qed.

(** The publish stage on three thumbnails when the service refuses the
    second: two thumbnails are sent, the third is not. *)
Lemma upload_failure_keeps_earlier_uploads_witness :
  ∃ w',
    publish Sample.env_upload_fails "media" "j" "clip_processed.mp4"
      "/tmp/j_output/clip_processed.mp4"
      [ "/tmp/j_output/thumb_001.jpg"; "/tmp/j_output/thumb_002.jpg";
        "/tmp/j_output/thumb_003.jpg" ] ai_metadata Sample.w_output
    = (Raise (StorageError "An error occurred (503) when calling the PutObject operation"), w') ∧
    calls w' =
      [ Upload "/tmp/j_output/clip_processed.mp4" "media" "processed/j/clip_processed.mp4";
        Upload "/tmp/j_output/thumb_001.jpg" "media" "processed/j/thumbnails/thumb_001.jpg";
        Upload "/tmp/j_output/thumb_002.jpg" "media" "processed/j/thumbnails/thumb_002.jpg" ].
Proof.
  destruct (upload_failure_keeps_earlier_uploads Sample.env_upload_fails
      "j" "clip_processed.mp4"
      "/tmp/j_output/clip_processed.mp4" ai_metadata
      [ "/tmp/j_output/thumb_001.jpg" ] "/tmp/j_output/thumb_002.jpg"
      [ "/tmp/j_output/thumb_003.jpg" ]
      (StorageError "An error occurred (503) when calling the PutObject operation")
      Sample.w_output "media")
    as (w' & Hrun & Hc & _).
  - vm_compute. reflexivity.
  - reflexivity.
  - intros q Hq. apply list_elem_of_singleton in Hq as ->. split; vm_compute; reflexivity.
  - vm_compute. reflexivity.
  - reflexivity.
  - exists w'. split; [exact Hrun | exact Hc].
Defined.

(** ** A key that is not a string *)

Lemma makedirs_pair_Ok a b w :
  fs w !! a ≠ Some File → fs w !! b ≠ Some File →
  ∃ w1, (Fs.makedirs a ;; Fs.makedirs b) w = (Ok tt, w1).
Proof.
  intros Ha Hb. rewrite bind_unfold, makedirs_run.
  destruct (fs w !! a) as [[]|] eqn:Ea; [done| |]; rewrite makedirs_run; cbn [fs stdout calls].
  - destruct (fs w !! b) as [[]|] eqn:Eb; [done|eexists; reflexivity..].
  - destruct (decide (a = b)) as [<-|Hne].
    + rewrite lookup_insert_eq. eexists; reflexivity.
    + rewrite lookup_insert_ne by done.
      destruct (fs w !! b) as [[]|] eqn:Eb; [done|eexists; reflexivity..].
Qed.

Lemma fspath_nonstring v w :
  (∀ s, v ≠ PStr s) → ∃ msg, fspath v w = (Raise (TypeError msg), w).
Proof.
  intros Hv. destruct v; try (eexists; reflexivity). by destruct (Hv s).
Qed.

(** X8. A [source_video_key] that is present but is not a string (a
    number, [null], a list, a mapping) is not rejected by the validation
    of lines 109-112: [handler] draws a job identifier, creates both
    scratch directories, and then [os.path.basename] raises [TypeError]
    on line 122, before the [try] statement is entered. The exception
    leaves [handler], nothing is removed, and both directories stay on
    disk. *)
Theorem nonstring_key_leaves_directories E d ji v rnd w :
  configured (environ E) →
  d !! "input" = Some (PDict ji) →
  ji !! "source_video_key" = Some v →
  (∀ s, v ≠ PStr s) →
  urandom16 E = Some rnd →
  fs w !! input_dir (job_id_of rnd) ≠ Some File →
  fs w !! output_dir (job_id_of rnd) ≠ Some File →
  ∃ msg w1,
    handler E (PDict d) w = (Raise (TypeError msg), w1) ∧
    fs w1 !! input_dir (job_id_of rnd) = Some Dir ∧
    fs w1 !! output_dir (job_id_of rnd) = Some Dir ∧
    calls w1 = (calls w ++ [ Makedirs (input_dir (job_id_of rnd));
                             Makedirs (output_dir (job_id_of rnd)) ])%list ∧
    stdout w1 = stdout w.
Proof.
  intros Hc Hd Hk Hv Hr Hi Ho.
  destruct (makedirs_pair_Ok _ _ w Hi Ho) as (w1 & Hmk).
  destruct (fspath_nonstring v w1 Hv) as (msg & Hf).
  exists msg, w1.
  destruct (makedirs_pair_calls _ _ _ _ Hmk) as (Hcalls & Hout & Hdi & Hdo & _).
  split; [|split; [exact Hdi|split; [exact Hdo|split; [exact Hcalls | exact Hout]]]].
  rewrite (handler_with_key E d ji v) by done.
  rewrite (run_job_unfold E _ v w rnd Hr).
  rewrite bind_unfold in Hmk. rewrite bind_unfold.
  destruct (Fs.makedirs (input_dir (job_id_of rnd)) w) as [[[]|e1] wa]; [|discriminate].
  rewrite bind_unfold, Hmk, bind_unfold, Hf. reflexivity.
Qed.

(** The job whose key is JSON [null], run in an empty temporary root. *)
Lemma nonstring_key_leaves_directories_witness :
  ∃ msg w1,
    Sample.null_key_run = (Raise (TypeError msg), w1) ∧
    fs w1 !! input_dir (job_id_of Sample.random) = Some Dir ∧
    fs w1 !! output_dir (job_id_of Sample.random) = Some Dir.
Proof.
  destruct (nonstring_key_leaves_directories (Sample.env Sample.env_vars 0 3)
      (Sample.job_dict PNone) (Sample.input_with PNone) PNone Sample.random Sample.w0
      sample_configured (sample_job_input _) (sample_input_key _))
    as (msg & w1 & Hrun & Hi & Ho & _).
  - intros s. discriminate.
  - reflexivity.
  - vm_compute. discriminate.
  - vm_compute. discriminate.
  - exists msg, w1. split; [exact Hrun|]. split; [exact Hi | exact Ho].
Defined.

(** ** Entries of a directory *)

Lemma endswith_sep_append a b :
  b ≠ "" → PyStr.endswith_sep (a +:+ b) = PyStr.endswith_sep b.
Proof.
  intros Hb. induction a as [|x a IH]; [reflexivity|].
  change (String x a +:+ b) with (String x (a +:+ b)).
  cbn [PyStr.endswith_sep]. destruct (a +:+ b) as [|y s] eqn:Hs; [|exact IH].
  destruct a; [|discriminate Hs]. cbn in Hs. contradiction.
Qed.

Lemma startswith_true_inv q p :
  PyStr.startswith q p = true → ∃ s, p = q +:+ s.
Proof.
  revert p. induction q as [|a q IH]; intros p H; [by exists p|].
  destruct p as [|b p]; [discriminate H|]. cbn [PyStr.startswith] in H.
  apply andb_true_iff in H as [Hab Hq]. apply Ascii.eqb_eq in Hab as ->.
  destruct (IH p Hq) as (s & ->). by exists s.
Qed.

Lemma child_name_inv d q n :
  Fs.child_name d q = Some n →
  q = d +:+ String "/" n ∧ n ≠ "" ∧ PyStr.contains "/" n = false.
Proof.
  unfold Fs.child_name. destruct (PyStr.startswith (d +:+ "/") q) eqn:Hs; [|discriminate].
  destruct (startswith_true_inv _ _ Hs) as (s & ->).
  rewrite slice_from_append.
  destruct (String.eqb_spec s "") as [->|Hne]; [discriminate|].
  destruct (PyStr.contains "/" s) eqn:Hc; [discriminate|].
  cbn. intros H. injection H as <-. split; [|done]. symmetry. apply entry_assoc.
Qed.

Lemma no_sep_not_absolute n :
  PyStr.contains "/" n = false → PyStr.startswith "/" n = false.
Proof.
  destruct n as [|c n]; [reflexivity|]. cbn [PyStr.contains PyStr.startswith].
  intros H. apply orb_false_iff in H as [H _]. rewrite Ascii.eqb_sym, H. reflexivity.
Qed.

Lemma fnmatch_star n : Fnmatch.fnmatch "*" n = true.
Proof.
  cbn. induction n as [|c n IH]; [reflexivity|]. exact IH.
Qed.

Lemma inside_true d q :
  inside d q = true ↔ q = d ∨ ∃ n, Fs.child_name d q = Some n.
Proof.
  unfold inside. rewrite orb_true_iff, String.eqb_eq, bool_decide_eq_true.
  unfold is_Some. reflexivity.
Qed.

Lemma inside_false d q :
  inside d q = false ↔ q ≠ d ∧ Fs.child_name d q = None.
Proof.
  unfold inside. rewrite orb_false_iff, String.eqb_neq, bool_decide_eq_false.
  split; intros [H1 H2]; (split; [exact H1|]).
  - destruct (Fs.child_name d q); [|reflexivity]. exfalso. apply H2. eauto.
  - rewrite H2. by intros [x Hx].
Qed.

Lemma omap_nil_of_None {A B} (f : A → option B) (l : list A) :
  (∀ x, x ∈ l → f x = None) → omap f l = [].
Proof.
  induction l as [|x l IH]; intros H; [reflexivity|].
  cbn [omap list_omap]. rewrite (H x) by left. apply IH. intros y Hy. apply H. by right.
Qed.

Lemma listdir_elem d f n :
  n ∈ Fs.listdir d f ↔
  f !! d = Some Dir ∧ ∃ x, f !! (d +:+ String "/" n) = Some x ∧ n ≠ "" ∧ PyStr.contains "/" n = false.
Proof.
  unfold Fs.listdir. split.
  - destruct (f !! d) as [[]|]; try (intros H; by apply elem_of_nil in H).
    intros H. split; [reflexivity|].
    apply list_elem_of_omap in H as ([q x] & Hin & Hc). cbn [fst] in Hc.
    apply elem_of_map_to_list in Hin.
    apply child_name_inv in Hc as (-> & Hne & Hs). eauto.
  - intros (-> & x & Hx & Hne & Hs). apply list_elem_of_omap.
    exists (d +:+ String "/" n, x). split; [by apply elem_of_map_to_list|].
    cbn [fst]. by apply child_entry.
Qed.

Lemma listdir_NoDup d f : NoDup (Fs.listdir d f).
Proof.
  unfold Fs.listdir. destruct (f !! d) as [[]|]; try apply NoDup_nil_2.
  pose proof (NoDup_fst_map_to_list f) as Hnd.
  induction (map_to_list f) as [|[q x] l IH]; [apply NoDup_nil_2|].
  cbn [fmap list_fmap fst] in Hnd. apply NoDup_cons in Hnd as [Hq Hnd].
  cbn [omap list_omap fst].
  destruct (Fs.child_name d q) as [n|] eqn:Hc; [|by apply IH].
  apply NoDup_cons. split; [|by apply IH].
  intros Hin. apply list_elem_of_omap in Hin as ([q' x'] & Hin & Hc'). cbn [fst] in Hc'.
  apply child_name_inv in Hc as (-> & _). apply child_name_inv in Hc' as (-> & _).
  apply Hq. apply list_elem_of_fmap. exists (d +:+ String "/" n, x'). split; [reflexivity | exact Hin].
Qed.

Lemma filter_all {A} (P : A → Prop) `{∀ x, Decision (P x)} (l : list A) :
  (∀ x, x ∈ l → P x) → filter P l = l.
Proof.
  induction l as [|x l IH]; intros Hl; [reflexivity|].
  rewrite filter_cons_True by (apply Hl; left). f_equal. apply IH.
  intros y Hy. apply Hl. by right.
Qed.

Lemma matches_all d f :
  d ≠ "" → PyStr.endswith_sep d = false → visible_files_only d f →
  Fs.matches (d +:+ "/*") f = (λ n, d +:+ String "/" n) <$> Fs.listdir d f.
Proof.
  intros H1 H2 Hv. unfold Fs.matches.
  change (d +:+ "/*") with (d +:+ String "/" "*").
  rewrite (split_entry d H1 H2 "*") by reflexivity. cbn [Fnmatch.ishidden].
  change (Ascii.eqb "*" ".") with false. cbv iota.
  rewrite (filter_all (λ n, Fnmatch.ishidden n = false)).
  2:{ intros n Hn. apply listdir_elem in Hn as (_ & x & Hx & Hne & Hs).
      eapply Hv; [exact Hx | by apply child_entry]. }
  rewrite (filter_all (λ n, Fnmatch.fnmatch "*" n = true))
    by (intros n _; apply fnmatch_star).
  apply list_fmap_ext. intros i n Hn. apply join_entry; [exact H1 | exact H2 |].
  apply list_elem_of_lookup_2, listdir_elem in Hn as (_ & x & _ & _ & Hs).
  by apply no_sep_not_absolute.
Qed.

Lemma for_each_remove_files files w :
  NoDup files →
  (∀ p, p ∈ files → fs w !! p = Some File) →
  ∃ w',
    for_each files Fs.remove w = (Ok tt, w') ∧
    stdout w' = stdout w ∧
    calls w' = (calls w ++ (Remove <$> files))%list ∧
    ∀ q, fs w' !! q = if bool_decide (q ∈ files) then None else fs w !! q.
Proof.
  revert w. induction files as [|p files IH]; intros w Hnd Hf.
  { exists w. split; [reflexivity|]. split; [reflexivity|].
    split; [by rewrite app_nil_r|]. intros q. rewrite bool_decide_eq_false_2; [reflexivity|].
    apply not_elem_of_nil. }
  apply NoDup_cons in Hnd as [Hp Hnd].
  cbn [for_each]. rewrite bind_unfold, remove_run, (Hf p) by left.
  destruct (IH (World (delete p (fs w)) (stdout w) (calls w ++ [Remove p])) Hnd)
    as (w' & Hrun & Hout & Hcalls & Hfs).
  { intros p' Hp'. cbn [fs]. rewrite lookup_delete_ne by (intros ->; contradiction).
    apply Hf. by right. }
  exists w'. split; [exact Hrun|]. cbn [fs stdout calls] in Hout, Hcalls, Hfs.
  split; [exact Hout|]. split; [by rewrite Hcalls, <- app_assoc|].
  intros q. rewrite Hfs. destruct (decide (q = p)) as [->|Hne].
  - rewrite (bool_decide_eq_true_2 (p ∈ p :: files)) by left.
    rewrite lookup_delete_eq. by case_bool_decide.
  - rewrite lookup_delete_ne by done.
    destruct (decide (q ∈ files)) as [Hin|Hin].
    + rewrite !bool_decide_eq_true_2; [reflexivity | by right | exact Hin].
    + rewrite !bool_decide_eq_false_2; [reflexivity | | exact Hin].
      intros Hq. apply elem_of_cons in Hq as [?|?]; contradiction.
Qed.

Lemma cleanup_dir_visible d w :
  d ≠ "" → PyStr.endswith_sep d = false →
  fs w !! d = Some Dir →
  visible_files_only d (fs w) →
  ∃ w',
    cleanup_dir d w = (Ok tt, w') ∧
    stdout w' = stdout w ∧
    ∀ q, fs w' !! q = if inside d q then None else fs w !! q.
Proof.
  intros H1 H2 Hd Hv.
  set (files := (λ n, d +:+ String "/" n) <$> Fs.listdir d (fs w)).
  assert (Hin : ∀ q, q ∈ files ↔ ∃ n, Fs.child_name d q = Some n ∧ is_Some (fs w !! q)).
  { intros q. unfold files. rewrite list_elem_of_fmap. split.
    - intros (n & -> & Hn). apply listdir_elem in Hn as (_ & x & Hx & Hne & Hs).
      exists n. split; [by apply child_entry | eauto].
    - intros (n & Hc & [x Hx]). exists n.
      apply child_name_inv in Hc as (-> & Hne & Hs). split; [reflexivity|].
      apply listdir_elem. eauto. }
  destruct (for_each_remove_files files w) as (w1 & Hrun & Hout & _ & Hfs).
  { unfold files. apply NoDup_fmap_2; [|apply listdir_NoDup].
    intros a b Hab. eapply entry_inj, Hab. }
  { intros p Hp. apply Hin in Hp as (n & Hc & [x Hx]).
    destruct (Hv p n x Hx Hc) as [-> _]. exact Hx. }
  assert (Hd1 : fs w1 !! d = Some Dir).
  { rewrite Hfs, bool_decide_eq_false_2; [exact Hd|].
    intros Hp. apply Hin in Hp as (n & Hc & _).
    apply child_name_inv in Hc as (Hc & _). exact (entry_ne_dir _ _ (eq_sym Hc)). }
  assert (Hl1 : Fs.listdir d (fs w1) = []).
  { unfold Fs.listdir. rewrite Hd1. apply omap_nil_of_None. intros [q x] Hq.
    apply elem_of_map_to_list in Hq. cbn [fst].
    destruct (Fs.child_name d q) as [n|] eqn:Hc; [|reflexivity]. exfalso.
    rewrite Hfs in Hq. case_bool_decide as Hq'; [discriminate Hq|].
    apply Hq', Hin. eauto. }
  exists (World (delete d (fs w1)) (stdout w1) (calls w1 ++ [Rmdir d])).
  split; [|split; [exact Hout|]].
  - unfold cleanup_dir. rewrite bind_unfold, exists_run.
    rewrite bool_decide_eq_true_2 by (rewrite Hd; eauto).
    rewrite bind_unfold, glob_run, (matches_all d (fs w) H1 H2 Hv).
    fold files. rewrite bind_unfold, Hrun, rmdir_run, Hd1, Hl1. reflexivity.
  - intros q. cbn [fs]. destruct (inside d q) eqn:Hi.
    + apply inside_true in Hi as [-> | (n & Hc)]; [apply lookup_delete_eq|].
      rewrite lookup_delete_ne.
      2:{ intros <-. apply child_name_inv in Hc as (Hc & _).
          exact (entry_ne_dir _ _ (eq_sym Hc)). }
      rewrite Hfs. case_bool_decide as Hq; [reflexivity|].
      destruct (fs w !! q) as [x|] eqn:Hx; [|reflexivity].
      exfalso. apply Hq, Hin. exists n. split; [exact Hc | eauto].
    + apply inside_false in Hi as [Hne Hc].
      rewrite lookup_delete_ne by done. rewrite Hfs.
      rewrite bool_decide_eq_false_2; [reflexivity|].
      intros Hq. apply Hin in Hq as (n & Hc' & _). congruence.
Qed.

Lemma cleanup_visible i o w :
  i ≠ "" → PyStr.endswith_sep i = false →
  o ≠ "" → PyStr.endswith_sep o = false →
  inside i o = false →
  fs w !! i = Some Dir → fs w !! o = Some Dir →
  visible_files_only i (fs w) → visible_files_only o (fs w) →
  ∃ w',
    cleanup i o w = (Ok tt, w') ∧
    stdout w' = (stdout w ++ ["Cleaning up local files..."; "Cleanup complete."])%list ∧
    ∀ q, fs w' !! q = if inside i q || inside o q then None else fs w !! q.
Proof.
  intros Hi1 Hi2 Ho1 Ho2 Hio Hdi Hdo Hvi Hvo.
  set (wp := World (fs w) (stdout w ++ ["Cleaning up local files..."]) (calls w)).
  destruct (cleanup_dir_visible i wp Hi1 Hi2 Hdi Hvi) as (w1 & Hr1 & Hs1 & Hf1).
  destruct (cleanup_dir_visible o w1 Ho1 Ho2) as (w2 & Hr2 & Hs2 & Hf2).
  { rewrite Hf1, Hio. exact Hdo. }
  { intros q n x Hq Hc. rewrite Hf1 in Hq.
    destruct (inside i q); [discriminate Hq|]. eapply Hvo; eassumption. }
  exists (World (fs w2) (stdout w2 ++ ["Cleanup complete."]) (calls w2)).
  split; [|split].
  - unfold cleanup. rewrite bind_unfold, print_run. fold wp.
    rewrite bind_unfold. cbn [for_each].
    rewrite bind_unfold, Hr1, bind_unfold, Hr2. cbn [mret M_ret].
    apply print_run.
  - cbn [stdout]. rewrite Hs2, Hs1. unfold wp. cbn [stdout].
    rewrite <- app_assoc. reflexivity.
  - intros q. cbn [fs]. rewrite Hf2, Hf1. cbn [fs].
    destruct (inside i q), (inside o q); reflexivity.
Qed.

Lemma for_each_remove_keeps files w o w1 q :
  q ∉ files → for_each files Fs.remove w = (o, w1) → fs w1 !! q = fs w !! q.
Proof.
  revert w. induction files as [|p files IH]; intros w Hq H.
  { injection H as _ <-. reflexivity. }
  apply not_elem_of_cons in Hq as [Hne Hq].
  cbn [for_each] in H. rewrite bind_unfold, remove_run in H.
  destruct (fs w !! p) as [[]|]; [|injection H as _ <-; reflexivity..].
  apply (IH _ Hq) in H. rewrite H. cbn [fs]. by apply lookup_delete_ne.
Qed.

Lemma matches_not_hidden d f n p :
  d ≠ "" → PyStr.endswith_sep d = false →
  Fnmatch.ishidden n = true →
  p ∈ Fs.matches (d +:+ "/*") f → p ≠ d ∧ p ≠ d +:+ String "/" n.
Proof.
  intros H1 H2 Hn. unfold Fs.matches.
  change (d +:+ "/*") with (d +:+ String "/" "*").
  rewrite (split_entry d H1 H2 "*") by reflexivity. cbn [Fnmatch.ishidden].
  change (Ascii.eqb "*" ".") with false. cbv iota.
  intros Hp. apply list_elem_of_fmap in Hp as (m & -> & Hm).
  apply list_elem_of_filter in Hm as [_ Hm].
  apply list_elem_of_filter in Hm as [Hv Hm].
  apply listdir_elem in Hm as (_ & x & _ & Hne & Hs).
  rewrite (join_entry d H1 H2 m) by (by apply no_sep_not_absolute).
  split; [apply entry_ne_dir|]. intros Heq. apply entry_inj in Heq. congruence.
Qed.

(** A directory that holds an entry whose name starts with a dot
    defeats the cleanup of that directory: [glob] does not list the
    entry, nothing removes it, and the step ends with an exception while
    the directory and the entry are still there. *)
Lemma cleanup_dir_hidden d w n x :
  d ≠ "" → PyStr.endswith_sep d = false →
  fs w !! d = Some Dir →
  n ≠ "" → PyStr.contains "/" n = false → Fnmatch.ishidden n = true →
  fs w !! (d +:+ String "/" n) = Some x →
  ∃ errno filename w',
    cleanup_dir d w = (Raise (OSError errno filename), w') ∧
    fs w' !! d = Some Dir ∧
    fs w' !! (d +:+ String "/" n) = Some x.
Proof.
  intros H1 H2 Hd Hne Hs Hh Hx.
  unfold cleanup_dir. rewrite bind_unfold, exists_run.
  rewrite bool_decide_eq_true_2 by (rewrite Hd; eauto).
  rewrite bind_unfold, glob_run, bind_unfold.
  destruct (for_each (Fs.matches (d +:+ "/*") (fs w)) Fs.remove w) as [[[]|e] w1] eqn:Hf.
  - assert (Hd1 : fs w1 !! d = Some Dir).
    { rewrite (for_each_remove_keeps _ _ _ _ d) with (2 := Hf); [exact Hd|].
      intros Hp. by apply (matches_not_hidden d (fs w) n _ H1 H2 Hh) in Hp as [? _]. }
    assert (Hx1 : fs w1 !! (d +:+ String "/" n) = Some x).
    { rewrite (for_each_remove_keeps _ _ _ _ (d +:+ String "/" n)) with (2 := Hf); [exact Hx|].
      intros Hp. by apply (matches_not_hidden d (fs w) n _ H1 H2 Hh) in Hp as [_ ?]. }
    rewrite rmdir_run, Hd1.
    destruct (Fs.listdir d (fs w1)) as [|m l] eqn:Hl.
    { assert (Hin : n ∈ Fs.listdir d (fs w1)) by (apply listdir_elem; eauto).
      rewrite Hl in Hin. by apply elem_of_nil in Hin. }
    eexists _, _, _. split; [reflexivity|]. cbn [fs]. split; [exact Hd1 | exact Hx1].
  - destruct (for_each_remove_raises _ _ _ _ Hf) as (errno & filename & ->).
    eexists _, _, _. split; [reflexivity|]. split.
    + rewrite (for_each_remove_keeps _ _ _ _ d) with (2 := Hf); [exact Hd|].
      intros Hp. by apply (matches_not_hidden d (fs w) n _ H1 H2 Hh) in Hp as [? _].
    + rewrite (for_each_remove_keeps _ _ _ _ (d +:+ String "/" n)) with (2 := Hf); [exact Hx|].
      intros Hp. by apply (matches_not_hidden d (fs w) n _ H1 H2 Hh) in Hp as [_ ?].
Qed.

Lemma matches_inside d f p :
  d ≠ "" → PyStr.endswith_sep d = false →
  p ∈ Fs.matches (d +:+ "/*") f → inside d p = true.
Proof.
  intros H1 H2. unfold Fs.matches.
  change (d +:+ "/*") with (d +:+ String "/" "*").
  rewrite (split_entry d H1 H2 "*") by reflexivity. cbn [Fnmatch.ishidden].
  change (Ascii.eqb "*" ".") with false. cbv iota.
  intros Hp. apply list_elem_of_fmap in Hp as (m & -> & Hm).
  apply list_elem_of_filter in Hm as [_ Hm].
  apply list_elem_of_filter in Hm as [_ Hm].
  apply listdir_elem in Hm as (_ & x & _ & Hne & Hs).
  rewrite (join_entry d H1 H2 m) by (by apply no_sep_not_absolute).
  apply inside_true. right. exists m. by apply child_entry.
Qed.

Lemma cleanup_dir_keeps_outside d w o w1 q :
  d ≠ "" → PyStr.endswith_sep d = false →
  inside d q = false →
  cleanup_dir d w = (o, w1) → fs w1 !! q = fs w !! q.
Proof.
  intros H1 H2 Hq. unfold cleanup_dir. rewrite bind_unfold, exists_run.
  case_bool_decide as Hex.
  2:{ intros H. injection H as _ <-. reflexivity. }
  rewrite bind_unfold, glob_run, bind_unfold.
  destruct (for_each (Fs.matches (d +:+ "/*") (fs w)) Fs.remove w) as [[[]|e] wa] eqn:Hf;
    apply (for_each_remove_keeps _ _ _ _ q) in Hf;
    try (intros Hp; apply (matches_inside d _ _ H1 H2) in Hp; congruence).
  - rewrite rmdir_run. apply inside_false in Hq as [Hne _].
    destruct (fs wa !! d) as [[]|]; [|destruct (Fs.listdir d (fs wa))|];
      intros H; injection H as _ <-; cbn [fs]; try exact Hf.
    by rewrite lookup_delete_ne.
  - intros H. injection H as _ <-. exact Hf.
Qed.

Lemma cleanup_keeps_outside i o w r w1 q :
  i ≠ "" → PyStr.endswith_sep i = false →
  o ≠ "" → PyStr.endswith_sep o = false →
  inside i q = false → inside o q = false →
  cleanup i o w = (r, w1) → fs w1 !! q = fs w !! q.
Proof.
  intros Hi1 Hi2 Ho1 Ho2 Hqi Hqo. unfold cleanup.
  rewrite bind_unfold, print_run, bind_unfold. cbn [for_each]. rewrite bind_unfold.
  destruct (cleanup_dir i _) as [[[]|e] wa] eqn:Ha;
    apply (cleanup_dir_keeps_outside i _ _ _ q Hi1 Hi2 Hqi) in Ha; cbn [fs] in Ha.
  2:{ intros H. injection H as _ <-. exact Ha. }
  rewrite bind_unfold.
  destruct (cleanup_dir o wa) as [[[]|e] wb] eqn:Hb;
    apply (cleanup_dir_keeps_outside o _ _ _ q Ho1 Ho2 Hqo) in Hb.
  2:{ intros H. injection H as _ <-. by rewrite Hb. }
  cbn [mret M_ret]. rewrite print_run. intros H. injection H as _ <-. cbn [fs].
  by rewrite Hb.
Qed.

(** ** What the [try] suite does to the filesystem *)

Lemma writable_not_dir p f : Fs.writable p f = None → f !! p ≠ Some Dir.
Proof.
  unfold Fs.writable. destruct (OsPath.split p) as [d n].
  destruct (_ || _); [discriminate|].
  destruct (f !! p) as [[]|]; [discriminate..|]. discriminate.
Qed.

Lemma insert_file_subseteq p (f : gmap string node) :
  f !! p ≠ Some Dir → f ⊆ <[p := File]> f.
Proof.
  intros Hp. destruct (f !! p) as [[]|] eqn:Hl; [|done|].
  - by rewrite insert_id.
  - by apply insert_subseteq.
Qed.

Lemma write_file_subseteq p f : f ⊆ Fs.write_file p f.
Proof.
  unfold Fs.write_file. destruct (Fs.writable p f) eqn:Hw; [reflexivity|].
  apply insert_file_subseteq, writable_not_dir, Hw.
Qed.

Lemma foldl_write_file_subseteq l f : f ⊆ foldl (λ f p, Fs.write_file p f) f l.
Proof.
  revert f. induction l as [|p l IH]; intros f; [reflexivity|].
  cbn [foldl]. etrans; [apply (write_file_subseteq p) | apply IH].
Qed.

Lemma subprocess_run_check_subseteq E command w o w1 :
  subprocess_run_check E command w = (o, w1) → fs w ⊆ fs w1.
Proof.
  unfold subprocess_run_check, log, get_fs, set_fs. rewrite bind_unfold.
  destruct (ffmpeg_result E command) as [[status n]|].
  - rewrite !bind_unfold. cbn [fs stdout calls].
    destruct (status =? 0); intros H; injection H as _ <-; apply foldl_write_file_subseteq.
  - intros H. injection H as _ <-. reflexivity.
Qed.

Lemma s3_download_file_fs E bucket key filename w o w1 :
  s3_download_file E bucket key filename w = (o, w1) →
  fs w ⊆ fs w1 ∧ (∀ a, o = Ok a → fs w1 !! filename = Some File).
Proof.
  unfold s3_download_file, log, get_fs, set_fs. rewrite bind_unfold.
  destruct (download_result E bucket key filename) as [e|].
  { intros H. injection H as <- <-. split; [reflexivity | discriminate]. }
  rewrite bind_unfold. cbn [fs].
  destruct (Fs.writable filename (fs w)) eqn:Hw; intros H; injection H as <- <-; cbn [fs].
  - split; [reflexivity | discriminate].
  - split; [apply insert_file_subseteq, writable_not_dir, Hw|].
    intros _ _. apply lookup_insert_eq.
Qed.

Lemma s3_upload_file_fs E filename bucket key w o w1 :
  s3_upload_file E filename bucket key w = (o, w1) → fs w1 = fs w.
Proof.
  rewrite s3_upload_file_run. cbv zeta.
  destruct (fs w !! filename) as [[]|]; [destruct (upload_result E filename bucket key)|..];
    intros H; injection H as _ <-; reflexivity.
Qed.

Lemma upload_thumbnails_fs E bucket prefix paths acc w o w1 :
  upload_thumbnails E bucket prefix paths acc w = (o, w1) → fs w1 = fs w.
Proof.
  revert acc w. induction paths as [|p paths IH]; intros acc w H.
  { injection H as _ <-. reflexivity. }
  cbn [upload_thumbnails] in H. rewrite bind_unfold, print_run, bind_unfold in H.
  destruct (s3_upload_file E p bucket _ _) as [[[]|e] wa] eqn:Hu;
    apply s3_upload_file_fs in Hu; cbn [fs] in Hu.
  - apply IH in H. by rewrite H.
  - injection H as _ <-. exact Hu.
Qed.

Lemma publish_fs E bucket job_id tf ltp paths ai w o w1 :
  publish E bucket job_id tf ltp paths ai w = (o, w1) → fs w1 = fs w.
Proof.
  unfold publish. cbv zeta. rewrite bind_unfold, print_run, bind_unfold.
  destruct (s3_upload_file E ltp bucket _ _) as [[[]|e] wa] eqn:Hu;
    apply s3_upload_file_fs in Hu; cbn [fs] in Hu.
  2:{ intros H. injection H as _ <-. exact Hu. }
  rewrite bind_unfold.
  destruct (upload_thumbnails E bucket _ paths [] wa) as [[keys|e] wb] eqn:Ht;
    apply upload_thumbnails_fs in Ht.
  - rewrite bind_unfold, print_run. intros H. injection H as _ <-. cbn [fs]. by rewrite Ht.
  - intros H. injection H as _ <-. by rewrite Ht.
Qed.

Lemma transcode_to_mp4_subseteq E input_path output_path w o w1 :
  transcode_to_mp4 E input_path output_path w = (o, w1) → fs w ⊆ fs w1.
Proof.
  unfold transcode_to_mp4. cbv zeta.
  rewrite bind_unfold, print_run, bind_unfold.
  destruct (subprocess_run_check E _ _) as [[[]|e] wa] eqn:Hs;
    apply subprocess_run_check_subseteq in Hs; cbn [fs] in Hs.
  - rewrite print_run. intros H. injection H as _ <-. exact Hs.
  - intros H. injection H as _ <-. exact Hs.
Qed.

Lemma generate_thumbnails_subseteq E input_path output_dir w o w1 :
  generate_thumbnails E input_path output_dir w = (o, w1) → fs w ⊆ fs w1.
Proof.
  unfold generate_thumbnails. cbv zeta.
  rewrite bind_unfold, print_run, bind_unfold.
  destruct (subprocess_run_check E _ _) as [[[]|e] wa] eqn:Hs;
    apply subprocess_run_check_subseteq in Hs; cbn [fs] in Hs.
  - rewrite bind_unfold, glob_run, bind_unfold, print_run.
    intros H. injection H as _ <-. exact Hs.
  - intros H. injection H as _ <-. exact Hs.
Qed.

Lemma job_body_fs E g job_id key lip tf ltp out w o w1 :
  job_body E g job_id key lip tf ltp out w = (o, w1) →
  fs w ⊆ fs w1 ∧
  (∀ bucket, S3_BUCKET_NAME g = Some bucket → is_Some (s3 g) →
     download_result E bucket key lip = None → Fs.writable lip (fs w) = None →
     fs w1 !! lip = Some File).
Proof.
  unfold job_body.
  destruct (S3_BUCKET_NAME g) as [bucket|]; cbn [global].
  2:{ intros H. injection H as _ <-. split; [reflexivity|]. intros b Hb. discriminate Hb. }
  rewrite bind_unfold. cbn [mret M_ret]. rewrite bind_unfold, print_run, bind_unfold.
  destruct (s3 g) as [client|]; cbn [global mret M_ret raise].
  2:{ intros H. injection H as _ <-. split; [reflexivity|]. intros b _ [x Hx]. discriminate Hx. }
  rewrite bind_unfold.
  destruct (s3_download_file E bucket key lip _) as [[[]|e] wa] eqn:Hd.
  2:{ intros H. injection H as _ <-.
      destruct (s3_download_file_fs _ _ _ _ _ _ _ Hd) as [Hsub _]. cbn [fs] in Hsub.
      split; [exact Hsub|]. intros b Hb _ Hdl Hw. injection Hb as <-.
      rewrite s3_download_file_ok in Hd by assumption. discriminate Hd. }
  destruct (s3_download_file_fs _ _ _ _ _ _ _ Hd) as [Hsub Hlip]. cbn [fs] in Hsub.
  specialize (Hlip tt eq_refl).
  assert (Hrest : ∀ w2, fs wa ⊆ fs w2 →
    fs w ⊆ fs w2 ∧
    (∀ b, Some bucket = Some b → is_Some (Some client) →
       download_result E b key lip = None → Fs.writable lip (fs w) = None →
       fs w2 !! lip = Some File)).
  { intros w2 H2. split; [by etrans|]. intros _ _ _ _ _.
    eapply lookup_weaken; [exact Hlip | exact H2]. }
  rewrite bind_unfold, print_run, bind_unfold.
  destruct (transcode_to_mp4 E lip ltp _) as [[[]|e] wb] eqn:Ht;
    apply transcode_to_mp4_subseteq in Ht; cbn [fs] in Ht.
  2:{ intros H. injection H as _ <-. by apply Hrest. }
  rewrite bind_unfold.
  destruct (generate_thumbnails E ltp out wb) as [[paths|e] wc] eqn:Hg;
    apply generate_thumbnails_subseteq in Hg.
  2:{ intros H. injection H as _ <-. apply Hrest. by etrans. }
  rewrite bind_unfold. unfold analyze_thumbnails_ai.
  rewrite bind_unfold, print_run. cbn [mret M_ret]. intros H.
  apply publish_fs in H. cbn [fs] in H. apply Hrest. rewrite H. by etrans.
Qed.

Lemma guarded_body_fs E g job_id key lip tf ltp out w r w1 :
  guarded_body E g job_id key lip tf ltp out w = (Ok r, w1) →
  fs w ⊆ fs w1 ∧
  (∀ bucket, S3_BUCKET_NAME g = Some bucket → is_Some (s3 g) →
     download_result E bucket key lip = None → Fs.writable lip (fs w) = None →
     fs w1 !! lip = Some File).
Proof.
  unfold guarded_body, try_except.
  destruct (job_body E g job_id key lip tf ltp out w) as [[r0|e] wa] eqn:Hj;
    apply job_body_fs in Hj.
  - intros H. apply pair_Ok_inj in H as [_ <-]. exact Hj.
  - cbn [is_Exception]. rewrite job_failed_run. intros H.
    apply pair_Ok_inj in H as [_ <-]. exact Hj.
Qed.

(** ** The scratch directories of a job *)

Lemma startswith_common a b c :
  PyStr.startswith (a +:+ b) (a +:+ c) = PyStr.startswith b c.
Proof.
  induction a as [|x a IH]; [reflexivity|].
  change (PyStr.startswith (String x (a +:+ b)) (String x (a +:+ c)) = PyStr.startswith b c).
  cbn [PyStr.startswith]. rewrite Ascii.eqb_refl. exact IH.
Qed.

Lemma scratch_dirs_normal j :
  input_dir j ≠ "" ∧ PyStr.endswith_sep (input_dir j) = false ∧
  output_dir j ≠ "" ∧ PyStr.endswith_sep (output_dir j) = false.
Proof.
  unfold input_dir, output_dir.
  assert (Hne : ∀ s, s ≠ "" → j +:+ s ≠ "").
  { intros s Hs Hj. destruct j; [exact (Hs Hj) | discriminate Hj]. }
  split; [discriminate|]. split.
  { rewrite endswith_sep_append by (apply Hne; discriminate).
    rewrite endswith_sep_append by discriminate. reflexivity. }
  split; [discriminate|].
  rewrite endswith_sep_append by (apply Hne; discriminate).
  rewrite endswith_sep_append by discriminate. reflexivity.
Qed.

Lemma scratch_dirs_apart j :
  inside (input_dir j) (output_dir j) = false ∧
  inside (output_dir j) (input_dir j) = false.
Proof.
  assert (Hne : input_dir j ≠ output_dir j).
  { unfold input_dir, output_dir. intros H.
    apply (append_inj "/tmp/") in H. apply append_inj in H. discriminate H. }
  split; apply inside_false; (split; [congruence|]); unfold Fs.child_name.
  - assert (Hs : PyStr.startswith (input_dir j +:+ "/") (output_dir j) = false);
      [|by rewrite Hs].
    unfold input_dir, output_dir.
    replace (("/tmp/" +:+ j +:+ "_input") +:+ "/") with (("/tmp/" +:+ j) +:+ "_input/")
      by (rewrite <- !append_assoc; reflexivity).
    replace ("/tmp/" +:+ j +:+ "_output") with (("/tmp/" +:+ j) +:+ "_output")
      by (rewrite <- !append_assoc; reflexivity).
    rewrite startswith_common. reflexivity.
  - assert (Hs : PyStr.startswith (output_dir j +:+ "/") (input_dir j) = false);
      [|by rewrite Hs].
    unfold input_dir, output_dir.
    replace (("/tmp/" +:+ j +:+ "_output") +:+ "/") with (("/tmp/" +:+ j) +:+ "_output/")
      by (rewrite <- !append_assoc; reflexivity).
    replace ("/tmp/" +:+ j +:+ "_input") with (("/tmp/" +:+ j) +:+ "_input")
      by (rewrite <- !append_assoc; reflexivity).
    rewrite startswith_common. reflexivity.
Qed.

(** ** A source whose name starts with a dot *)

Lemma hidden_name_nonempty n : Fnmatch.ishidden n = true → n ≠ "".
Proof. by destruct n. Qed.

Lemma writable_fresh_entry d f n :
  d ≠ "" → PyStr.endswith_sep d = false →
  n ≠ "" → n ≠ "." → n ≠ ".." → PyStr.contains "/" n = false →
  f !! d = Some Dir → f !! (d +:+ String "/" n) ≠ Some Dir →
  Fs.writable (d +:+ String "/" n) f = None.
Proof.
  intros H1 H2 Hn1 Hn2 Hn3 Hs Hd Hf. unfold Fs.writable.
  rewrite (split_entry d H1 H2 n Hs).
  destruct (String.eqb_spec n "") as [?|_]; [done|].
  destruct (String.eqb_spec n ".") as [?|_]; [done|].
  destruct (String.eqb_spec n "..") as [?|_]; [done|].
  cbn [orb]. rewrite Hd.
  destruct (f !! (d +:+ String "/" n)) as [[]|]; [reflexivity | done | reflexivity].
Qed.

Lemma hidden_source_run E g j key bucket client w :
  S3_BUCKET_NAME g = Some bucket → s3 g = Some client →
  Fnmatch.ishidden (OsPath.basename key) = true →
  OsPath.basename key ≠ "." → OsPath.basename key ≠ ".." →
  vacant (input_dir j) (fs w) →
  fs w !! output_dir j ≠ Some File →
  download_result E bucket key (OsPath.join (input_dir j) (OsPath.basename key)) = None →
  ∃ errno filename w',
    (Fs.makedirs (input_dir j) ;;
     Fs.makedirs (output_dir j) ;;
     key0 ← fspath (PStr key);
     try_finally
       (guarded_body E g j key0
          (OsPath.join (input_dir j) (OsPath.basename key0))
          ((OsPath.splitext (OsPath.basename key0)).1 +:+ "_processed.mp4")
          (OsPath.join (output_dir j)
             ((OsPath.splitext (OsPath.basename key0)).1 +:+ "_processed.mp4"))
          (output_dir j))
       (cleanup (input_dir j) (output_dir j))) w
    = (Raise (OSError errno filename), w') ∧
    fs w' !! input_dir j = Some Dir ∧
    fs w' !! OsPath.join (input_dir j) (OsPath.basename key) = Some File ∧
    fs w' !! output_dir j = Some Dir.
Proof.
  intros Hb Hc Hh Hn2 Hn3 Hv Ho Hdl.
  destruct (scratch_dirs_normal j) as (Hi1 & Hi2 & Ho1 & Ho2).
  destruct (scratch_dirs_apart j) as (Hio & _).
  destruct (basename_spec key) as (Hs & _).
  pose proof (hidden_name_nonempty _ Hh) as Hn1.
  set (i := input_dir j) in *. set (o := output_dir j) in *.
  set (n := OsPath.basename key) in *.
  assert (Hlip : OsPath.join i n = i +:+ String "/" n)
    by (apply join_entry; [exact Hi1 | exact Hi2 | by apply no_sep_not_absolute]).
  rewrite Hlip in *.
  assert (Hin : inside i (i +:+ String "/" n) = true).
  { apply inside_true. right. exists n. by apply child_entry. }
  assert (Hi : fs w !! i = None).
  { apply Hv, inside_true. by left. }
  destruct (makedirs_pair_Ok i o w) as (w1 & Hmk); [by rewrite Hi | exact Ho|].
  destruct (makedirs_pair_calls _ _ _ _ Hmk) as (_ & _ & Hdi & Hdo & Hsame).
  assert (Hw : Fs.writable (i +:+ String "/" n) (fs w1) = None).
  { apply writable_fresh_entry; try assumption.
    rewrite Hsame; [by rewrite (Hv _ Hin) | apply entry_ne_dir |].
    intros Heq. rewrite Heq in Hin. congruence. }
  destruct (guarded_body_total E g j key (i +:+ String "/" n)
      ((OsPath.splitext n).1 +:+ "_processed.mp4")
      (OsPath.join o ((OsPath.splitext n).1 +:+ "_processed.mp4")) o w1)
    as (r & w2 & Hg & _).
  destruct (guarded_body_fs _ _ _ _ _ _ _ _ _ _ _ Hg) as [Hsub Hfile].
  specialize (Hfile bucket Hb (ex_intro _ client Hc) Hdl Hw).
  set (wp := World (fs w2) (stdout w2 ++ ["Cleaning up local files..."]) (calls w2)).
  destruct (cleanup_dir_hidden i wp n File Hi1 Hi2) as (errno & filename & w3 & Hcl & H3i & H3f);
    [eapply lookup_weaken; [exact Hdi | exact Hsub] | exact Hn1 | exact Hs | exact Hh
    | exact Hfile |].
  exists errno, filename, w3. split; [|split; [exact H3i|split; [exact H3f|]]].
  - rewrite bind_unfold in Hmk. rewrite bind_unfold.
    destruct (Fs.makedirs i w) as [[[]|e1] wa]; [|discriminate Hmk].
    rewrite bind_unfold, Hmk. cbn [fspath]. rewrite bind_unfold. cbn [mret M_ret].
    fold n. rewrite Hlip.
    unfold try_finally. rewrite Hg. unfold cleanup.
    rewrite bind_unfold, print_run. fold wp. rewrite bind_unfold. cbn [for_each].
    rewrite bind_unfold, Hcl. reflexivity.
  - rewrite (cleanup_dir_keeps_outside i wp _ w3 o Hi1 Hi2 Hio Hcl). cbn [fs].
    eapply lookup_weaken; [exact Hdo | exact Hsub].
Qed.

(** X9. A source whose file name starts with a dot defeats the
    cleanup, whatever [ffmpeg] and the uploads do: once the download has
    succeeded, [glob("<input dir>/*")] never lists the downloaded file,
    so [os.rmdir] (or an earlier [os.remove]) raises [OSError], the
    exception leaves [handler] in place of the response, and the input
    directory, the downloaded file and the output directory all stay on
    disk. *)
Theorem hidden_source_defeats_cleanup E d ji key rnd bucket w :
  configured (environ E) →
  d !! "input" = Some (PDict ji) →
  ji !! "source_video_key" = Some (PStr key) →
  urandom16 E = Some rnd →
  environ E !! "CLOUDFLARE_R2_BUCKET_NAME" = Some bucket →
  Fnmatch.ishidden (OsPath.basename key) = true →
  OsPath.basename key ≠ "." → OsPath.basename key ≠ ".." →
  vacant (input_dir (job_id_of rnd)) (fs w) →
  fs w !! output_dir (job_id_of rnd) ≠ Some File →
  download_result E bucket key
    (OsPath.join (input_dir (job_id_of rnd)) (OsPath.basename key)) = None →
  ∃ errno filename w',
    handler E (PDict d) w = (Raise (OSError errno filename), w') ∧
    fs w' !! input_dir (job_id_of rnd) = Some Dir ∧
    fs w' !! OsPath.join (input_dir (job_id_of rnd)) (OsPath.basename key) = Some File ∧
    fs w' !! output_dir (job_id_of rnd) = Some Dir.
Proof.
  intros Hc Hd Hk Hr Hbk Hh Hn2 Hn3 Hv Ho Hdl.
  destruct (module_init_cases (environ E))
    as [(_ & _ & _ & [client Hs3] & Hb) | (pre & name & post & Hreq & _ & Hn & _)].
  2:{ exfalso. destruct (Hc name) as [x Hx]; [|congruence].
      rewrite Hreq. apply elem_of_app. right. left. }
  rewrite Hbk in Hb.
  rewrite (handler_with_key E d ji (PStr key) w Hc Hd Hk).
  rewrite (run_job_unfold E _ _ w rnd Hr).
  exact (hidden_source_run E _ (job_id_of rnd) key bucket client w Hb Hs3 Hh Hn2 Hn3 Hv Ho Hdl).
Qed.

(** The run on ["videos/.clip.mov"] in an empty temporary root. *)
Lemma hidden_source_defeats_cleanup_witness :
  ∃ errno filename w',
    Sample.hidden_run 0 = (Raise (OSError errno filename), w') ∧
    fs w' !! input_dir (job_id_of Sample.random) = Some Dir.
Proof.
  destruct (hidden_source_defeats_cleanup (Sample.env Sample.env_vars 0 3)
      (Sample.job_dict (PStr "videos/.clip.mov")) (Sample.input_with (PStr "videos/.clip.mov"))
      "videos/.clip.mov" Sample.random "media" Sample.w0
      sample_configured (sample_job_input _) (sample_input_key _) eq_refl)
    as (errno & filename & w' & Hrun & Hi & _).
  - vm_compute. reflexivity.
  - vm_compute. reflexivity.
  - vm_compute. discriminate.
  - vm_compute. discriminate.
  - intros q _. apply lookup_empty.
  - vm_compute. discriminate.
  - vm_compute. reflexivity.
  - exists errno, filename, w'. split; [exact Hrun | exact Hi].
Defined.

(** ** The names that [ffmpeg] writes *)

Lemma digit_class (d : N) :
  (d < 10)%N →
  Ascii.eqb (PyStr.digit d) "/" = false ∧ Ascii.eqb (PyStr.digit d) "." = false.
Proof.
  intros Hd.
  assert (H : forallb (λ k, negb (Ascii.eqb (PyStr.digit (N.of_nat k)) "/") &&
                            negb (Ascii.eqb (PyStr.digit (N.of_nat k)) "."))
                (seq 0 10) = true) by reflexivity.
  rewrite forallb_forall in H.
  assert (Hk : In (N.to_nat d) (seq 0 10)) by (apply in_seq; lia).
  apply H in Hk. rewrite N2Nat.id in Hk. apply andb_true_iff in Hk as [H1 H2].
  apply negb_true_iff in H1, H2. split; assumption.
Qed.

Lemma mod10_lt (n : N) : (n mod 10 < 10)%N.
Proof. apply N.mod_lt. lia. Qed.

Lemma decimal_go_no_sep fuel n acc :
  PyStr.contains "/" acc = false → PyStr.contains "/" (PyStr.decimal_go fuel n acc) = false.
Proof.
  revert n acc. induction fuel as [|fuel IH]; intros n acc Ha; [exact Ha|].
  cbn [PyStr.decimal_go]. cbv zeta.
  assert (Hacc : PyStr.contains "/" (String (PyStr.digit (n mod 10)) acc) = false).
  { cbn [PyStr.contains]. rewrite Ha.
    rewrite (proj1 (digit_class (n mod 10) (mod10_lt n))). reflexivity. }
  destruct (n / 10 =? 0)%N; [exact Hacc | apply IH, Hacc].
Qed.

Lemma decimal_go_visible fuel n acc s :
  Fnmatch.ishidden (PyStr.decimal_go (S fuel) n acc +:+ s) = false.
Proof.
  revert n acc. induction fuel as [|fuel IH]; intros n acc.
  - cbn [PyStr.decimal_go]. cbv zeta.
    destruct (n / 10 =? 0)%N; cbn [append Fnmatch.ishidden];
      apply (digit_class (n mod 10) (mod10_lt n)).
  - change (PyStr.decimal_go (S (S fuel)) n acc)
      with (let acc' := String (PyStr.digit (n mod 10)) acc in
            if (n / 10 =? 0)%N then acc' else PyStr.decimal_go (S fuel) (n / 10) acc').
    cbv zeta. destruct (n / 10 =? 0)%N; [|apply IH].
    cbn [append Fnmatch.ishidden]. apply (digit_class (n mod 10) (mod10_lt n)).
Qed.

Lemma zeros_no_sep k : PyStr.contains "/" (PyStr.zeros k) = false.
Proof. induction k as [|k IH]; [reflexivity|]. cbn [PyStr.zeros PyStr.contains]. exact IH. Qed.

Lemma format_03d_no_sep i : PyStr.contains "/" (PyStr.format_03d i) = false.
Proof.
  unfold PyStr.format_03d. cbv zeta. rewrite contains_append, zeros_no_sep.
  unfold PyStr.decimal. by apply decimal_go_no_sep.
Qed.

Lemma format_03d_visible i s : Fnmatch.ishidden (PyStr.format_03d i +:+ s) = false.
Proof.
  unfold PyStr.format_03d. cbv zeta.
  destruct (PyStr.zeros _) as [|c z] eqn:Hz.
  - cbn [append]. unfold PyStr.decimal. apply decimal_go_visible.
  - assert (c = "0"%char) as ->.
    { destruct (3 - _)%nat; [discriminate Hz|]. cbn in Hz. by injection Hz as <- _. }
    reflexivity.
Qed.

Lemma visible_append_nonempty a s :
  Fnmatch.ishidden (a +:+ s) = false → a ≠ "" → Fnmatch.ishidden a = false.
Proof. destruct a; [done|]. intros H _. exact H. Qed.

Lemma format_03d_nonempty i : PyStr.format_03d i ≠ "".
Proof.
  unfold PyStr.format_03d, PyStr.decimal. cbv zeta. intros H.
  apply (f_equal String.length) in H. rewrite str_length_append in H.
  cbn [PyStr.decimal_go] in H. cbv zeta in H.
  destruct (i / 10 =? 0)%N.
  - cbn [String.length] in H. lia.
  - destruct (N.to_nat (N.log2 i)) as [|k]; cbn [PyStr.decimal_go String.length] in H; [lia|].
    cbv zeta in H.
    assert (Hpos : ∀ fuel n acc, (String.length acc ≤ String.length (PyStr.decimal_go fuel n acc))%nat).
    { clear. induction fuel as [|fuel IH]; intros n acc; [reflexivity|].
      cbn [PyStr.decimal_go]. cbv zeta. destruct (n / 10 =? 0)%N.
      - cbn [String.length]. lia.
      - etrans; [|apply IH]. cbn [String.length]. lia. }
    destruct (i / 10 / 10 =? 0)%N.
    + cbn [String.length] in H. lia.
    + pose proof (Hpos k (i / 10 / 10)%N
        (String (PyStr.digit (i / 10 mod 10)) (String (PyStr.digit (i mod 10)) ""))) as Hl.
      cbn [String.length] in Hl. cbn [String.length] in H. lia.
Qed.

Lemma expand_entry_name name i :
  name ≠ "" → PyStr.contains "/" name = false → Fnmatch.ishidden name = false →
  Ffmpeg.expand name i ≠ "" ∧
  PyStr.contains "/" (Ffmpeg.expand name i) = false ∧
  Fnmatch.ishidden (Ffmpeg.expand name i) = false.
Proof.
  intros Hne Hs Hv.
  assert (Hsep : ∀ pat, PyStr.contains "/" pat = false →
                        PyStr.contains "/" (Ffmpeg.expand pat i) = false).
  { clear. induction pat as [|c r IH]; intros Hs; [reflexivity|].
    cbn [Ffmpeg.expand].
    destruct (PyStr.startswith "%03d" (String c r)) eqn:Hp.
    - destruct (startswith_true_inv _ _ Hp) as (rest & Hrest). rewrite Hrest.
      assert (Hsl : PyStr.slice_from 4 ("%03d" +:+ rest) = rest)
        by apply (slice_from_append "%03d" rest).
      rewrite Hsl.
      rewrite Hrest, contains_append in Hs. apply orb_false_iff in Hs as [_ Hs].
      by rewrite contains_append, format_03d_no_sep, Hs.
    - cbn [PyStr.contains] in Hs |- *. apply orb_false_iff in Hs as [Hc Hs].
      by rewrite Hc, IH. }
  split; [|split; [by apply Hsep|]];
    destruct name as [|c r]; try done; cbn [Ffmpeg.expand];
    destruct (PyStr.startswith "%03d" (String c r)) eqn:Hp.
  - intros H. destruct (PyStr.format_03d i) eqn:Hf; [by apply format_03d_nonempty in Hf|].
    discriminate H.
  - discriminate.
  - apply format_03d_visible.
  - exact Hv.
Qed.

Lemma outputs_entries command n o name :
  last command = Some (o +:+ String "/" name) →
  PyStr.contains "%" o = false →
  name ≠ "" → PyStr.contains "/" name = false → Fnmatch.ishidden name = false →
  ∀ p, p ∈ Ffmpeg.outputs command n → visible_entry o p.
Proof.
  intros Hl Ho Hne Hs Hv p. unfold Ffmpeg.outputs. rewrite Hl.
  destruct (Ffmpeg.image_sequence _).
  - intros Hp. apply list_elem_of_fmap in Hp as (k & -> & _).
    rewrite (entry_assoc o name), expand_literal_prefix.
    2:{ rewrite contains_append, Ho. reflexivity. }
    rewrite <- (entry_assoc o).
    destruct (expand_entry_name name (N.of_nat k) Hne Hs Hv) as (H1 & H2 & H3).
    by exists (Ffmpeg.expand name (N.of_nat k)).
  - destruct n; intros Hp; [by apply elem_of_nil in Hp|].
    apply list_elem_of_singleton in Hp as ->. by exists name.
Qed.

(** ** The characters of a job identifier *)

Lemma hex_digit_class d :
  0 ≤ d < 16 → Ascii.eqb (PyStr.hex_digit d) "%" = false.
Proof.
  intros Hd.
  assert (H : forallb (λ k, negb (Ascii.eqb (PyStr.hex_digit (Z.of_nat k)) "%"))
                (seq 0 16) = true) by reflexivity.
  rewrite forallb_forall in H.
  assert (Hk : In (Z.to_nat d) (seq 0 16)) by (apply in_seq; lia).
  apply H in Hk. rewrite Z2Nat.id in Hk by lia. by apply negb_true_iff in Hk.
Qed.

Lemma hex_no_percent k z : PyStr.contains "%" (PyStr.hex k z) = false.
Proof.
  induction k as [|k IH]; [reflexivity|].
  cbn [PyStr.hex PyStr.contains]. rewrite IH, orb_false_r.
  apply hex_digit_class. change 15 with (Z.ones 4).
  rewrite Z.land_ones by lia. apply Z.mod_pos_bound. lia.
Qed.

Lemma contains_substring c n m s :
  PyStr.contains c s = false → PyStr.contains c (String.substring n m s) = false.
Proof.
  revert n m. induction s as [|a s IH]; intros n m Hs.
  { destruct n, m; reflexivity. }
  cbn [PyStr.contains] in Hs. apply orb_false_iff in Hs as [Ha Hs].
  destruct n as [|n].
  - destruct m as [|m]; [reflexivity|]. cbn [String.substring PyStr.contains].
    by rewrite Ha, IH.
  - cbn [String.substring]. by apply IH.
Qed.

Lemma job_id_no_percent r : PyStr.contains "%" (job_id_of r) = false.
Proof.
  unfold job_id_of, Uuid.to_str. cbv zeta.
  rewrite !contains_append.
  rewrite !(contains_substring "%" _ _ _ (hex_no_percent 32 _)).
  reflexivity.
Qed.

Lemma scratch_dirs_no_percent j :
  PyStr.contains "%" j = false →
  PyStr.contains "%" (input_dir j) = false ∧ PyStr.contains "%" (output_dir j) = false.
Proof.
  intros Hj. unfold input_dir, output_dir.
  rewrite !contains_append, Hj. split; reflexivity.
Qed.

(** ** Files added by the [try] suite *)

Section Adds.

Variable i o : string.

Lemma adds_refl f : adds_visible_files i o f f.
Proof. split; [reflexivity|]. intros q x Hq. by left. Qed.

Lemma adds_trans f1 f2 f3 :
  adds_visible_files i o f1 f2 → adds_visible_files i o f2 f3 →
  adds_visible_files i o f1 f3.
Proof.
  intros [Hs12 H12] [Hs23 H23]. split; [by etrans|].
  intros q x Hq. destruct (H23 q x Hq) as [H2|H2]; [by apply H12 | by right].
Qed.

Lemma write_file_adds p f :
  (Fs.writable p f = None → visible_entry i p ∨ visible_entry o p) →
  adds_visible_files i o f (Fs.write_file p f).
Proof.
  intros Hp. split; [apply write_file_subseteq|].
  unfold Fs.write_file. destruct (Fs.writable p f) eqn:Hw; [by left|].
  intros q x Hq. destruct (decide (q = p)) as [->|Hne].
  - rewrite lookup_insert_eq in Hq. injection Hq as <-. right. split; [reflexivity | by apply Hp].
  - rewrite lookup_insert_ne in Hq by done. by left.
Qed.

Lemma foldl_write_file_adds l f :
  (∀ p, p ∈ l → visible_entry i p ∨ visible_entry o p) →
  adds_visible_files i o f (foldl (λ f p, Fs.write_file p f) f l).
Proof.
  revert f. induction l as [|p l IH]; intros f Hl; [apply adds_refl|].
  cbn [foldl]. eapply adds_trans.
  - apply (write_file_adds p). intros _. apply Hl. left.
  - apply IH. intros q Hq. apply Hl. by right.
Qed.

Lemma subprocess_run_check_adds E command w r w1 :
  (∀ n p, p ∈ Ffmpeg.outputs command n → visible_entry i p ∨ visible_entry o p) →
  subprocess_run_check E command w = (r, w1) →
  adds_visible_files i o (fs w) (fs w1).
Proof.
  intros Hout. unfold subprocess_run_check, log, get_fs, set_fs. rewrite bind_unfold.
  destruct (ffmpeg_result E command) as [[status n]|].
  - rewrite !bind_unfold. cbn [fs stdout calls].
    destruct (status =? 0); intros H; injection H as _ <-;
      apply foldl_write_file_adds, Hout.
  - intros H. injection H as _ <-. apply adds_refl.
Qed.

Lemma s3_download_file_adds E bucket key filename w r w1 :
  (Fs.writable filename (fs w) = None → visible_entry i filename ∨ visible_entry o filename) →
  s3_download_file E bucket key filename w = (r, w1) →
  adds_visible_files i o (fs w) (fs w1).
Proof.
  intros Hf. unfold s3_download_file, log, get_fs, set_fs. rewrite bind_unfold.
  destruct (download_result E bucket key filename) as [e|].
  { intros H. injection H as _ <-. apply adds_refl. }
  rewrite bind_unfold. cbn [fs].
  pose proof (write_file_adds filename (fs w) Hf) as Ha. unfold Fs.write_file in Ha.
  destruct (Fs.writable filename (fs w)); intros H; injection H as _ <-; cbn [fs]; exact Ha.
Qed.

Lemma job_body_adds E g job_id key lip tf ltp out w r w1 :
  (∀ f, Fs.writable lip f = None → visible_entry i lip ∨ visible_entry o lip) →
  (∀ n p, p ∈ Ffmpeg.outputs (transcode_command lip ltp) n →
     visible_entry i p ∨ visible_entry o p) →
  (∀ n p, p ∈ Ffmpeg.outputs (thumbnail_command ltp out) n →
     visible_entry i p ∨ visible_entry o p) →
  job_body E g job_id key lip tf ltp out w = (r, w1) →
  adds_visible_files i o (fs w) (fs w1).
Proof.
  intros Hlip Htc Hth. unfold job_body.
  destruct (S3_BUCKET_NAME g) as [bucket|]; cbn [global].
  2:{ intros H. injection H as _ <-. apply adds_refl. }
  rewrite bind_unfold. cbn [mret M_ret]. rewrite bind_unfold, print_run, bind_unfold.
  destruct (s3 g) as [client|]; cbn [global mret M_ret raise].
  2:{ intros H. injection H as _ <-. apply adds_refl. }
  rewrite bind_unfold.
  destruct (s3_download_file E bucket key lip _) as [[[]|e] wa] eqn:Hd;
    apply s3_download_file_adds in Hd; try apply Hlip; cbn [fs] in Hd.
  2:{ intros H. injection H as _ <-. exact Hd. }
  rewrite bind_unfold, print_run, bind_unfold.
  unfold transcode_to_mp4. cbv zeta. fold (transcode_command lip ltp).
  rewrite bind_unfold, print_run, bind_unfold.
  destruct (subprocess_run_check E (transcode_command lip ltp) _) as [[[]|e] wb] eqn:Ht;
    apply (subprocess_run_check_adds _ _ _ _ _ Htc) in Ht; cbn [fs] in Ht.
  2:{ intros H. injection H as _ <-. by eapply adds_trans. }
  rewrite print_run, bind_unfold.
  unfold generate_thumbnails. cbv zeta. fold (thumbnail_command ltp out).
  rewrite bind_unfold, print_run, bind_unfold.
  destruct (subprocess_run_check E (thumbnail_command ltp out) _) as [[[]|e] wc] eqn:Hg;
    apply (subprocess_run_check_adds _ _ _ _ _ Hth) in Hg; cbn [fs] in Hg.
  2:{ intros H. injection H as _ <-. eapply adds_trans; [|exact Hg]. by eapply adds_trans. }
  rewrite bind_unfold, glob_run, bind_unfold, print_run. cbn [mret M_ret].
  rewrite bind_unfold. unfold analyze_thumbnails_ai.
  rewrite bind_unfold, print_run. cbn [mret M_ret]. intros H.
  apply publish_fs in H. cbn [fs] in H. rewrite H.
  eapply adds_trans; [|exact Hg]. by eapply adds_trans.
Qed.

Lemma guarded_body_adds E g job_id key lip tf ltp out w r w1 :
  (∀ f, Fs.writable lip f = None → visible_entry i lip ∨ visible_entry o lip) →
  (∀ n p, p ∈ Ffmpeg.outputs (transcode_command lip ltp) n →
     visible_entry i p ∨ visible_entry o p) →
  (∀ n p, p ∈ Ffmpeg.outputs (thumbnail_command ltp out) n →
     visible_entry i p ∨ visible_entry o p) →
  guarded_body E g job_id key lip tf ltp out w = (r, w1) →
  adds_visible_files i o (fs w) (fs w1).
Proof.
  intros Hlip Htc Hth. unfold guarded_body, try_except.
  destruct (job_body E g job_id key lip tf ltp out w) as [[r0|e] wa] eqn:Hj;
    apply (job_body_adds _ _ _ _ _ _ _ _ _ _ _ Hlip Htc Hth) in Hj.
  - intros H. injection H as _ <-. exact Hj.
  - cbn [is_Exception]. rewrite job_failed_run. intros H. injection H as _ <-. exact Hj.
Qed.

End Adds.

(** ** A source whose name does not start with a dot *)

Lemma scratch_restored i o w w1 w2 :
  i ≠ "" → PyStr.endswith_sep i = false →
  o ≠ "" → PyStr.endswith_sep o = false →
  inside i o = false → inside o i = false →
  (∀ n n', i +:+ String "/" n ≠ o +:+ String "/" n') →
  vacant i (fs w) → vacant o (fs w) →
  (Fs.makedirs i ;; Fs.makedirs o) w = (Ok tt, w1) →
  adds_visible_files i o (fs w1) (fs w2) →
  ∃ w3,
    cleanup i o w2 = (Ok tt, w3) ∧ fs w3 = fs w ∧
    stdout w3 = (stdout w2 ++ ["Cleaning up local files..."; "Cleanup complete."])%list.
Proof.
  intros Hi1 Hi2 Ho1 Ho2 Hio Hoi Hap Hvi Hvo Hmk [Hsub Hadd].
  destruct (makedirs_pair_calls _ _ _ _ Hmk) as (_ & _ & Hdi & Hdo & Hsame).
  assert (Hold : ∀ q x, fs w1 !! q = Some x → inside i q || inside o q = true →
                        q = i ∨ q = o).
  { intros q x Hq Hin. destruct (decide (q = i)) as [|Hqi]; [by left|].
    destruct (decide (q = o)) as [|Hqo]; [by right|]. exfalso.
    rewrite Hsame in Hq by done.
    apply orb_true_iff in Hin as [Hin|Hin]; [rewrite (Hvi q Hin) in Hq | rewrite (Hvo q Hin) in Hq];
      discriminate Hq. }
  assert (Hchild : ∀ d q n, Fs.child_name d q = Some n → inside d q = true ∧ q ≠ d).
  { intros d q n Hc. split; [apply inside_true; eauto|].
    intros ->. apply child_name_inv in Hc as (Hc & _). exact (entry_ne_dir _ _ (eq_sym Hc)). }
  assert (Hvis_i : visible_files_only i (fs w2)).
  { intros q n x Hq Hc. destruct (Hchild _ _ _ Hc) as [Hin Hne].
    destruct (Hadd q x Hq) as [Hq1 | (-> & [Hv | Hv])].
    - exfalso. destruct (Hold q x Hq1) as [->| ->]; [by rewrite Hin | done | congruence].
    - split; [reflexivity|]. destruct Hv as (m & -> & _ & _ & Hm).
      apply child_name_inv in Hc as (Hc & _). apply entry_inj in Hc. by subst.
    - exfalso. destruct Hv as (m & -> & _). apply child_name_inv in Hc as (Hc & _).
      by apply (Hap n m). }
  assert (Hvis_o : visible_files_only o (fs w2)).
  { intros q n x Hq Hc. destruct (Hchild _ _ _ Hc) as [Hin Hne].
    destruct (Hadd q x Hq) as [Hq1 | (-> & [Hv | Hv])].
    - exfalso. destruct (Hold q x Hq1) as [->| ->];
        [by rewrite Hin, orb_true_r | congruence | done].
    - exfalso. destruct Hv as (m & -> & _). apply child_name_inv in Hc as (Hc & _).
      by apply (Hap m n).
    - split; [reflexivity|]. destruct Hv as (m & -> & _ & _ & Hm).
      apply child_name_inv in Hc as (Hc & _). apply entry_inj in Hc. by subst. }
  destruct (cleanup_visible i o w2 Hi1 Hi2 Ho1 Ho2 Hio) as (w3 & Hrun & Hout & Hfs);
    [eapply lookup_weaken; [exact Hdi | exact Hsub]
    |eapply lookup_weaken; [exact Hdo | exact Hsub] | exact Hvis_i | exact Hvis_o |].
  exists w3. split; [exact Hrun|]. split; [|exact Hout].
  apply map_eq. intros q. rewrite Hfs.
  destruct (inside i q || inside o q) eqn:Hin.
  - symmetry. apply orb_true_iff in Hin as [Hin|Hin]; [by apply Hvi | by apply Hvo].
  - apply orb_false_iff in Hin as [Hin1 Hin2].
    apply inside_false in Hin1 as [Hqi Hci]. apply inside_false in Hin2 as [Hqo Hco].
    rewrite <- (Hsame q Hqi Hqo).
    destruct (fs w2 !! q) as [x|] eqn:Hq.
    + destruct (Hadd q x Hq) as [Hq1 | (_ & [Hv | Hv])]; [by rewrite Hq1 | exfalso..];
        destruct Hv as (m & -> & Hm1 & Hm2 & _).
      * rewrite child_entry in Hci by done. discriminate Hci.
      * rewrite child_entry in Hco by done. discriminate Hco.
    + destruct (fs w1 !! q) as [x|] eqn:Hq1; [|reflexivity].
      rewrite (lookup_weaken _ _ _ _ Hq1 Hsub) in Hq. discriminate Hq.
Qed.

Lemma entries_apart j n n' :
  input_dir j +:+ String "/" n ≠ output_dir j +:+ String "/" n'.
Proof.
  unfold input_dir, output_dir. rewrite <- !append_assoc. intros H.
  apply (append_inj "/tmp/") in H. apply append_inj in H. discriminate H.
Qed.

Lemma transcoded_name_visible n :
  PyStr.contains "/" n = false → Fnmatch.ishidden n = false →
  (OsPath.splitext n).1 +:+ "_processed.mp4" ≠ "" ∧
  PyStr.contains "/" ((OsPath.splitext n).1 +:+ "_processed.mp4") = false ∧
  Fnmatch.ishidden ((OsPath.splitext n).1 +:+ "_processed.mp4") = false.
Proof.
  intros Hs Hv. destruct (splitext_spec n) as [Hn _].
  destruct (OsPath.splitext n) as [stem ext]. cbn [fst snd] in *. subst n.
  rewrite contains_append in Hs. apply orb_false_iff in Hs as [Hs _].
  split; [|split].
  - destruct stem; discriminate.
  - by rewrite contains_append, Hs.
  - destruct stem as [|c s]; [reflexivity | exact Hv].
Qed.

Lemma visible_source_run E g j key w :
  PyStr.contains "%" j = false →
  Fnmatch.ishidden (OsPath.basename key) = false →
  vacant (input_dir j) (fs w) → vacant (output_dir j) (fs w) →
  ∃ r w',
    (Fs.makedirs (input_dir j) ;;
     Fs.makedirs (output_dir j) ;;
     key0 ← fspath (PStr key);
     try_finally
       (guarded_body E g j key0
          (OsPath.join (input_dir j) (OsPath.basename key0))
          ((OsPath.splitext (OsPath.basename key0)).1 +:+ "_processed.mp4")
          (OsPath.join (output_dir j)
             ((OsPath.splitext (OsPath.basename key0)).1 +:+ "_processed.mp4"))
          (output_dir j))
       (cleanup (input_dir j) (output_dir j))) w
    = (Ok r, w') ∧
    (success_shape r ∨ error_shape r) ∧
    fs w' = fs w.
Proof.
  intros Hj Hv Hvi Hvo.
  destruct (scratch_dirs_normal j) as (Hi1 & Hi2 & Ho1 & Ho2).
  destruct (scratch_dirs_apart j) as (Hio & Hoi).
  destruct (scratch_dirs_no_percent j Hj) as (_ & Hop).
  pose proof (entries_apart j) as Hap.
  destruct (basename_spec key) as (Hs & _).
  destruct (transcoded_name_visible _ Hs Hv) as (Ht1 & Ht2 & Ht3).
  set (i := input_dir j) in *. set (o := output_dir j) in *.
  set (n := OsPath.basename key) in *.
  set (tf := (OsPath.splitext n).1 +:+ "_processed.mp4") in *.
  assert (Hlip : OsPath.join i n = i +:+ String "/" n)
    by (apply join_entry; [exact Hi1 | exact Hi2 | by apply no_sep_not_absolute]).
  assert (Hltp : OsPath.join o tf = o +:+ String "/" tf)
    by (apply join_entry; [exact Ho1 | exact Ho2 | by apply no_sep_not_absolute]).
  assert (Hth : OsPath.join o "thumb_%03d.jpg" = o +:+ String "/" "thumb_%03d.jpg")
    by (apply join_entry; [exact Ho1 | exact Ho2 | reflexivity]).
  assert (Hi : fs w !! i = None) by (apply Hvi, inside_true; by left).
  assert (Ho : fs w !! o = None) by (apply Hvo, inside_true; by left).
  destruct (makedirs_pair_Ok i o w) as (w1 & Hmk); [by rewrite Hi | by rewrite Ho|].
  destruct (guarded_body_total E g j key (OsPath.join i n) tf (OsPath.join o tf) o w1)
    as (r & w2 & Hg & Hshape).
  assert (Hadd : adds_visible_files i o (fs w1) (fs w2)).
  { eapply guarded_body_adds; [| | |exact Hg].
    - intros f Hw. rewrite Hlip in Hw |- *. left.
      destruct (String.eqb_spec n "") as [Hn|Hn].
      + exfalso. unfold Fs.writable in Hw. rewrite (split_entry i Hi1 Hi2 n Hs), Hn in Hw.
        discriminate Hw.
      + by exists n.
    - intros k p Hp. right.
      eapply (outputs_entries _ k o tf); [|exact Hop|exact Ht1|exact Ht2|exact Ht3|exact Hp].
      rewrite <- Hltp. reflexivity.
    - intros k p Hp. right.
      eapply (outputs_entries _ k o "thumb_%03d.jpg"); [|exact Hop|done|reflexivity|reflexivity|exact Hp].
      rewrite <- Hth. reflexivity. }
  destruct (scratch_restored i o w w1 w2 Hi1 Hi2 Ho1 Ho2 Hio Hoi Hap Hvi Hvo Hmk Hadd)
    as (w3 & Hcl & Hfs & _).
  exists r, w3. split; [|split; [exact Hshape | exact Hfs]].
  rewrite bind_unfold in Hmk. rewrite bind_unfold.
  destruct (Fs.makedirs i w) as [[[]|e1] wa]; [|discriminate Hmk].
  rewrite bind_unfold, Hmk. cbn [fspath]. rewrite bind_unfold. cbn [mret M_ret].
  fold n. fold tf. unfold try_finally. rewrite Hg, Hcl. reflexivity.
Qed.

(** X10. A job whose source file name does not start with a dot is
    always answered, and it leaves no trace on disk: whatever the
    download, the two [ffmpeg] runs and the uploads do, when the two
    scratch paths of the job are free at the start, [handler] returns a
    response of the success or of the error shape, the cleanup completes,
    and the filesystem at the end is the filesystem at the start. *)
Theorem visible_source_always_answered E d ji key rnd w :
  configured (environ E) →
  d !! "input" = Some (PDict ji) →
  ji !! "source_video_key" = Some (PStr key) →
  urandom16 E = Some rnd →
  Fnmatch.ishidden (OsPath.basename key) = false →
  vacant (input_dir (job_id_of rnd)) (fs w) →
  vacant (output_dir (job_id_of rnd)) (fs w) →
  ∃ r w',
    handler E (PDict d) w = (Ok r, w') ∧
    (success_shape r ∨ error_shape r) ∧
    fs w' = fs w.
Proof.
  intros Hc Hd Hk Hr Hv Hvi Hvo.
  rewrite (handler_with_key E d ji (PStr key) w Hc Hd Hk).
  rewrite (run_job_unfold E _ _ w rnd Hr).
  exact (visible_source_run E _ (job_id_of rnd) key w (job_id_no_percent rnd) Hv Hvi Hvo).
Qed.

(** The run on ["videos/clip.mov"] in an empty temporary root. *)
Lemma visible_source_always_answered_witness :
  ∃ r w',
    Sample.clip_run = (Ok r, w') ∧
    (success_shape r ∨ error_shape r) ∧
    fs w' = ∅.
Proof.
  destruct (visible_source_always_answered (Sample.env Sample.env_vars 0 3)
      (Sample.job_dict (PStr "videos/clip.mov")) (Sample.input_with (PStr "videos/clip.mov"))
      "videos/clip.mov" Sample.random Sample.w0
      sample_configured (sample_job_input _) (sample_input_key _) eq_refl)
    as (r & w' & Hrun & Hshape & Hfs).
  - vm_compute. reflexivity.
  - intros q _. apply lookup_empty.
  - intros q _. apply lookup_empty.
  - exists r, w'. split; [exact Hrun|]. split; [exact Hshape | exact Hfs].
Defined.

(** ** A failed download *)

Lemma for_each_remove_calls files w r w1 :
  for_each files Fs.remove w = (r, w1) →
  ∃ l, calls w1 = (calls w ++ l)%list ∧ Forall (λ c, ∃ p, c = Remove p) l.
Proof.
  revert w. induction files as [|p files IH]; intros w H.
  { injection H as _ <-. exists []. by rewrite app_nil_r. }
  cbn [for_each] in H. rewrite bind_unfold, remove_run in H.
  assert (Hone : Forall (λ c, ∃ p, c = Remove p) [Remove p]) by (repeat constructor; eauto).
  destruct (fs w !! p) as [[]|]; [|injection H as _ <-; by exists [Remove p]..].
  apply IH in H as (l & Hc & Hl). cbn [calls] in Hc.
  exists (Remove p :: l). split; [by rewrite Hc, <- app_assoc|].
  constructor; [eauto | exact Hl].
Qed.

Lemma cleanup_dir_calls d w r w1 :
  cleanup_dir d w = (r, w1) →
  ∃ l, calls w1 = (calls w ++ l)%list ∧
       Forall (λ c, (∃ p, c = Remove p) ∨ (∃ p, c = Rmdir p)) l.
Proof.
  unfold cleanup_dir. rewrite bind_unfold, exists_run.
  case_bool_decide as Hex.
  2:{ intros H. injection H as _ <-. exists []. by rewrite app_nil_r. }
  rewrite bind_unfold, glob_run, bind_unfold.
  destruct (for_each _ Fs.remove w) as [[[]|e] wa] eqn:Hf;
    apply for_each_remove_calls in Hf as (l & Hc & Hl);
    assert (Hl' : Forall (λ c, (∃ p, c = Remove p) ∨ (∃ p, c = Rmdir p)) l)
      by (eapply Forall_impl; [exact Hl | intros c Hc'; by left]).
  - rewrite rmdir_run.
    assert (Hall : Forall (λ c, (∃ p, c = Remove p) ∨ (∃ p, c = Rmdir p)) (l ++ [Rmdir d])).
    { apply Forall_app. split; [exact Hl'|]. constructor; [right; eauto | constructor]. }
    destruct (fs wa !! d) as [[]|]; [|destruct (Fs.listdir d (fs wa))|];
      intros H; injection H as _ <-; cbn [calls]; exists (l ++ [Rmdir d])%list;
      (split; [by rewrite Hc, <- app_assoc | exact Hall]).
  - intros H. injection H as _ <-. by exists l.
Qed.

Lemma cleanup_calls i o w r w1 :
  cleanup i o w = (r, w1) →
  ∃ l, calls w1 = (calls w ++ l)%list ∧
       Forall (λ c, (∃ p, c = Remove p) ∨ (∃ p, c = Rmdir p)) l.
Proof.
  unfold cleanup. rewrite bind_unfold, print_run, bind_unfold. cbn [for_each].
  rewrite bind_unfold.
  destruct (cleanup_dir i _) as [[[]|e] wa] eqn:Ha;
    apply cleanup_dir_calls in Ha as (la & Hca & Hla); cbn [calls] in Hca.
  2:{ intros H. injection H as _ <-. by exists la. }
  rewrite bind_unfold.
  destruct (cleanup_dir o wa) as [[[]|e] wb] eqn:Hb;
    apply cleanup_dir_calls in Hb as (lb & Hcb & Hlb).
  2:{ intros H. injection H as _ <-. exists (la ++ lb)%list.
      split; [by rewrite Hcb, Hca, <- app_assoc | by apply Forall_app]. }
  cbn [mret M_ret]. rewrite print_run. intros H. injection H as _ <-. cbn [calls].
  exists (la ++ lb)%list. split; [by rewrite Hcb, Hca, <- app_assoc | by apply Forall_app].
Qed.

Lemma guarded_body_download_failed E g job_id key lip tf ltp out w bucket client e :
  S3_BUCKET_NAME g = Some bucket → s3 g = Some client →
  download_result E bucket key lip = Some e →
  ∃ w',
    guarded_body E g job_id key lip tf ltp out w = (Ok (error_response (str_exn E e)), w') ∧
    fs w' = fs w ∧
    calls w' = (calls w ++ [Download bucket key lip])%list.
Proof.
  intros Hb Hc Hd. unfold guarded_body, try_except, job_body. rewrite Hb, Hc.
  cbn [global]. rewrite bind_unfold. cbn [mret M_ret].
  rewrite bind_unfold, print_run, bind_unfold. cbn [mret M_ret].
  rewrite bind_unfold. unfold s3_download_file, log. rewrite bind_unfold, Hd.
  cbn [raise is_Exception]. rewrite job_failed_run. cbn [fs stdout calls].
  eexists. split; [reflexivity|]. split; reflexivity.
Qed.

Lemma download_failure_run E g j key bucket client e w :
  S3_BUCKET_NAME g = Some bucket → s3 g = Some client →
  vacant (input_dir j) (fs w) → vacant (output_dir j) (fs w) →
  download_result E bucket key (OsPath.join (input_dir j) (OsPath.basename key)) = Some e →
  ∃ w' l,
    (Fs.makedirs (input_dir j) ;;
     Fs.makedirs (output_dir j) ;;
     key0 ← fspath (PStr key);
     try_finally
       (guarded_body E g j key0
          (OsPath.join (input_dir j) (OsPath.basename key0))
          ((OsPath.splitext (OsPath.basename key0)).1 +:+ "_processed.mp4")
          (OsPath.join (output_dir j)
             ((OsPath.splitext (OsPath.basename key0)).1 +:+ "_processed.mp4"))
          (output_dir j))
       (cleanup (input_dir j) (output_dir j))) w
    = (Ok (error_response (str_exn E e)), w') ∧
    fs w' = fs w ∧
    calls w' =
      (calls w ++ [ Makedirs (input_dir j); Makedirs (output_dir j);
                    Download bucket key (OsPath.join (input_dir j) (OsPath.basename key)) ]
         ++ l)%list ∧
    Forall (λ c, (∃ p, c = Remove p) ∨ (∃ p, c = Rmdir p)) l.
Proof.
  intros Hb Hc Hvi Hvo Hd.
  destruct (scratch_dirs_normal j) as (Hi1 & Hi2 & Ho1 & Ho2).
  destruct (scratch_dirs_apart j) as (Hio & Hoi).
  pose proof (entries_apart j) as Hap.
  set (i := input_dir j) in *. set (o := output_dir j) in *.
  assert (Hi : fs w !! i = None) by (apply Hvi, inside_true; by left).
  assert (Ho : fs w !! o = None) by (apply Hvo, inside_true; by left).
  destruct (makedirs_pair_Ok i o w) as (w1 & Hmk); [by rewrite Hi | by rewrite Ho|].
  destruct (makedirs_pair_calls _ _ _ _ Hmk) as (Hc1 & _).
  destruct (guarded_body_download_failed E g j key (OsPath.join i (OsPath.basename key))
      ((OsPath.splitext (OsPath.basename key)).1 +:+ "_processed.mp4")
      (OsPath.join o ((OsPath.splitext (OsPath.basename key)).1 +:+ "_processed.mp4"))
      o w1 bucket client e Hb Hc Hd) as (w2 & Hg & Hfs2 & Hc2).
  destruct (scratch_restored i o w w1 w2 Hi1 Hi2 Ho1 Ho2 Hio Hoi Hap Hvi Hvo Hmk)
    as (w3 & Hcl & Hfs & _).
  { rewrite Hfs2. apply adds_refl. }
  destruct (cleanup_calls _ _ _ _ _ Hcl) as (l & Hc3 & Hl).
  exists w3, l. split; [|split; [exact Hfs|split; [|exact Hl]]].
  - rewrite bind_unfold in Hmk. rewrite bind_unfold.
    destruct (Fs.makedirs i w) as [[[]|e1] wa]; [|discriminate Hmk].
    rewrite bind_unfold, Hmk. cbn [fspath]. rewrite bind_unfold. cbn [mret M_ret].
    unfold try_finally. rewrite Hg, Hcl. reflexivity.
  - rewrite Hc3, Hc2, Hc1, <- !app_assoc. reflexivity.
Qed.

(** X11. When the storage service fails the download (lines 127-130),
    the job ends at once: [handler] returns the error response whose
    message is [str] of the exception of the storage client, [ffmpeg] is
    never run and nothing is uploaded; the only calls are the creation of
    the two directories, the download, and the removals of the cleanup;
    and, the two scratch paths being free at the start, the filesystem at
    the end is the filesystem at the start. *)
Theorem download_failure_leaves_no_trace E d ji key rnd bucket e w :
  configured (environ E) →
  d !! "input" = Some (PDict ji) →
  ji !! "source_video_key" = Some (PStr key) →
  urandom16 E = Some rnd →
  environ E !! "CLOUDFLARE_R2_BUCKET_NAME" = Some bucket →
  vacant (input_dir (job_id_of rnd)) (fs w) →
  vacant (output_dir (job_id_of rnd)) (fs w) →
  download_result E bucket key
    (OsPath.join (input_dir (job_id_of rnd)) (OsPath.basename key)) = Some e →
  ∃ w' l,
    handler E (PDict d) w = (Ok (error_response (str_exn E e)), w') ∧
    fs w' = fs w ∧
    calls w' =
      (calls w ++ [ Makedirs (input_dir (job_id_of rnd)); Makedirs (output_dir (job_id_of rnd));
                    Download bucket key
                      (OsPath.join (input_dir (job_id_of rnd)) (OsPath.basename key)) ]
         ++ l)%list ∧
    Forall (λ c, (∃ p, c = Remove p) ∨ (∃ p, c = Rmdir p)) l.
Proof.
  intros Hc Hd Hk Hr Hbk Hvi Hvo Hdl.
  destruct (module_init_cases (environ E))
    as [(_ & _ & _ & [client Hs3] & Hb) | (pre & name & post & Hreq & _ & Hn & _)].
  2:{ exfalso. destruct (Hc name) as [x Hx]; [|congruence].
      rewrite Hreq. apply elem_of_app. right. left. }
  rewrite Hbk in Hb.
  rewrite (handler_with_key E d ji (PStr key) w Hc Hd Hk).
  rewrite (run_job_unfold E _ _ w rnd Hr).
  exact (download_failure_run E _ (job_id_of rnd) key bucket client e w Hb Hs3 Hvi Hvo Hdl).
Qed.

(** The job with an empty key: the sample storage client refuses it. *)
Lemma download_failure_leaves_no_trace_witness :
  ∃ w',
    handler (Sample.env Sample.env_vars 0 3) (Sample.job "") Sample.w0
    = (Ok (error_response
             "Parameter validation failed: Invalid length for parameter Key, value: 0, valid min length: 1"),
       w') ∧
    fs w' = ∅.
Proof.
  destruct (download_failure_leaves_no_trace (Sample.env Sample.env_vars 0 3)
      (Sample.job_dict (PStr "")) (Sample.input_with (PStr ""))
      "" Sample.random "media"
      (StorageError "Parameter validation failed: Invalid length for parameter Key, value: 0, valid min length: 1")
      Sample.w0
      sample_configured (sample_job_input _) (sample_input_key _) eq_refl)
    as (w' & l & Hrun & Hfs & _).
  - vm_compute. reflexivity.
  - intros q _. apply lookup_empty.
  - intros q _. apply lookup_empty.
  - reflexivity.
  - exists w'. split; [exact Hrun | exact Hfs].
Defined.

(** ** The cleanup step on its own *)










(** X14. The cleanup step can be run again: after a cleanup that
    completed, a second cleanup of the same two directories finds them
    gone, makes no call, raises nothing and only prints its two lines. *)
Theorem cleanup_twice i o w w1 :
  cleanup i o w = (Ok tt, w1) →
  cleanup i o w1 =
    (Ok tt, World (fs w1)
              (stdout w1 ++ ["Cleaning up local files..."; "Cleanup complete."])
              (calls w1)).
Proof.
  intros H. apply cleanup_Ok in H as [Hi Ho]. by apply cleanup_absent.
Qed.

(** Two cleanups of job [j] in the sample root. *)
Lemma cleanup_twice_witness :
  cleanup "/tmp/j_input" "/tmp/j_output" Sample.scratch_cleaned.2 =
    (Ok tt, World (fs Sample.scratch_cleaned.2)
              (stdout Sample.scratch_cleaned.2 ++
                 ["Cleaning up local files..."; "Cleanup complete."])
              (calls Sample.scratch_cleaned.2)).
Proof.
  apply (cleanup_twice "/tmp/j_input" "/tmp/j_output" Sample.w_scratch).
  apply (run_split Sample.scratch_cleaned (Ok tt)).
  vm_compute. reflexivity.
Defined.

(** ** The pattern of the thumbnail files *)

Lemma fnmatch_literal c pat name :
  Ascii.eqb c "*" = false → Ascii.eqb c "?" = false →
  Fnmatch.fnmatch (String c pat) name = true ↔
  ∃ name', name = String c name' ∧ Fnmatch.fnmatch pat name' = true.
Proof.
  intros H1 H2. cbn [Fnmatch.fnmatch]. rewrite H1, H2. cbn [orb].
  destruct name as [|d name'].
  - split; [discriminate | by intros (? & ? & _)].
  - rewrite andb_true_iff, Ascii.eqb_eq. split.
    + intros [-> H]. eauto.
    + intros (n & Hn & H). injection Hn as -> ->. done.
Qed.

Lemma fnmatch_star_unfold pat s :
  Fnmatch.fnmatch (String "*" pat) s =
    Fnmatch.fnmatch pat s ||
    match s with
    | EmptyString => false
    | String _ s' => Fnmatch.fnmatch (String "*" pat) s'
    end.
Proof. destruct s; reflexivity. Qed.

Lemma fnmatch_star_iff pat name :
  Fnmatch.fnmatch (String "*" pat) name = true ↔
  ∃ m s, name = m +:+ s ∧ Fnmatch.fnmatch pat s = true.
Proof.
  split.
  - induction name as [|c name IH]; rewrite fnmatch_star_unfold, orb_true_iff.
    + intros [H|H]; [|discriminate]. by exists "", "".
    + intros [H|H]; [by exists "", (String c name)|].
      destruct (IH H) as (m & s & -> & Hs). by exists (String c m), s.
  - intros (m & s & -> & Hs). induction m as [|c m IH];
      rewrite fnmatch_star_unfold, orb_true_iff.
    + left. exact Hs.
    + right. exact IH.
Qed.

Lemma fnmatch_empty name : Fnmatch.fnmatch "" name = true ↔ name = "".
Proof. destruct name; cbn; split; done. Qed.

Lemma fnmatch_thumbnail_iff name :
  Fnmatch.fnmatch "thumb_*.jpg" name = true ↔ ∃ m, name = "thumb_" +:+ m +:+ ".jpg".
Proof.
  split.
  - intros H.
    do 6 (apply fnmatch_literal in H as (? & -> & H); [|reflexivity..]).
    apply fnmatch_star_iff in H as (m & s & -> & H).
    do 4 (apply fnmatch_literal in H as (? & -> & H); [|reflexivity..]).
    apply fnmatch_empty in H as ->. by exists m.
  - intros (m & ->).
    do 6 (apply fnmatch_literal; [reflexivity..|]; eexists; split; [reflexivity|]).
    apply fnmatch_star_iff. exists m, ".jpg". split; reflexivity.
Qed.

Lemma last_char_inj a b c d :
  a +:+ String c "" = b +:+ String d "" → c = d.
Proof.
  revert b. induction a as [|x a IH]; intros [|y b] H.
  - by injection H.
  - exfalso. injection H as _ H. destruct b; discriminate H.
  - exfalso. injection H as _ H. destruct a; discriminate H.
  - injection H as _ H. eapply IH, H.
Qed.

Lemma thumbnail_name_not_transcoded m stem :
  "thumb_" +:+ m +:+ ".jpg" ≠ stem +:+ "_processed.mp4".
Proof.
  intros H.
  replace ("thumb_" +:+ m +:+ ".jpg") with (("thumb_" +:+ m +:+ ".jp") +:+ "g") in H
    by (rewrite <- !append_assoc; reflexivity).
  replace (stem +:+ "_processed.mp4") with ((stem +:+ "_processed.mp") +:+ "4") in H
    by (rewrite <- !append_assoc; reflexivity).
  apply last_char_inj in H. discriminate H.
Qed.

(** X15. For an output directory whose path holds none of the
    characters [*], [?] and [[] that [glob] reads as a pattern (the
    scratch directory [/tmp/<uuid>_output] is one), the thumbnail set
    that [generate_thumbnails] returns (lines 69-76) is the set of files
    that lie directly in the output directory under a name of the form
    [thumb_<anything>.jpg], each listed once; a file of that name which
    was there before the run is part of the set, and the transcoded
    video, which lies in the same directory, never is. *)
Theorem generate_thumbnails_lists_matching_files E input_path o w paths w' :
  o ≠ "" → PyStr.endswith_sep o = false → Fs.has_magic o = false →
  fs w !! o = Some Dir →
  generate_thumbnails E input_path o w = (Ok paths, w') →
  NoDup paths ∧
  (∀ p, p ∈ paths ↔
     ∃ m, p = o +:+ "/thumb_" +:+ m +:+ ".jpg" ∧
          PyStr.contains "/" m = false ∧ is_Some (fs w' !! p)) ∧
  (∀ stem, o +:+ "/" +:+ stem +:+ "_processed.mp4" ∉ paths).
Proof.
  intros H1 H2 _ Hd Hg.
  pose proof (generate_thumbnails_subseteq _ _ _ _ _ _ Hg) as Hsub.
  pose proof (lookup_weaken _ _ _ _ Hd Hsub) as Hd'.
  apply generate_thumbnails_Ok_inv in Hg as ->.
  rewrite (matches_thumbnails o H1 H2).
  set (names := filter (λ n, Fnmatch.fnmatch "thumb_*.jpg" n = true)
                  (filter (λ n, Fnmatch.ishidden n = false) (Fs.listdir o (fs w')))).
  assert (Hnames : ∀ n, n ∈ names ↔
            ∃ m, n = "thumb_" +:+ m +:+ ".jpg" ∧ PyStr.contains "/" m = false ∧
                 is_Some (fs w' !! (o +:+ String "/" n))).
  { intros n. unfold names. rewrite !list_elem_of_filter, listdir_elem, fnmatch_thumbnail_iff.
    split.
    - intros ((m & ->) & _ & _ & x & Hx & _ & Hs). exists m. split; [reflexivity|].
      split; [|eauto]. rewrite !contains_append in Hs.
      apply orb_false_iff in Hs as [_ Hs]. by apply orb_false_iff in Hs as [Hs _].
    - intros (m & -> & Hs & [x Hx]). split; [eauto|]. split; [reflexivity|].
      split; [exact Hd'|]. exists x. split; [exact Hx|]. split; [discriminate|].
      by rewrite !contains_append, Hs. }
  assert (Hjoin : OsPath.join o <$> names = (λ n, o +:+ String "/" n) <$> names).
  { apply list_fmap_ext. intros k n Hn. apply join_entry; [exact H1 | exact H2|].
    apply list_elem_of_lookup_2, Hnames in Hn as (m & -> & _). reflexivity. }
  rewrite Hjoin. unfold sorted.
  assert (Hin : ∀ p, p ∈ merge_sort String.le ((λ n, o +:+ String "/" n) <$> names) ↔
                     ∃ n, p = o +:+ String "/" n ∧ n ∈ names).
  { intros p. rewrite merge_sort_Permutation. apply list_elem_of_fmap. }
  split; [|split].
  - rewrite merge_sort_Permutation. apply NoDup_fmap_2.
    + intros a b Hab. eapply entry_inj, Hab.
    + unfold names. apply NoDup_filter, NoDup_filter, listdir_NoDup.
  - intros p. rewrite Hin. split.
    + intros (n & -> & Hn). apply Hnames in Hn as (m & -> & Hs & Hx). by exists m.
    + intros (m & -> & Hs & Hx). exists ("thumb_" +:+ m +:+ ".jpg").
      split; [reflexivity|]. apply Hnames. by exists m.
  - intros stem Hp. apply Hin in Hp as (n & Hp & Hn).
    apply Hnames in Hn as (m & -> & _).
    apply (append_inj o) in Hp. injection Hp as Hp.
    symmetry in Hp. by apply thumbnail_name_not_transcoded in Hp.
Qed.

(** The thumbnail stage on three frames. *)
Lemma generate_thumbnails_lists_matching_files_witness :
  NoDup (Sample.value_of [] Sample.three_frames) ∧
  "/tmp/j_output/clip_processed.mp4" ∉ Sample.value_of [] Sample.three_frames.
Proof.
  destruct (generate_thumbnails_lists_matching_files (Sample.env Sample.env_vars 0 3)
      "/tmp/j_output/clip_processed.mp4" "/tmp/j_output" Sample.w_dir
      (Sample.value_of [] Sample.three_frames) Sample.three_frames.2)
    as (Hnd & _ & Hnot).
  - discriminate.
  - reflexivity.
  - reflexivity.
  - vm_compute. reflexivity.
  - apply (run_returned [] Sample.three_frames). vm_compute. reflexivity.
  - split; [exact Hnd | exact (Hnot "clip")].
Defined.

(** ** The fields of a success response *)



Lemma sample_clip_run :
  Sample.clip_run = (Ok (Sample.response_of Sample.clip_run), Sample.clip_run.2).
Proof. apply run_returned. vm_compute. reflexivity. Qed.

Lemma sample_clip_success :
  field (Sample.response_of Sample.clip_run) "status" = Some (PStr "success").
Proof. vm_compute. reflexivity. Qed.


(** The run on ["videos/clip.mov"] returns a success response. *)
Lemma handler_response_shape_witness :
  (success_shape (Sample.response_of Sample.clip_run) ∧
   field (Sample.response_of Sample.clip_run) "error" = None) ∨
  (error_shape (Sample.response_of Sample.clip_run) ∧
   field (Sample.response_of Sample.clip_run) "status" = None).
Proof.
  destruct (handler_response_shape (Sample.env Sample.env_vars 0 3)
      (Sample.job "videos/clip.mov") Sample.w0 _ _ sample_clip_run)
    as [(Hs & _ & He) | (Hs & He & _)].
  - left. split; [exact Hs | exact He].
  - right. split; [exact Hs | exact He].
Defined.

(** The job whose key is JSON [null] ends with a [TypeError]. *)
Lemma handler_raises_only_witness :
  ∃ msg, Sample.null_key_run.1 = Raise (TypeError msg).
Proof.
  assert (H : Sample.null_key_run =
              (Raise (TypeError "expected str, bytes or os.PathLike object, not NoneType"),
               Sample.null_key_run.2))
    by (apply run_split; vm_compute; reflexivity).
  destruct (handler_raises_only (Sample.env Sample.env_vars 0 3) (Sample.job_with PNone)
      Sample.w0 _ _ H) as [[He _] | [(msg & He) | [[He _] | (errno & filename & He)]]];
    try discriminate He.
  exists msg. rewrite H. cbn [fst]. f_equal. exact He.
Defined.

(** The guarded suite of the run on ["videos/clip.mov"]: six calls for
    three thumbnails. *)
Lemma guarded_body_call_order_witness :
  ∃ l paths,
    calls (Sample.guarded 0 "videos/clip.mov" (Sample.scratch Sample.w0).2).2
      = (calls (Sample.scratch Sample.w0).2 ++ l)%list ∧
    l `prefix_of`
      pipeline_calls "media" (job_id_of Sample.random) "videos/clip.mov"
        (OsPath.join (input_dir (job_id_of Sample.random)) (OsPath.basename "videos/clip.mov"))
        ((OsPath.splitext (OsPath.basename "videos/clip.mov")).1 +:+ "_processed.mp4")
        (OsPath.join (output_dir (job_id_of Sample.random))
           ((OsPath.splitext (OsPath.basename "videos/clip.mov")).1 +:+ "_processed.mp4"))
        (output_dir (job_id_of Sample.random)) paths.
Proof.
  destruct (guarded_body_call_order (Sample.env Sample.env_vars 0 3)
      (module_init Sample.env_vars).1 (job_id_of Sample.random) "videos/clip.mov"
      (OsPath.join (input_dir (job_id_of Sample.random)) (OsPath.basename "videos/clip.mov"))
      ((OsPath.splitext (OsPath.basename "videos/clip.mov")).1 +:+ "_processed.mp4")
      (OsPath.join (output_dir (job_id_of Sample.random))
         ((OsPath.splitext (OsPath.basename "videos/clip.mov")).1 +:+ "_processed.mp4"))
      (output_dir (job_id_of Sample.random))
      (Sample.scratch Sample.w0).2
      (Sample.response_of (Sample.guarded 0 "videos/clip.mov" (Sample.scratch Sample.w0).2))
      (Sample.guarded 0 "videos/clip.mov" (Sample.scratch Sample.w0).2).2
      "media")
    as (l & paths & Hc & Hp & _).
  - vm_compute. reflexivity.
  - apply (run_returned PNone (Sample.guarded 0 "videos/clip.mov" (Sample.scratch Sample.w0).2)).
    vm_compute. reflexivity.
  - exists l, paths. split; [exact Hc | exact Hp].
Defined.

(** The run on ["videos/clip.mov"]: four keys reported, four uploads. *)
Lemma handler_success_reports_uploads_witness :
  ∃ tk keys ups,
    field (Sample.response_of Sample.clip_run) "transcoded_video_key" = Some (PStr tk) ∧
    field (Sample.response_of Sample.clip_run) "thumbnail_keys" = Some (PList (PStr <$> keys)) ∧
    filter (λ c, is_upload c = true) (calls Sample.clip_run.2) = ups ∧
    omap upload_key ups = tk :: keys.
Proof.
  destruct (handler_success_reports_uploads (Sample.env Sample.env_vars 0 3)
      (Sample.job "videos/clip.mov") Sample.w0 _ _ sample_clip_run sample_clip_success)
    as (tk & keys & ups & Htk & Hkeys & Hups & Hk & _).
  exists tk, keys, ups. split; [exact Htk|]. split; [exact Hkeys|]. split; [exact Hups | exact Hk].
Defined.

(** ** A failed [ffmpeg] run *)

Lemma visible_source_stages E g j key w :
  PyStr.contains "%" j = false →
  Fnmatch.ishidden (OsPath.basename key) = false →
  vacant (input_dir j) (fs w) → vacant (output_dir j) (fs w) →
  ∃ w1,
    calls w1 = (calls w ++ [Makedirs (input_dir j); Makedirs (output_dir j)])%list ∧
    (fs w1 !! input_dir j = Some Dir ∧ fs w1 !! output_dir j = Some Dir ∧
     ∀ q, q ≠ input_dir j → q ≠ output_dir j → fs w1 !! q = fs w !! q) ∧
    (OsPath.basename key ≠ "" →
     Fs.writable (OsPath.join (input_dir j) (OsPath.basename key)) (fs w1) = None) ∧
    ∀ r w2,
      guarded_body E g j key
        (OsPath.join (input_dir j) (OsPath.basename key))
        ((OsPath.splitext (OsPath.basename key)).1 +:+ "_processed.mp4")
        (OsPath.join (output_dir j)
           ((OsPath.splitext (OsPath.basename key)).1 +:+ "_processed.mp4"))
        (output_dir j) w1 = (Ok r, w2) →
      ∃ w3,
        cleanup (input_dir j) (output_dir j) w2 = (Ok tt, w3) ∧
        fs w3 = fs w ∧
        (Fs.makedirs (input_dir j) ;;
         Fs.makedirs (output_dir j) ;;
         key0 ← fspath (PStr key);
         try_finally
           (guarded_body E g j key0
              (OsPath.join (input_dir j) (OsPath.basename key0))
              ((OsPath.splitext (OsPath.basename key0)).1 +:+ "_processed.mp4")
              (OsPath.join (output_dir j)
                 ((OsPath.splitext (OsPath.basename key0)).1 +:+ "_processed.mp4"))
              (output_dir j))
           (cleanup (input_dir j) (output_dir j))) w
        = (Ok r, w3).
Proof.
  intros Hj Hv Hvi Hvo.
  destruct (scratch_dirs_normal j) as (Hi1 & Hi2 & Ho1 & Ho2).
  destruct (scratch_dirs_apart j) as (Hio & Hoi).
  destruct (scratch_dirs_no_percent j Hj) as (_ & Hop).
  pose proof (entries_apart j) as Hap.
  destruct (basename_spec key) as (Hs & _).
  destruct (transcoded_name_visible _ Hs Hv) as (Ht1 & Ht2 & Ht3).
  set (i := input_dir j) in *. set (o := output_dir j) in *.
  set (n := OsPath.basename key) in *.
  set (tf := (OsPath.splitext n).1 +:+ "_processed.mp4") in *.
  assert (Hlip : OsPath.join i n = i +:+ String "/" n)
    by (apply join_entry; [exact Hi1 | exact Hi2 | by apply no_sep_not_absolute]).
  assert (Hltp : OsPath.join o tf = o +:+ String "/" tf)
    by (apply join_entry; [exact Ho1 | exact Ho2 | by apply no_sep_not_absolute]).
  assert (Hth : OsPath.join o "thumb_%03d.jpg" = o +:+ String "/" "thumb_%03d.jpg")
    by (apply join_entry; [exact Ho1 | exact Ho2 | reflexivity]).
  assert (Hi : fs w !! i = None) by (apply Hvi, inside_true; by left).
  assert (Ho : fs w !! o = None) by (apply Hvo, inside_true; by left).
  destruct (makedirs_pair_Ok i o w) as (w1 & Hmk); [by rewrite Hi | by rewrite Ho|].
  destruct (makedirs_pair_calls _ _ _ _ Hmk) as (Hc1 & _ & Hdi & Hdo & Hsame).
  exists w1. split; [exact Hc1|].
  split; [split; [exact Hdi | split; [exact Hdo | exact Hsame]]|]. split.
  { intros Hn. rewrite Hlip.
    assert (Hin : inside i (i +:+ String "/" n) = true).
    { apply inside_true. right. exists n. by apply child_entry. }
    apply writable_fresh_entry; try assumption.
    - intros ->. discriminate Hv.
    - intros ->. discriminate Hv.
    - rewrite Hsame; [by rewrite (Hvi _ Hin) | apply entry_ne_dir |].
      intros Heq. rewrite Heq in Hin. congruence. }
  intros r w2 Hg.
  assert (Hadd : adds_visible_files i o (fs w1) (fs w2)).
  { eapply guarded_body_adds; [| | |exact Hg].
    - intros f Hw. rewrite Hlip in Hw |- *. left.
      destruct (String.eqb_spec n "") as [Hn|Hn].
      + exfalso. unfold Fs.writable in Hw. rewrite (split_entry i Hi1 Hi2 n Hs), Hn in Hw.
        discriminate Hw.
      + by exists n.
    - intros k p Hp. right.
      eapply (outputs_entries _ k o tf); [|exact Hop|exact Ht1|exact Ht2|exact Ht3|exact Hp].
      rewrite <- Hltp. reflexivity.
    - intros k p Hp. right.
      eapply (outputs_entries _ k o "thumb_%03d.jpg"); [|exact Hop|done|reflexivity|reflexivity|exact Hp].
      rewrite <- Hth. reflexivity. }
  destruct (scratch_restored i o w w1 w2 Hi1 Hi2 Ho1 Ho2 Hio Hoi Hap Hvi Hvo Hmk Hadd)
    as (w3 & Hcl & Hfs & _).
  exists w3. split; [exact Hcl|]. split; [exact Hfs|].
  rewrite bind_unfold in Hmk. rewrite bind_unfold.
  destruct (Fs.makedirs i w) as [[[]|e1] wa]; [|discriminate Hmk].
  rewrite bind_unfold, Hmk. cbn [fspath]. rewrite bind_unfold. cbn [mret M_ret].
  fold n. fold tf. unfold try_finally. rewrite Hg, Hcl. reflexivity.
Qed.

Lemma thumbnail_failure_no_upload E g job_id key lip tf ltp out w bucket client n1 status n2 :
  S3_BUCKET_NAME g = Some bucket →
  s3 g = Some client →
  download_result E bucket key lip = None →
  Fs.writable lip (fs w) = None →
  ffmpeg_result E (transcode_command lip ltp) = Some (0, n1) →
  ffmpeg_result E (thumbnail_command ltp out) = Some (status, n2) →
  status ≠ 0 →
  ∃ w',
    guarded_body E g job_id key lip tf ltp out w =
      (Ok (error_response (str_exn E (CalledProcessError status (thumbnail_command ltp out)))), w') ∧
    calls w' =
      (calls w ++ [Download bucket key lip; Subprocess (transcode_command lip ltp);
                   Subprocess (thumbnail_command ltp out)])%list.
Proof.
  intros Hb Hc Hd Hw Hf1 Hf2 Hs.
  unfold guarded_body, try_except, job_body. rewrite Hb, Hc.
  cbn [global]. rewrite bind_unfold. cbn [mret M_ret].
  rewrite bind_unfold, print_run, bind_unfold. cbn [mret M_ret].
  rewrite bind_unfold, s3_download_file_ok by assumption.
  rewrite bind_unfold, print_run.
  unfold transcode_to_mp4. cbv zeta. fold (transcode_command lip ltp).
  rewrite bind_unfold, bind_unfold, print_run, bind_unfold.
  rewrite (subprocess_run_check_ok E _ n1) by assumption.
  rewrite print_run, bind_unfold.
  unfold generate_thumbnails. cbv zeta. fold (thumbnail_command ltp out).
  rewrite bind_unfold, print_run, bind_unfold.
  rewrite (subprocess_run_check_failed E _ status n2) by assumption.
  cbn [is_Exception]. rewrite job_failed_run. cbn [fs stdout calls].
  eexists. split; [reflexivity|]. rewrite <- !app_assoc. reflexivity.
Qed.

Lemma only_calls_no_upload (l0 l : list call) :
  Forall (λ c, is_upload c = false) l →
  filter (λ c, is_upload c = true) (l0 ++ l)%list = filter (λ c, is_upload c = true) l0.
Proof.
  intros Hl. rewrite filter_app.
  assert (Hn : filter (λ c, is_upload c = true) l = []); [|by rewrite Hn, app_nil_r].
  induction Hl as [|c l Hc _ IH]; [reflexivity|].
  rewrite filter_cons_False by (rewrite Hc; discriminate). exact IH.
Qed.

Lemma ffmpeg_failure_run E g j key bucket client w r l :
  S3_BUCKET_NAME g = Some bucket → s3 g = Some client →
  PyStr.contains "%" j = false →
  OsPath.basename key ≠ "" →
  Fnmatch.ishidden (OsPath.basename key) = false →
  vacant (input_dir j) (fs w) → vacant (output_dir j) (fs w) →
  Forall (λ c, is_upload c = false) l →
  (∀ w1,
     Fs.writable (OsPath.join (input_dir j) (OsPath.basename key)) (fs w1) = None →
     ∃ w2,
       guarded_body E g j key
         (OsPath.join (input_dir j) (OsPath.basename key))
         ((OsPath.splitext (OsPath.basename key)).1 +:+ "_processed.mp4")
         (OsPath.join (output_dir j)
            ((OsPath.splitext (OsPath.basename key)).1 +:+ "_processed.mp4"))
         (output_dir j) w1 = (Ok r, w2) ∧
       calls w2 = (calls w1 ++ l)%list) →
  ∃ w',
    (Fs.makedirs (input_dir j) ;;
     Fs.makedirs (output_dir j) ;;
     key0 ← fspath (PStr key);
     try_finally
       (guarded_body E g j key0
          (OsPath.join (input_dir j) (OsPath.basename key0))
          ((OsPath.splitext (OsPath.basename key0)).1 +:+ "_processed.mp4")
          (OsPath.join (output_dir j)
             ((OsPath.splitext (OsPath.basename key0)).1 +:+ "_processed.mp4"))
          (output_dir j))
       (cleanup (input_dir j) (output_dir j))) w
    = (Ok r, w') ∧
    fs w' = fs w ∧
    filter (λ c, is_upload c = true) (calls w') = filter (λ c, is_upload c = true) (calls w).
Proof.
  intros Hb Hc Hj Hn Hv Hvi Hvo Hl Hbody.
  destruct (visible_source_stages E g j key w Hj Hv Hvi Hvo) as (w1 & Hc1 & _ & Hw & Hrest).
  destruct (Hbody w1 (Hw Hn)) as (w2 & Hg & Hc2).
  destruct (Hrest r w2 Hg) as (w3 & Hcl & Hfs & Hrun).
  exists w3. split; [exact Hrun|]. split; [exact Hfs|].
  apply cleanup_same_uploads in Hcl. unfold same_uploads in Hcl.
  rewrite Hcl, Hc2, Hc1, <- app_assoc. apply only_calls_no_upload.
  apply Forall_app. split; [|exact Hl]. repeat constructor.
Qed.

(** X17. When the transcode run exits with a status other than 0 on a
    source whose file name is not empty and does not start with a dot,
    the job is answered with the error response built from
    [CalledProcessError], nothing has been uploaded, the cleanup
    completes, and, the two scratch paths being free at the start, the
    filesystem at the end is the filesystem at the start. *)
Theorem transcode_failure_reported E d ji key rnd bucket status n w :
  configured (environ E) →
  d !! "input" = Some (PDict ji) →
  ji !! "source_video_key" = Some (PStr key) →
  urandom16 E = Some rnd →
  environ E !! "CLOUDFLARE_R2_BUCKET_NAME" = Some bucket →
  OsPath.basename key ≠ "" →
  Fnmatch.ishidden (OsPath.basename key) = false →
  vacant (input_dir (job_id_of rnd)) (fs w) →
  vacant (output_dir (job_id_of rnd)) (fs w) →
  let lip := OsPath.join (input_dir (job_id_of rnd)) (OsPath.basename key) in
  let ltp := OsPath.join (output_dir (job_id_of rnd))
               ((OsPath.splitext (OsPath.basename key)).1 +:+ "_processed.mp4") in
  download_result E bucket key lip = None →
  ffmpeg_result E (transcode_command lip ltp) = Some (status, n) →
  status ≠ 0 →
  ∃ w',
    handler E (PDict d) w =
      (Ok (error_response
             (str_exn E (CalledProcessError status (transcode_command lip ltp)))), w') ∧
    fs w' = fs w ∧
    filter (λ c, is_upload c = true) (calls w') = filter (λ c, is_upload c = true) (calls w).
Proof.
  intros Hc Hd Hk Hr Hbk Hn Hv Hvi Hvo lip ltp Hdl Hf Hs.
  destruct (module_init_cases (environ E))
    as [(_ & _ & _ & [client Hs3] & Hb) | (pre & name & post & Hreq & _ & Hnone & _)].
  2:{ exfalso. destruct (Hc name) as [x Hx]; [|congruence].
      rewrite Hreq. apply elem_of_app. right. left. }
  rewrite Hbk in Hb.
  rewrite (handler_with_key E d ji (PStr key) w Hc Hd Hk).
  rewrite (run_job_unfold E _ _ w rnd Hr).
  apply (ffmpeg_failure_run E _ (job_id_of rnd) key bucket client w _
           [Download bucket key lip; Subprocess (transcode_command lip ltp)]
           Hb Hs3 (job_id_no_percent rnd) Hn Hv Hvi Hvo).
  { repeat constructor. }
  intros w1 Hw.
  destruct (transcode_failure_no_upload E (module_init (environ E)).1 (job_id_of rnd) key lip
      ((OsPath.splitext (OsPath.basename key)).1 +:+ "_processed.mp4") ltp
      (output_dir (job_id_of rnd)) w1 bucket client status n Hb Hs3 Hdl Hw Hf Hs)
    as (w2 & Hg & Hcalls & _).
  exists w2. split; [exact Hg | exact Hcalls].
Qed.

(** The run on ["videos/clip.mov"] with a transcode run that exits with
    status 1. *)
Lemma transcode_failure_reported_witness :
  ∃ w',
    handler (Sample.env Sample.env_vars 1 3) (Sample.job "videos/clip.mov") Sample.w0
    = (Ok (error_response
             (Sample.str (CalledProcessError 1
                (transcode_command
                   (OsPath.join (input_dir (job_id_of Sample.random))
                      (OsPath.basename "videos/clip.mov"))
                   (OsPath.join (output_dir (job_id_of Sample.random))
                      ((OsPath.splitext (OsPath.basename "videos/clip.mov")).1
                         +:+ "_processed.mp4")))))), w') ∧
    fs w' = ∅ ∧
    filter (λ c, is_upload c = true) (calls w') = [].
Proof.
  destruct (transcode_failure_reported (Sample.env Sample.env_vars 1 3)
      (Sample.job_dict (PStr "videos/clip.mov")) (Sample.input_with (PStr "videos/clip.mov"))
      "videos/clip.mov" Sample.random "media" 1 1%nat Sample.w0
      sample_configured (sample_job_input _) (sample_input_key _) eq_refl)
    as (w' & Hrun & Hfs & Hup).
  - vm_compute. reflexivity.
  - vm_compute. discriminate.
  - vm_compute. reflexivity.
  - intros q _. apply lookup_empty.
  - intros q _. apply lookup_empty.
  - vm_compute. reflexivity.
  - vm_compute. reflexivity.
  - discriminate.
  - exists w'. split; [exact Hrun|]. split; [exact Hfs | exact Hup].
Defined.

(** X18. There is no partial success: when the transcode run succeeds
    and the thumbnail run then exits with a status other than 0, the job
    is answered with the error response built from the
    [CalledProcessError] of the thumbnail run, the transcoded file is not
    uploaded, the cleanup completes and removes it, and, the two scratch
    paths being free at the start, the filesystem at the end is the
    filesystem at the start. *)
Theorem thumbnail_failure_reported E d ji key rnd bucket n1 status n2 w :
  configured (environ E) →
  d !! "input" = Some (PDict ji) →
  ji !! "source_video_key" = Some (PStr key) →
  urandom16 E = Some rnd →
  environ E !! "CLOUDFLARE_R2_BUCKET_NAME" = Some bucket →
  OsPath.basename key ≠ "" →
  Fnmatch.ishidden (OsPath.basename key) = false →
  vacant (input_dir (job_id_of rnd)) (fs w) →
  vacant (output_dir (job_id_of rnd)) (fs w) →
  let lip := OsPath.join (input_dir (job_id_of rnd)) (OsPath.basename key) in
  let ltp := OsPath.join (output_dir (job_id_of rnd))
               ((OsPath.splitext (OsPath.basename key)).1 +:+ "_processed.mp4") in
  download_result E bucket key lip = None →
  ffmpeg_result E (transcode_command lip ltp) = Some (0, n1) →
  ffmpeg_result E (thumbnail_command ltp (output_dir (job_id_of rnd))) = Some (status, n2) →
  status ≠ 0 →
  ∃ w',
    handler E (PDict d) w =
      (Ok (error_response
             (str_exn E (CalledProcessError status
                           (thumbnail_command ltp (output_dir (job_id_of rnd)))))), w') ∧
    fs w' = fs w ∧
    filter (λ c, is_upload c = true) (calls w') = filter (λ c, is_upload c = true) (calls w).
Proof.
  intros Hc Hd Hk Hr Hbk Hn Hv Hvi Hvo lip ltp Hdl Hf1 Hf2 Hs.
  destruct (module_init_cases (environ E))
    as [(_ & _ & _ & [client Hs3] & Hb) | (pre & name & post & Hreq & _ & Hnone & _)].
  2:{ exfalso. destruct (Hc name) as [x Hx]; [|congruence].
      rewrite Hreq. apply elem_of_app. right. left. }
  rewrite Hbk in Hb.
  rewrite (handler_with_key E d ji (PStr key) w Hc Hd Hk).
  rewrite (run_job_unfold E _ _ w rnd Hr).
  apply (ffmpeg_failure_run E _ (job_id_of rnd) key bucket client w _
           [Download bucket key lip; Subprocess (transcode_command lip ltp);
            Subprocess (thumbnail_command ltp (output_dir (job_id_of rnd)))]
           Hb Hs3 (job_id_no_percent rnd) Hn Hv Hvi Hvo).
  { repeat constructor. }
  intros w1 Hw.
  exact (thumbnail_failure_no_upload E (module_init (environ E)).1 (job_id_of rnd) key lip
      ((OsPath.splitext (OsPath.basename key)).1 +:+ "_processed.mp4") ltp
      (output_dir (job_id_of rnd)) w1 bucket client n1 status n2 Hb Hs3 Hdl Hw Hf1 Hf2 Hs).
Qed.

(** The run on ["videos/clip.mov"] with a thumbnail run that exits with
    status 1. *)
Lemma thumbnail_failure_reported_witness :
  ∃ w',
    handler Sample.env_thumbnails_fail (Sample.job "videos/clip.mov") Sample.w0
    = (Ok (error_response
             (Sample.str (CalledProcessError 1
                (thumbnail_command
                   (OsPath.join (output_dir (job_id_of Sample.random))
                      ((OsPath.splitext (OsPath.basename "videos/clip.mov")).1
                         +:+ "_processed.mp4"))
                   (output_dir (job_id_of Sample.random)))))), w') ∧
    fs w' = ∅ ∧
    filter (λ c, is_upload c = true) (calls w') = [].
Proof.
  destruct (thumbnail_failure_reported Sample.env_thumbnails_fail
      (Sample.job_dict (PStr "videos/clip.mov")) (Sample.input_with (PStr "videos/clip.mov"))
      "videos/clip.mov" Sample.random "media" 1%nat 1 0%nat Sample.w0
      sample_configured (sample_job_input _) (sample_input_key _) eq_refl)
    as (w' & Hrun & Hfs & Hup).
  - vm_compute. reflexivity.
  - vm_compute. discriminate.
  - vm_compute. reflexivity.
  - intros q _. apply lookup_empty.
  - intros q _. apply lookup_empty.
  - vm_compute. reflexivity.
  - vm_compute. reflexivity.
  - vm_compute. reflexivity.
  - discriminate.
  - exists w'. split; [exact Hrun|]. split; [exact Hfs | exact Hup].
Defined.

(** ** Paths outside the scratch directories *)

Lemma write_file_outside p f q : p ≠ q → Fs.write_file p f !! q = f !! q.
Proof.
  intros Hne. unfold Fs.write_file. destruct (Fs.writable p f); [reflexivity|].
  by apply lookup_insert_ne.
Qed.

Lemma foldl_write_file_outside l f q :
  q ∉ l → foldl (λ f p, Fs.write_file p f) f l !! q = f !! q.
Proof.
  revert f. induction l as [|p l IH]; intros f Hq; [reflexivity|].
  apply not_elem_of_cons in Hq as [Hne Hq]. cbn [foldl].
  rewrite IH by exact Hq. apply write_file_outside. congruence.
Qed.

Lemma subprocess_run_check_outside E command w r w1 q :
  (∀ n, q ∉ Ffmpeg.outputs command n) →
  subprocess_run_check E command w = (r, w1) → fs w1 !! q = fs w !! q.
Proof.
  intros Hq. unfold subprocess_run_check, log, get_fs, set_fs. rewrite bind_unfold.
  destruct (ffmpeg_result E command) as [[status n]|].
  - rewrite !bind_unfold. cbn [fs stdout calls].
    destruct (status =? 0); intros H; injection H as _ <-;
      apply foldl_write_file_outside, Hq.
  - intros H. injection H as _ <-. reflexivity.
Qed.

Lemma s3_download_file_outside E bucket key filename w r w1 q :
  (Fs.writable filename (fs w) = None → filename ≠ q) →
  s3_download_file E bucket key filename w = (r, w1) → fs w1 !! q = fs w !! q.
Proof.
  intros Hq. unfold s3_download_file, log, get_fs, set_fs. rewrite bind_unfold.
  destruct (download_result E bucket key filename) as [e|].
  { intros H. injection H as _ <-. reflexivity. }
  rewrite bind_unfold. cbn [fs].
  destruct (Fs.writable filename (fs w)) eqn:Hw; intros H; injection H as _ <-; cbn [fs].
  - reflexivity.
  - apply lookup_insert_ne. by apply Hq.
Qed.

Lemma guarded_body_outside E g job_id key lip tf ltp out w r w1 q :
  (∀ f, Fs.writable lip f = None → lip ≠ q) →
  (∀ n, q ∉ Ffmpeg.outputs (transcode_command lip ltp) n) →
  (∀ n, q ∉ Ffmpeg.outputs (thumbnail_command ltp out) n) →
  guarded_body E g job_id key lip tf ltp out w = (r, w1) → fs w1 !! q = fs w !! q.
Proof.
  intros Hlip Htc Hth.
  assert (Hbody : ∀ r0 w0, job_body E g job_id key lip tf ltp out w = (r0, w0) →
                           fs w0 !! q = fs w !! q).
  { intros r0 w0. unfold job_body.
    destruct (S3_BUCKET_NAME g) as [bucket|]; cbn [global].
    2:{ intros H. injection H as _ <-. reflexivity. }
    rewrite bind_unfold. cbn [mret M_ret]. rewrite bind_unfold, print_run, bind_unfold.
    destruct (s3 g) as [client|]; cbn [global mret M_ret raise].
    2:{ intros H. injection H as _ <-. reflexivity. }
    rewrite bind_unfold.
    destruct (s3_download_file E bucket key lip _) as [[[]|e] wa] eqn:Hd;
      apply (s3_download_file_outside _ _ _ _ _ _ _ q) in Hd; try apply Hlip; cbn [fs] in Hd.
    2:{ intros H. injection H as _ <-. exact Hd. }
    rewrite bind_unfold, print_run, bind_unfold.
    unfold transcode_to_mp4. cbv zeta. fold (transcode_command lip ltp).
    rewrite bind_unfold, print_run, bind_unfold.
    destruct (subprocess_run_check E (transcode_command lip ltp) _) as [[[]|e] wb] eqn:Ht;
      apply (subprocess_run_check_outside _ _ _ _ _ q Htc) in Ht; cbn [fs] in Ht.
    2:{ intros H. injection H as _ <-. by rewrite Ht. }
    rewrite print_run, bind_unfold.
    unfold generate_thumbnails. cbv zeta. fold (thumbnail_command ltp out).
    rewrite bind_unfold, print_run, bind_unfold.
    destruct (subprocess_run_check E (thumbnail_command ltp out) _) as [[[]|e] wc] eqn:Hg;
      apply (subprocess_run_check_outside _ _ _ _ _ q Hth) in Hg; cbn [fs] in Hg.
    2:{ intros H. injection H as _ <-. by rewrite Hg, Ht. }
    rewrite bind_unfold, glob_run, bind_unfold, print_run. cbn [mret M_ret].
    rewrite bind_unfold. unfold analyze_thumbnails_ai.
    rewrite bind_unfold, print_run. cbn [mret M_ret]. intros H.
    apply publish_fs in H. cbn [fs] in H. by rewrite H, Hg, Ht. }
  unfold guarded_body, try_except.
  destruct (job_body E g job_id key lip tf ltp out w) as [[r0|e] wa] eqn:Hj;
    specialize (Hbody _ _ eq_refl).
  - intros H. injection H as _ <-. exact Hbody.
  - cbn [is_Exception]. rewrite job_failed_run. intros H. injection H as _ <-. exact Hbody.
Qed.

Lemma expand_entry name i :
  name ≠ "" → PyStr.contains "/" name = false →
  Ffmpeg.expand name i ≠ "" ∧ PyStr.contains "/" (Ffmpeg.expand name i) = false.
Proof.
  intros Hne Hs.
  assert (Hsep : ∀ pat, PyStr.contains "/" pat = false →
                        PyStr.contains "/" (Ffmpeg.expand pat i) = false).
  { clear. induction pat as [|c r IH]; intros Hs; [reflexivity|].
    cbn [Ffmpeg.expand].
    destruct (PyStr.startswith "%03d" (String c r)) eqn:Hp.
    - destruct (startswith_true_inv _ _ Hp) as (rest & Hrest). rewrite Hrest.
      assert (Hsl : PyStr.slice_from 4 ("%03d" +:+ rest) = rest)
        by apply (slice_from_append "%03d" rest).
      rewrite Hsl.
      rewrite Hrest, contains_append in Hs. apply orb_false_iff in Hs as [_ Hs].
      by rewrite contains_append, format_03d_no_sep, Hs.
    - cbn [PyStr.contains] in Hs |- *. apply orb_false_iff in Hs as [Hc Hs].
      by rewrite Hc, IH. }
  split; [|by apply Hsep].
  destruct name as [|c r]; [done|]. cbn [Ffmpeg.expand].
  destruct (PyStr.startswith "%03d" (String c r)); [|discriminate].
  intros H. destruct (PyStr.format_03d i) eqn:Hf; [by apply format_03d_nonempty in Hf|].
  discriminate H.
Qed.

Lemma outputs_inside command n o name p :
  last command = Some (o +:+ String "/" name) →
  PyStr.contains "%" o = false →
  name ≠ "" → PyStr.contains "/" name = false →
  p ∈ Ffmpeg.outputs command n → inside o p = true.
Proof.
  intros Hl Ho Hne Hs. unfold Ffmpeg.outputs. rewrite Hl.
  assert (Hin : ∀ m, m ≠ "" → PyStr.contains "/" m = false →
                     inside o (o +:+ String "/" m) = true).
  { intros m H1 H2. apply inside_true. right. exists m. by apply child_entry. }
  destruct (Ffmpeg.image_sequence _).
  - intros Hp. apply list_elem_of_fmap in Hp as (k & -> & _).
    rewrite (entry_assoc o name), expand_literal_prefix.
    2:{ rewrite contains_append, Ho. reflexivity. }
    rewrite <- (entry_assoc o).
    destruct (expand_entry name (N.of_nat k) Hne Hs) as (H1 & H2). by apply Hin.
  - destruct n; intros Hp; [by apply elem_of_nil in Hp|].
    apply list_elem_of_singleton in Hp as ->. by apply Hin.
Qed.

Lemma transcoded_name_entry n :
  PyStr.contains "/" n = false →
  (OsPath.splitext n).1 +:+ "_processed.mp4" ≠ "" ∧
  PyStr.contains "/" ((OsPath.splitext n).1 +:+ "_processed.mp4") = false.
Proof.
  intros Hs. destruct (splitext_spec n) as [Hn _].
  destruct (OsPath.splitext n) as [stem ext]. cbn [fst snd] in *. subst n.
  rewrite contains_append in Hs. apply orb_false_iff in Hs as [Hs _].
  split; [destruct stem; discriminate | by rewrite contains_append, Hs].
Qed.

Lemma makedirs_outside p w r w1 q :
  p ≠ q → Fs.makedirs p w = (r, w1) → fs w1 !! q = fs w !! q.
Proof.
  intros Hne. rewrite makedirs_run.
  destruct (fs w !! p) as [[]|]; intros H; injection H as _ <-; cbn [fs]; try reflexivity.
  by apply lookup_insert_ne.
Qed.

Lemma subscript_world v k w r w1 : subscript v k w = (r, w1) → w1 = w.
Proof.
  destruct v as [| | | | |d]; cbn; try (intros H; by injection H as _ <-).
  destruct (d !! k); intros H; by injection H as _ <-.
Qed.

Lemma job_steps_outside E g j v w q :
  PyStr.contains "%" j = false →
  inside (input_dir j) q = false → inside (output_dir j) q = false →
  fs ((Fs.makedirs (input_dir j) ;;
       Fs.makedirs (output_dir j) ;;
       key ← fspath v;
       try_finally
         (guarded_body E g j key
            (OsPath.join (input_dir j) (OsPath.basename key))
            ((OsPath.splitext (OsPath.basename key)).1 +:+ "_processed.mp4")
            (OsPath.join (output_dir j)
               ((OsPath.splitext (OsPath.basename key)).1 +:+ "_processed.mp4"))
            (output_dir j))
         (cleanup (input_dir j) (output_dir j))) w).2 !! q = fs w !! q.
Proof.
  intros Hj Hqi Hqo.
  destruct (scratch_dirs_normal j) as (Hi1 & Hi2 & Ho1 & Ho2).
  destruct (scratch_dirs_no_percent j Hj) as (_ & Hop).
  set (i := input_dir j) in *. set (o := output_dir j) in *.
  pose proof (proj1 (inside_false i q) Hqi) as [Hni _].
  pose proof (proj1 (inside_false o q) Hqo) as [Hno _].
  rewrite bind_unfold.
  destruct (Fs.makedirs i w) as [[[]|e1] wa] eqn:H1;
    apply (makedirs_outside _ _ _ _ q) in H1; try congruence; [|exact H1].
  rewrite bind_unfold.
  destruct (Fs.makedirs o wa) as [[[]|e2] wb] eqn:H2;
    apply (makedirs_outside _ _ _ _ q) in H2; try congruence; [|by rewrite <- H1].
  rewrite bind_unfold.
  destruct v as [| | |key| |]; cbn [fspath raise mret M_ret snd];
    try (by rewrite H2, H1).
  destruct (basename_spec key) as (Hs & _).
  destruct (transcoded_name_entry _ Hs) as (Ht1 & Ht2).
  set (n := OsPath.basename key) in *.
  set (tf := (OsPath.splitext n).1 +:+ "_processed.mp4") in *.
  assert (Hlip : OsPath.join i n = i +:+ String "/" n)
    by (apply join_entry; [exact Hi1 | exact Hi2 | by apply no_sep_not_absolute]).
  assert (Hltp : OsPath.join o tf = o +:+ String "/" tf)
    by (apply join_entry; [exact Ho1 | exact Ho2 | by apply no_sep_not_absolute]).
  assert (Hth : OsPath.join o "thumb_%03d.jpg" = o +:+ String "/" "thumb_%03d.jpg")
    by (apply join_entry; [exact Ho1 | exact Ho2 | reflexivity]).
  unfold try_finally.
  destruct (guarded_body E g j key (OsPath.join i n) tf (OsPath.join o tf) o wb)
    as [r wc] eqn:Hg.
  apply (guarded_body_outside _ _ _ _ _ _ _ _ _ _ _ q) in Hg.
  - destruct (cleanup i o wc) as [[[]|e] wd] eqn:Hcl;
      apply (cleanup_keeps_outside i o _ _ _ q Hi1 Hi2 Ho1 Ho2 Hqi Hqo) in Hcl;
      cbn [snd]; by rewrite Hcl, Hg, H2, H1.
  - intros f Hw. rewrite Hlip in Hw |- *.
    destruct (String.eqb_spec n "") as [Hn|Hn].
    + exfalso. unfold Fs.writable in Hw. rewrite (split_entry i Hi1 Hi2 n Hs), Hn in Hw.
      discriminate Hw.
    + intros <-. rewrite (proj2 (inside_true i (i +:+ String "/" n))) in Hqi; [discriminate|].
      right. exists n. by apply child_entry.
  - intros k Hp. apply (outputs_inside _ k o tf) in Hp; [congruence| |exact Hop|exact Ht1|exact Ht2].
    rewrite <- Hltp. reflexivity.
  - intros k Hp.
    apply (outputs_inside _ k o "thumb_%03d.jpg") in Hp; [congruence| |exact Hop|done|reflexivity].
    rewrite <- Hth. reflexivity.
Qed.

(** X19. A job never touches a path outside its own two scratch
    directories: whatever the job argument and the environment, and
    whether [handler] returns or raises, every path that is neither
    [/tmp/<job_id>_input] or [/tmp/<job_id>_output] nor an entry of one
    of them holds at the end what it held at the start. The download
    lands in the input directory, both [ffmpeg] runs write into the
    output directory, and the cleanup removes nothing else. *)
Theorem handler_confined_to_scratch E job w q :
  (∀ rnd, urandom16 E = Some rnd →
     inside (input_dir (job_id_of rnd)) q = false ∧
     inside (output_dir (job_id_of rnd)) q = false) →
  fs (handler E job w).2 !! q = fs w !! q.
Proof.
  intros Hq. unfold handler.
  destruct (misconfigured_total (environ E) w) as (b & Hb & _).
  rewrite (bind_Ok _ _ _ _ _ Hb). destruct b; [reflexivity|].
  rewrite bind_unfold.
  destruct (subscript job "input" w) as [[ji|e] w0] eqn:Hj;
    apply subscript_world in Hj as ->; [|reflexivity].
  unfold try_or_return.
  destruct (subscript ji "source_video_key" w) as [[v|e] w0] eqn:Hk;
    apply subscript_world in Hk as ->.
  2:{ destruct (is_KeyError e); reflexivity. }
  unfold run_job, Uuid.uuid4_str.
  destruct (urandom16 E) as [rnd|] eqn:Hr; [|reflexivity].
  rewrite bind_unfold. cbn [mret M_ret].
  destruct (Hq rnd eq_refl) as [Hqi Hqo].
  exact (job_steps_outside E _ (job_id_of rnd) v w q (job_id_no_percent rnd) Hqi Hqo).
Qed.

(** A run on ["videos/clip.mov"] in a temporary root that holds the
    files of other jobs. *)
Lemma handler_confined_to_scratch_witness :
  fs (handler (Sample.env Sample.env_vars 0 3) (Sample.job "videos/clip.mov")
        Sample.w_scratch).2 !! "/tmp/k_input/other.mov"
  = fs Sample.w_scratch !! "/tmp/k_input/other.mov".
Proof.
  apply (handler_confined_to_scratch (Sample.env Sample.env_vars 0 3)
           (Sample.job "videos/clip.mov") Sample.w_scratch "/tmp/k_input/other.mov").
  intros rnd Hr. injection Hr as <-. split; vm_compute; reflexivity.
Defined.

(** ** The catch-all boundary, from the first line of [handler] *)

Lemma fspath_refused v w :
  (∀ s, v ≠ PStr s) →
  fspath v w =
    (Raise (TypeError ("expected str, bytes or os.PathLike object, not " +:+ type_name v)), w).
Proof. intros Hv. destruct v; try reflexivity. by destruct (Hv s). Qed.

(** C2, as amended. With storage configured, for a job whose input
    mapping holds a string [source_video_key], once the job identifier is
    drawn and both scratch directories are created, the [try] statement
    is the one boundary of the job: an exception [e] raised anywhere in
    its suite is caught, printed and converted to the error response
    [{"error": str(e)}]; a suite that completes returns its success
    response; so the guarded suite never raises and yields exactly one
    response, of the success or of the error shape. [handler] returns
    this response when the cleanup step completes, and when the cleanup
    step raises, its exception leaves [handler] in place of the response.
    What fails before the [try] statement is not caught and reaches the
    hosting framework: a job mapping without ['input'] ([KeyError]), a
    system without a randomness source, [os.makedirs] on either scratch
    directory, and a [source_video_key] that is not a string
    ([TypeError] from [os.path.basename], after both directories were
    made). *)
Theorem handler_single_boundary E w :
  configured (environ E) →
  (∀ d job_input key rnd w1,
     d !! "input" = Some (PDict job_input) →
     job_input !! "source_video_key" = Some (PStr key) →
     urandom16 E = Some rnd →
     (Fs.makedirs (input_dir (job_id_of rnd)) ;;
      Fs.makedirs (output_dir (job_id_of rnd))) w = (Ok tt, w1) →
     let g := (module_init (environ E)).1 in
     let job_id := job_id_of rnd in
     let lip := OsPath.join (input_dir job_id) (OsPath.basename key) in
     let tf := (OsPath.splitext (OsPath.basename key)).1 +:+ "_processed.mp4" in
     let ltp := OsPath.join (output_dir job_id) tf in
     (∀ e w2,
        job_body E g job_id key lip tf ltp (output_dir job_id) w1 = (Raise e, w2) →
        guarded_body E g job_id key lip tf ltp (output_dir job_id) w1 =
          (Ok (error_response (str_exn E e)),
           World (fs w2) (stdout w2 ++ ["Job failed: " +:+ str_exn E e]) (calls w2))) ∧
     (∀ r w2,
        job_body E g job_id key lip tf ltp (output_dir job_id) w1 = (Ok r, w2) →
        guarded_body E g job_id key lip tf ltp (output_dir job_id) w1 = (Ok r, w2) ∧
        success_shape r) ∧
     ∃ r w2,
       guarded_body E g job_id key lip tf ltp (output_dir job_id) w1 = (Ok r, w2) ∧
       (success_shape r ∨ error_shape r) ∧
       (∀ w3,
          cleanup (input_dir job_id) (output_dir job_id) w2 = (Ok tt, w3) →
          handler E (PDict d) w = (Ok r, w3)) ∧
       (∀ e w3,
          cleanup (input_dir job_id) (output_dir job_id) w2 = (Raise e, w3) →
          handler E (PDict d) w = (Raise e, w3))) ∧
  (∀ d, d !! "input" = None →
     handler E (PDict d) w = (Raise (KeyError "input"), w)) ∧
  (∀ d job_input v,
     d !! "input" = Some (PDict job_input) →
     job_input !! "source_video_key" = Some v →
     urandom16 E = None →
     handler E (PDict d) w = (Raise RandomSourceError, w)) ∧
  (∀ d job_input v rnd e w1,
     d !! "input" = Some (PDict job_input) →
     job_input !! "source_video_key" = Some v →
     urandom16 E = Some rnd →
     (Fs.makedirs (input_dir (job_id_of rnd)) ;;
      Fs.makedirs (output_dir (job_id_of rnd))) w = (Raise e, w1) →
     handler E (PDict d) w = (Raise e, w1)) ∧
  (∀ d job_input v rnd w1,
     d !! "input" = Some (PDict job_input) →
     job_input !! "source_video_key" = Some v →
     (∀ s, v ≠ PStr s) →
     urandom16 E = Some rnd →
     (Fs.makedirs (input_dir (job_id_of rnd)) ;;
      Fs.makedirs (output_dir (job_id_of rnd))) w = (Ok tt, w1) →
     handler E (PDict d) w =
       (Raise (TypeError ("expected str, bytes or os.PathLike object, not " +:+ type_name v)),
        w1)).
Proof.
  intros Hc. split; [|split; [|split; [|split]]].
  - intros d ji key rnd w1 Hd Hk Hr Hmk g job_id lip tf ltp.
    split; [|split].
    + intros e w2 Hb. unfold guarded_body, try_except. rewrite Hb.
      cbn [is_Exception]. apply job_failed_run.
    + intros r w2 Hb. split.
      * unfold guarded_body, try_except. rewrite Hb. reflexivity.
      * eapply job_body_Ok_success, Hb.
    + destruct (guarded_body_total E g job_id key lip tf ltp (output_dir job_id) w1)
        as (r & w2 & Hg & Hshape).
      exists r, w2. split; [exact Hg|]. split; [exact Hshape|].
      assert (Hrun : handler E (PDict d) w =
                try_finally (guarded_body E g job_id key lip tf ltp (output_dir job_id))
                  (cleanup (input_dir job_id) (output_dir job_id)) w1).
      { rewrite (handler_with_key E d ji (PStr key) w Hc Hd Hk).
        rewrite (run_job_unfold E _ _ w rnd Hr).
        rewrite bind_unfold in Hmk. rewrite bind_unfold.
        destruct (Fs.makedirs (input_dir (job_id_of rnd)) w) as [[[]|e1] wa]; [|discriminate].
        rewrite bind_unfold, Hmk. cbn [fspath]. rewrite bind_unfold. reflexivity. }
      split.
      * intros w3 Hcl. rewrite Hrun. unfold try_finally. rewrite Hg, Hcl. reflexivity.
      * intros e w3 Hcl. rewrite Hrun. unfold try_finally. rewrite Hg, Hcl. reflexivity.
  - intros d Hd. rewrite (handler_configured E (PDict d) w Hc).
    unfold subscript. rewrite bind_unfold, Hd. reflexivity.
  - intros d ji v Hd Hk Hr. rewrite (handler_with_key E d ji v w Hc Hd Hk).
    unfold run_job, Uuid.uuid4_str. rewrite Hr. reflexivity.
  - intros d ji v rnd e w1 Hd Hk Hr Hmk. rewrite (handler_with_key E d ji v w Hc Hd Hk).
    rewrite (run_job_unfold E _ v w rnd Hr).
    rewrite bind_unfold in Hmk. rewrite bind_unfold.
    destruct (Fs.makedirs (input_dir (job_id_of rnd)) w) as [[[]|e1] wa].
    + rewrite bind_unfold, Hmk. reflexivity.
    + injection Hmk as -> ->. reflexivity.
  - intros d ji v rnd w1 Hd Hk Hv Hr Hmk. rewrite (handler_with_key E d ji v w Hc Hd Hk).
    rewrite (run_job_unfold E _ v w rnd Hr).
    rewrite bind_unfold in Hmk. rewrite bind_unfold.
    destruct (Fs.makedirs (input_dir (job_id_of rnd)) w) as [[[]|e1] wa]; [|discriminate].
    rewrite bind_unfold, Hmk, bind_unfold, (fspath_refused v w1 Hv). reflexivity.
Qed.

(** The run on ["videos/clip.mov"]: the response of the guarded suite is
    the response of [handler]. The same job with a transcode run that
    exits with status 1: the [CalledProcessError] of the suite becomes
    the error response. The sample job without [input], and the job
    whose key is JSON [null]: the exception leaves [handler]. *)
Lemma handler_single_boundary_witness :
  (let body := Sample.guarded 0 "videos/clip.mov" (Sample.scratch Sample.w0).2 in
   (success_shape (Sample.response_of body) ∨ error_shape (Sample.response_of body)) ∧
   handler (Sample.env Sample.env_vars 0 3) (Sample.job "videos/clip.mov") Sample.w0
     = (Ok (Sample.response_of body), (Sample.cleaned body.2).2)) ∧
  (Sample.guarded 1 "videos/clip.mov" (Sample.scratch Sample.w0).2).1 =
    Ok (error_response
          (Sample.str (CalledProcessError 1
             (transcode_command
                (OsPath.join (input_dir (job_id_of Sample.random)) "clip.mov")
                (OsPath.join (output_dir (job_id_of Sample.random)) "clip_processed.mp4"))))) ∧
  handler (Sample.env Sample.env_vars 0 3) Sample.job_without_input Sample.w0
    = (Raise (KeyError "input"), Sample.w0) ∧
  Sample.null_key_run =
    (Raise (TypeError "expected str, bytes or os.PathLike object, not NoneType"),
     (Sample.scratch Sample.w0).2).
Proof.
  cbv zeta.
  pose proof (handler_single_boundary (Sample.env Sample.env_vars 0 3) Sample.w0
                sample_configured) as (Hbody & Hinput & _ & _ & Hkey).
  pose proof (handler_single_boundary (Sample.env Sample.env_vars 1 3) Sample.w0
                sample_configured) as (Hfail & _).
  split; [|split; [|split]].
  - destruct (Hbody (Sample.job_dict (PStr "videos/clip.mov"))
        (Sample.input_with (PStr "videos/clip.mov")) "videos/clip.mov" Sample.random
        (Sample.scratch Sample.w0).2 (sample_job_input _) (sample_input_key _) eq_refl
        (run_split (Sample.scratch Sample.w0) (Ok tt) eq_refl))
      as (_ & _ & r & w2 & Hg & Hshape & Hret & _).
    assert (Hv : Sample.guarded 0 "videos/clip.mov" (Sample.scratch Sample.w0).2 =
                 (Ok (Sample.response_of (Sample.guarded 0 "videos/clip.mov" (Sample.scratch Sample.w0).2)),
                  (Sample.guarded 0 "videos/clip.mov" (Sample.scratch Sample.w0).2).2))
      by (apply run_returned; vm_compute; reflexivity).
    change (Sample.guarded 0 "videos/clip.mov" (Sample.scratch Sample.w0).2 = (Ok r, w2)) in Hg.
    rewrite Hv in Hg. apply pair_Ok_inj in Hg as [<- <-].
    split; [exact Hshape|].
    apply Hret.
    apply (run_split (Sample.cleaned (Sample.guarded 0 "videos/clip.mov" (Sample.scratch Sample.w0).2).2)).
    vm_compute. reflexivity.
  - destruct (Hfail (Sample.job_dict (PStr "videos/clip.mov"))
        (Sample.input_with (PStr "videos/clip.mov")) "videos/clip.mov" Sample.random
        (Sample.scratch Sample.w0).2 (sample_job_input _) (sample_input_key _) eq_refl
        (run_split (Sample.scratch Sample.w0) (Ok tt) eq_refl))
      as (Hcatch & _).
    cbv zeta in Hcatch.
    set (body := job_body (Sample.env Sample.env_vars 1 3)
                   (module_init (environ (Sample.env Sample.env_vars 1 3))).1
                   (job_id_of Sample.random) "videos/clip.mov"
                   (OsPath.join (input_dir (job_id_of Sample.random))
                      (OsPath.basename "videos/clip.mov"))
                   ((OsPath.splitext (OsPath.basename "videos/clip.mov")).1 +:+ "_processed.mp4")
                   (OsPath.join (output_dir (job_id_of Sample.random))
                      ((OsPath.splitext (OsPath.basename "videos/clip.mov")).1
                         +:+ "_processed.mp4"))
                   (output_dir (job_id_of Sample.random)) (Sample.scratch Sample.w0).2) in *.
    assert (Hb : body =
                 (Raise (CalledProcessError 1
                    (transcode_command
                       (OsPath.join (input_dir (job_id_of Sample.random)) "clip.mov")
                       (OsPath.join (output_dir (job_id_of Sample.random)) "clip_processed.mp4"))),
                  body.2))
      by (apply run_split; vm_compute; reflexivity).
    pose proof (Hcatch _ _ Hb) as Hg.
    unfold Sample.guarded.
    change (module_init Sample.env_vars)
      with (module_init (environ (Sample.env Sample.env_vars 1 3))).
    fold body. rewrite Hg. reflexivity.
  - apply (Hinput Sample.dict_without_input). reflexivity.
  - apply (Hkey (Sample.job_dict PNone) (Sample.input_with PNone) PNone Sample.random
             (Sample.scratch Sample.w0).2 (sample_job_input _) (sample_input_key _)).
    + intros s. discriminate.
    + reflexivity.
    + apply (run_split (Sample.scratch Sample.w0)). reflexivity.
Defined.

(** The claim of C2 fails in two ways. A [source_video_key] that is not a
    string (here JSON [null]) makes [os.path.basename] raise [TypeError]
    after the directories are made and before the [try] statement is
    entered, so the exception leaves [handler]. And when the cleanup step
    raises (here [os.rmdir] on a directory that still holds a file the
    pattern [*] did not match), its exception leaves [handler] in place of
    the response that was about to be returned, here a success
    response. *)
Lemma handler_unhandled_faults :
  Sample.null_key_run.1 =
    Raise (TypeError "expected str, bytes or os.PathLike object, not NoneType") ∧
  calls Sample.null_key_run.2 =
    [ Makedirs (input_dir Sample.job_id); Makedirs (output_dir Sample.job_id) ] ∧
  (Sample.hidden_run 0).1 = Raise (OSError ENOTEMPTY (input_dir Sample.job_id)) ∧
  field (Sample.response_of (Sample.guarded 0 "videos/.clip.mov" (Sample.scratch Sample.w0).2))
    "status" = Some (PStr "success") ∧
  (∀ r w, Sample.null_key_run ≠ (Ok r, w)) ∧
  (∀ r w, Sample.hidden_run 0 ≠ (Ok r, w)).
Proof.
  assert (H1 : Sample.null_key_run.1 =
               Raise (TypeError "expected str, bytes or os.PathLike object, not NoneType"))
    by (vm_compute; reflexivity).
  assert (H2 : (Sample.hidden_run 0).1 = Raise (OSError ENOTEMPTY (input_dir Sample.job_id)))
    by (vm_compute; reflexivity).
  split; [exact H1|]. split; [vm_compute; reflexivity|]. split; [exact H2|].
  split; [vm_compute; reflexivity|]. split.
  - intros r w Heq. rewrite Heq in H1. discriminate H1.
  - intros r w Heq. rewrite Heq in H2. discriminate H2.
Qed.

(** ** The publish stage inside a run *)

Lemma bind_assoc {A B C} (m : M A) (f : A → M B) (h : B → M C) w :
  ((m ≫= f) ≫= h) w = (m ≫= λ a, f a ≫= h) w.
Proof. rewrite !bind_unfold. destruct (m w) as [[a|e] w1]; reflexivity. Qed.

Lemma bind_ext {A B} (m : M A) (f f' : A → M B) w :
  (∀ a w1, f a w1 = f' a w1) → (m ≫= f) w = (m ≫= f') w.
Proof. intros H. rewrite !bind_unfold. destruct (m w) as [[a|e] w1]; [apply H | reflexivity]. Qed.

(** The suite of the [try] statement is its first steps followed by the
    thumbnail, analysis and publish stages. *)
Lemma job_body_stages E g job_id key lip tf ltp out w :
  job_body E g job_id key lip tf ltp out w =
    (bucket ← download_and_transcode E g key lip ltp;
     thumbnail_paths ← generate_thumbnails E ltp out;
     ai_results ← analyze_thumbnails_ai thumbnail_paths;
     publish E bucket job_id tf ltp thumbnail_paths ai_results) w.
Proof.
  unfold job_body, download_and_transcode. symmetry.
  rewrite bind_assoc. apply bind_ext. intros bucket w1.
  rewrite bind_assoc. apply bind_ext. intros _ w2.
  rewrite bind_assoc. apply bind_ext. intros _ w3.
  rewrite bind_assoc. apply bind_ext. intros _ w4.
  rewrite bind_assoc. apply bind_ext. intros _ w5.
  rewrite bind_assoc. apply bind_ext. intros _ w6.
  reflexivity.
Qed.

(** A run that returns a success response, stage by stage from the
    world it started in. *)
Lemma handler_success_stages E d job_input key w r w' :
  d !! "input" = Some (PDict job_input) →
  job_input !! "source_video_key" = Some (PStr key) →
  handler E (PDict d) w = (Ok r, w') →
  field r "status" = Some (PStr "success") →
  ∃ rnd bucket w0 w1 paths w2 w3 w4,
    urandom16 E = Some rnd ∧
    let job_id := job_id_of rnd in
    let lip := OsPath.join (input_dir job_id) (OsPath.basename key) in
    let tf := (OsPath.splitext (OsPath.basename key)).1 +:+ "_processed.mp4" in
    let ltp := OsPath.join (output_dir job_id) tf in
    (Fs.makedirs (input_dir job_id) ;; Fs.makedirs (output_dir job_id)) w = (Ok tt, w0) ∧
    download_and_transcode E (module_init (environ E)).1 key lip ltp w0 = (Ok bucket, w1) ∧
    generate_thumbnails E ltp (output_dir job_id) w1 = (Ok paths, w2) ∧
    analyze_thumbnails_ai paths w2 = (Ok ai_metadata, w3) ∧
    publish E bucket job_id tf ltp paths ai_metadata w3 = (Ok r, w4) ∧
    cleanup (input_dir job_id) (output_dir job_id) w4 = (Ok tt, w').
Proof.
  unfold handler. intros Hd Hk H Hs.
  apply bind_Ok_inv in H as (bad & wm & Hm & H). destruct bad.
  { injection H as <- _. discriminate Hs. }
  assert (Hwm : wm = w).
  { unfold misconfigured in Hm. destruct (negb _); [discriminate Hm|].
    destruct (s3 _); [|discriminate Hm]. injection Hm as <-. reflexivity. }
  subst wm.
  apply bind_Ok_inv in H as (x & wx & Hx & H).
  cbn in Hx. rewrite Hd in Hx. injection Hx as <- <-.
  unfold try_or_return in H. cbn in H. rewrite Hk in H. cbn in H.
  unfold run_job, Uuid.uuid4_str in H.
  destruct (urandom16 E) as [rnd|] eqn:Hr; [|discriminate].
  rewrite bind_unfold in H. cbn [mret M_ret] in H.
  apply bind_Ok_inv in H as ([] & wa & Hmi & H).
  apply bind_Ok_inv in H as ([] & wb & Hmo & H).
  apply bind_Ok_inv in H as (key0 & wk & Hf & H).
  injection Hf as <- <-.
  apply try_finally_Ok_inv in H as (w4 & Hb & Hc).
  apply try_except_Ok_inv in Hb as [Hb | (e & we & _ & _ & Hb)].
  2:{ rewrite job_failed_run in Hb. injection Hb as <- _. discriminate Hs. }
  rewrite job_body_stages in Hb.
  apply bind_Ok_inv in Hb as (bucket & w1 & Hdt & Hb).
  apply bind_Ok_inv in Hb as (paths & w2 & Hg & Hb).
  apply bind_Ok_inv in Hb as (ai & w3 & Ha & Hb).
  assert (Hai : ai = ai_metadata) by (injection Ha as <- _; reflexivity). subst ai.
  exists rnd, bucket, wb, w1, paths, w2, w3, w4.
  split; [reflexivity|]. cbv zeta.
  split; [unfold input_dir, output_dir, job_id_of; rewrite bind_unfold, Hmi; exact Hmo|].
  split; [exact Hdt|]. split; [exact Hg|]. split; [exact Ha|].
  split; [exact Hb | exact Hc].
Qed.

(** *** The stages on a clip too short for a thumbnail *)

Lemma outputs_video command a n :
  last command = Some (a +:+ "_processed.mp4") →
  Ffmpeg.outputs command (S n) = [a +:+ "_processed.mp4"].
Proof.
  intros Hl. unfold Ffmpeg.outputs. rewrite Hl, image_sequence_video. reflexivity.
Qed.

Lemma download_and_transcode_ok E g key lip ltp w bucket client n :
  S3_BUCKET_NAME g = Some bucket → s3 g = Some client →
  download_result E bucket key lip = None →
  Fs.writable lip (fs w) = None →
  ffmpeg_result E (transcode_command lip ltp) = Some (0, n) →
  ∃ w1,
    download_and_transcode E g key lip ltp w = (Ok bucket, w1) ∧
    fs w1 = foldl (λ f p, Fs.write_file p f) (<[lip := File]> (fs w))
              (Ffmpeg.outputs (transcode_command lip ltp) n).
Proof.
  intros Hb Hc Hd Hw Hf.
  unfold download_and_transcode. rewrite Hb, Hc.
  cbn [global]. rewrite bind_unfold. cbn [mret M_ret].
  rewrite bind_unfold, print_run, bind_unfold. cbn [mret M_ret].
  rewrite bind_unfold, s3_download_file_ok by assumption.
  rewrite bind_unfold, print_run.
  unfold transcode_to_mp4. cbv zeta. fold (transcode_command lip ltp).
  rewrite bind_unfold, bind_unfold, print_run, bind_unfold.
  rewrite (subprocess_run_check_ok E _ n) by assumption.
  rewrite print_run. cbn [mret M_ret fs stdout calls].
  eexists. split; reflexivity.
Qed.

Lemma matches_no_thumbnails o f :
  o ≠ "" → PyStr.endswith_sep o = false →
  (∀ n x, n ≠ "" → PyStr.contains "/" n = false →
     f !! (o +:+ String "/" n) = Some x → Fnmatch.fnmatch "thumb_*.jpg" n = false) →
  Fs.matches (OsPath.join o "thumb_*.jpg") f = [].
Proof.
  intros H1 H2 Hnone. rewrite (matches_thumbnails o H1 H2).
  destruct (filter _ (filter _ (Fs.listdir o f))) as [|n l] eqn:Hl; [reflexivity|].
  exfalso.
  assert (Hn : n ∈ filter (λ n, Fnmatch.fnmatch "thumb_*.jpg" n = true)
                 (filter (λ n, Fnmatch.ishidden n = false) (Fs.listdir o f)))
    by (rewrite Hl; left).
  apply list_elem_of_filter in Hn as [Hm Hn].
  apply list_elem_of_filter in Hn as [_ Hn].
  apply listdir_elem in Hn as (_ & x & Hx & Hne & Hsep).
  rewrite (Hnone n x Hne Hsep Hx) in Hm. discriminate Hm.
Qed.

Lemma generate_thumbnails_none E ltp o w :
  o ≠ "" → PyStr.endswith_sep o = false →
  ffmpeg_result E (thumbnail_command ltp o) = Some (0, 0%nat) →
  (∀ n x, n ≠ "" → PyStr.contains "/" n = false →
     fs w !! (o +:+ String "/" n) = Some x → Fnmatch.fnmatch "thumb_*.jpg" n = false) →
  ∃ w2, generate_thumbnails E ltp o w = (Ok [], w2) ∧ fs w2 = fs w.
Proof.
  intros H1 H2 Hf Hnone.
  unfold generate_thumbnails. cbv zeta. fold (thumbnail_command ltp o).
  rewrite bind_unfold, print_run, bind_unfold.
  rewrite (subprocess_run_check_ok E _ 0%nat) by exact Hf.
  assert (Hout : Ffmpeg.outputs (thumbnail_command ltp o) 0 = []).
  { unfold Ffmpeg.outputs, thumbnail_command. cbn [last].
    destruct (Ffmpeg.image_sequence _); reflexivity. }
  rewrite Hout. cbn [foldl fs stdout calls].
  rewrite bind_unfold, glob_run. cbn [fs].
  rewrite (matches_no_thumbnails o (fs w) H1 H2 Hnone).
  rewrite bind_unfold, print_run. cbn [mret M_ret].
  eexists. split; reflexivity.
Qed.

Lemma publish_empty E bucket job_id tf ltp ai w :
  fs w !! ltp = Some File →
  upload_result E ltp bucket ("processed/" +:+ job_id +:+ "/" +:+ tf) = None →
  ∃ w',
    publish E bucket job_id tf ltp [] ai w =
      (Ok (success_response ("processed/" +:+ job_id +:+ "/" +:+ tf) [] ai
             (default "https://YOUR-PUBLIC-URL.dev" (environ E !! "CLOUDFLARE_R2_PUBLIC_URL")
                +:+ "/processed/" +:+ job_id)), w') ∧
    fs w' = fs w.
Proof.
  intros Hf Hu. unfold publish.
  rewrite bind_unfold, print_run, bind_unfold, s3_upload_file_run.
  cbv zeta. change (fs (World (fs w) _ _)) with (fs w). rewrite Hf.
  assert (Hu' : upload_result E ltp bucket (("processed/" +:+ job_id) +:+ "/" +:+ tf) = None)
    by exact Hu.
  rewrite Hu'. eexists. split; reflexivity.
Qed.

Lemma fnmatch_transcoded_name stem :
  Fnmatch.fnmatch "thumb_*.jpg" (stem +:+ "_processed.mp4") = false.
Proof.
  destruct (Fnmatch.fnmatch "thumb_*.jpg" (stem +:+ "_processed.mp4")) eqn:Hm; [|reflexivity].
  apply fnmatch_thumbnail_iff in Hm as (m & Hm).
  exfalso. exact (thumbnail_name_not_transcoded m stem (eq_sym Hm)).
Qed.

(** A clip too short for a thumbnail, with a visible source name and
    vacant scratch paths: the whole run. *)
Lemma zero_thumbnails_run E g j key bucket client n w :
  S3_BUCKET_NAME g = Some bucket → s3 g = Some client →
  PyStr.contains "%" j = false →
  OsPath.basename key ≠ "" →
  Fnmatch.ishidden (OsPath.basename key) = false →
  vacant (input_dir j) (fs w) → vacant (output_dir j) (fs w) →
  let lip := OsPath.join (input_dir j) (OsPath.basename key) in
  let tf := (OsPath.splitext (OsPath.basename key)).1 +:+ "_processed.mp4" in
  let ltp := OsPath.join (output_dir j) tf in
  download_result E bucket key lip = None →
  ffmpeg_result E (transcode_command lip ltp) = Some (0, S n) →
  ffmpeg_result E (thumbnail_command ltp (output_dir j)) = Some (0, 0%nat) →
  upload_result E ltp bucket ("processed/" +:+ j +:+ "/" +:+ tf) = None →
  ∃ w',
    (Fs.makedirs (input_dir j) ;;
     Fs.makedirs (output_dir j) ;;
     key0 ← fspath (PStr key);
     try_finally
       (guarded_body E g j key0
          (OsPath.join (input_dir j) (OsPath.basename key0))
          ((OsPath.splitext (OsPath.basename key0)).1 +:+ "_processed.mp4")
          (OsPath.join (output_dir j)
             ((OsPath.splitext (OsPath.basename key0)).1 +:+ "_processed.mp4"))
          (output_dir j))
       (cleanup (input_dir j) (output_dir j))) w
    = (Ok (success_response ("processed/" +:+ j +:+ "/" +:+ tf) [] ai_metadata
             (default "https://YOUR-PUBLIC-URL.dev" (environ E !! "CLOUDFLARE_R2_PUBLIC_URL")
                +:+ "/processed/" +:+ j)), w') ∧
    fs w' = fs w.
Proof.
  intros Hb Hc Hj Hn Hv Hvi Hvo lip tf ltp Hdl Hf1 Hf2 Hu.
  destruct (visible_source_stages E g j key w Hj Hv Hvi Hvo)
    as (w1 & _ & (Hdi & Hdo & Hsame) & Hw & Hrest).
  specialize (Hw Hn).
  destruct (scratch_dirs_normal j) as (Hi1 & Hi2 & Ho1 & Ho2).
  destruct (scratch_dirs_apart j) as (Hio & Hoi).
  pose proof (entries_apart j) as Hap.
  destruct (basename_spec key) as (Hs & _).
  destruct (transcoded_name_visible _ Hs Hv) as (Ht1 & Ht2 & Ht3).
  fold tf in Ht1, Ht2, Ht3.
  set (i := input_dir j) in *. set (o := output_dir j) in *.
  set (name := OsPath.basename key) in *.
  assert (Hlip : lip = i +:+ String "/" name)
    by (apply join_entry; [exact Hi1 | exact Hi2 | by apply no_sep_not_absolute]).
  assert (Hltp : ltp = o +:+ String "/" tf)
    by (apply join_entry; [exact Ho1 | exact Ho2 | by apply no_sep_not_absolute]).
  assert (Hin_o : ∀ m, m ≠ "" → PyStr.contains "/" m = false →
                       inside o (o +:+ String "/" m) = true).
  { intros m Hm1 Hm2. apply inside_true. right. exists m. by apply child_entry. }
  assert (Hfree : ∀ m, m ≠ "" → PyStr.contains "/" m = false →
                       fs w1 !! (o +:+ String "/" m) = None).
  { intros m Hm1 Hm2. rewrite Hsame.
    - apply Hvo, Hin_o; assumption.
    - intros Heq. pose proof (Hin_o m Hm1 Hm2) as Hin. rewrite Heq in Hin. congruence.
    - apply entry_ne_dir. }
  assert (Hlip_o : lip ≠ o).
  { rewrite Hlip. intros Heq.
    assert (Hin : inside i (i +:+ String "/" name) = true).
    { apply inside_true. right. exists name. by apply child_entry. }
    rewrite Heq in Hin. congruence. }
  assert (Hwr : Fs.writable ltp (<[lip := File]> (fs w1)) = None).
  { rewrite Hltp. apply writable_fresh_entry; try assumption.
    - intros Heq. rewrite Heq in Ht3. discriminate Ht3.
    - intros Heq. rewrite Heq in Ht3. discriminate Ht3.
    - rewrite lookup_insert_ne by exact Hlip_o. exact Hdo.
    - rewrite lookup_insert_ne by (rewrite Hlip; apply Hap).
      rewrite (Hfree tf Ht1 Ht2). discriminate. }
  assert (Hg : ∃ w2,
    guarded_body E g j key lip tf ltp o w1 =
      (Ok (success_response ("processed/" +:+ j +:+ "/" +:+ tf) [] ai_metadata
             (default "https://YOUR-PUBLIC-URL.dev" (environ E !! "CLOUDFLARE_R2_PUBLIC_URL")
                +:+ "/processed/" +:+ j)), w2)).
  { unfold guarded_body, try_except. rewrite job_body_stages.
    destruct (download_and_transcode_ok E g key lip ltp w1 bucket client (S n)
                Hb Hc Hdl Hw Hf1) as (wa & Hdt & Hfa).
    rewrite bind_unfold, Hdt.
    assert (Hout : Ffmpeg.outputs (transcode_command lip ltp) (S n) = [ltp]).
    { rewrite Hltp. unfold tf.
      replace (o +:+ String "/" ((OsPath.splitext name).1 +:+ "_processed.mp4"))
        with ((o +:+ String "/" (OsPath.splitext name).1) +:+ "_processed.mp4")
        by (rewrite <- append_assoc; reflexivity).
      apply outputs_video. reflexivity. }
    rewrite Hout in Hfa. cbn [foldl] in Hfa. unfold Fs.write_file in Hfa.
    rewrite Hwr in Hfa.
    destruct (generate_thumbnails_none E ltp o wa Ho1 Ho2 Hf2) as (wb & Hgt & Hfb).
    { intros m x Hm1 Hm2 Hx. rewrite Hfa in Hx.
      destruct (decide (ltp = o +:+ String "/" m)) as [Heq|Hne].
      - rewrite Hltp in Heq. apply entry_inj in Heq. subst m.
        apply fnmatch_transcoded_name.
      - rewrite lookup_insert_ne in Hx by exact Hne.
        rewrite lookup_insert_ne in Hx by (rewrite Hlip; apply Hap).
        rewrite (Hfree m Hm1 Hm2) in Hx. discriminate Hx. }
    rewrite bind_unfold, Hgt, bind_unfold.
    unfold analyze_thumbnails_ai. rewrite bind_unfold, print_run. cbn [mret M_ret].
    destruct (publish_empty E bucket j tf ltp ai_metadata
                (World (fs wb) (stdout wb ++ ["AI analysis placeholder: Not implemented yet."])
                   (calls wb))) as (wc & Hp & _).
    { cbn [fs]. rewrite Hfb, Hfa. apply lookup_insert_eq. }
    { exact Hu. }
    rewrite Hp. eexists. reflexivity. }
  destruct Hg as (w2 & Hg).
  destruct (Hrest _ w2 Hg) as (w3 & Hcl & Hfs & Hrun).
  exists w3. split; [exact Hrun | exact Hfs].
Qed.

(** C5, as amended. In every job that reaches the publish stage, the
    list [thumbnail_keys] of the response holds one key per member of the
    thumbnail set, in the same order, and the key of a thumbnail is
    [processed/<job_id>/thumbnails/<its file name>]; with an empty
    thumbnail set the publish stage uploads the transcoded file only
    and, when that upload succeeds, returns the success response with
    [thumbnail_keys = []]. In a run of [handler] that returns a success
    response, the thumbnail set is the list that [generate_thumbnails]
    returned in that very run, after the two [os.makedirs] and the
    download and transcode steps, and the response is the one the
    publish stage built from it. A clip too short for a thumbnail
    succeeds with [thumbnail_keys = []] when the rest of the job does:
    with a source file name that is not empty and does not start with a
    dot, scratch paths that are free at the start, a download and a
    transcode run that succeed, a thumbnail run that exits with 0
    without writing a frame, and an upload of the transcoded file that
    succeeds, [handler] returns the success response with the empty
    list, and the filesystem at the end is the filesystem at the
    start. *)
Theorem publish_thumbnail_keys E :
  (∀ bucket job_id transcoded_filename local_transcoded_path ai thumbnail_paths w r w',
     publish E bucket job_id transcoded_filename local_transcoded_path
       thumbnail_paths ai w = (Ok r, w') →
     ∃ keys,
       field r "thumbnail_keys" = Some (PList (PStr <$> keys)) ∧
       length keys = length thumbnail_paths ∧
       (∀ (i : nat) p, thumbnail_paths !! i = Some p →
          keys !! i = Some ("processed/" +:+ job_id +:+ "/thumbnails/" +:+ OsPath.basename p))) ∧
  (∀ bucket job_id transcoded_filename local_transcoded_path ai w,
     fs w !! local_transcoded_path = Some File →
     upload_result E local_transcoded_path bucket
       ("processed/" +:+ job_id +:+ "/" +:+ transcoded_filename) = None →
     ∃ r w',
       publish E bucket job_id transcoded_filename local_transcoded_path [] ai w = (Ok r, w') ∧
       success_shape r ∧
       field r "thumbnail_keys" = Some (PList [])) ∧
  (∀ d job_input key w r w',
     d !! "input" = Some (PDict job_input) →
     job_input !! "source_video_key" = Some (PStr key) →
     handler E (PDict d) w = (Ok r, w') →
     field r "status" = Some (PStr "success") →
     ∃ rnd bucket w0 w1 paths w2 w3 w4,
       urandom16 E = Some rnd ∧
       let job_id := job_id_of rnd in
       let lip := OsPath.join (input_dir job_id) (OsPath.basename key) in
       let tf := (OsPath.splitext (OsPath.basename key)).1 +:+ "_processed.mp4" in
       let ltp := OsPath.join (output_dir job_id) tf in
       (Fs.makedirs (input_dir job_id) ;; Fs.makedirs (output_dir job_id)) w = (Ok tt, w0) ∧
       download_and_transcode E (module_init (environ E)).1 key lip ltp w0 = (Ok bucket, w1) ∧
       generate_thumbnails E ltp (output_dir job_id) w1 = (Ok paths, w2) ∧
       analyze_thumbnails_ai paths w2 = (Ok ai_metadata, w3) ∧
       publish E bucket job_id tf ltp paths ai_metadata w3 = (Ok r, w4) ∧
       cleanup (input_dir job_id) (output_dir job_id) w4 = (Ok tt, w') ∧
       field r "thumbnail_keys" =
         Some (PList (PStr <$> (thumbnail_key job_id <$> paths)))) ∧
  (∀ d job_input key rnd bucket n w,
     configured (environ E) →
     d !! "input" = Some (PDict job_input) →
     job_input !! "source_video_key" = Some (PStr key) →
     urandom16 E = Some rnd →
     environ E !! "CLOUDFLARE_R2_BUCKET_NAME" = Some bucket →
     OsPath.basename key ≠ "" →
     Fnmatch.ishidden (OsPath.basename key) = false →
     vacant (input_dir (job_id_of rnd)) (fs w) →
     vacant (output_dir (job_id_of rnd)) (fs w) →
     let job_id := job_id_of rnd in
     let lip := OsPath.join (input_dir job_id) (OsPath.basename key) in
     let tf := (OsPath.splitext (OsPath.basename key)).1 +:+ "_processed.mp4" in
     let ltp := OsPath.join (output_dir job_id) tf in
     download_result E bucket key lip = None →
     ffmpeg_result E (transcode_command lip ltp) = Some (0, S n) →
     ffmpeg_result E (thumbnail_command ltp (output_dir job_id)) = Some (0, 0%nat) →
     upload_result E ltp bucket ("processed/" +:+ job_id +:+ "/" +:+ tf) = None →
     ∃ r w',
       handler E (PDict d) w = (Ok r, w') ∧
       r = success_response ("processed/" +:+ job_id +:+ "/" +:+ tf) [] ai_metadata
             (default "https://YOUR-PUBLIC-URL.dev" (environ E !! "CLOUDFLARE_R2_PUBLIC_URL")
                +:+ "/processed/" +:+ job_id) ∧
       field r "status" = Some (PStr "success") ∧
       field r "thumbnail_keys" = Some (PList []) ∧
       fs w' = fs w).
Proof.
  split; [|split; [|split]].
  - intros bucket job_id tf ltp ai paths w r w' H. apply publish_Ok_inv in H. subst r.
    exists (thumbnail_key job_id <$> paths). split; [reflexivity|]. split.
    + apply length_fmap.
    + intros i p Hi. rewrite list_lookup_fmap, Hi. reflexivity.
  - intros bucket job_id tf ltp ai w Hf Hu.
    destruct (publish_empty E bucket job_id tf ltp ai w Hf Hu) as (w' & Hp & _).
    eexists _, w'. split; [exact Hp|].
    split; [unfold success_shape; eauto 10 | reflexivity].
  - intros d ji key w r w' Hd Hk H Hs.
    destruct (handler_success_stages E d ji key w r w' Hd Hk H Hs)
      as (rnd & bucket & w0 & w1 & paths & w2 & w3 & w4 & Hr & Hrest).
    cbv zeta in Hrest. destruct Hrest as (Hmk & Hdt & Hg & Ha & Hp & Hc).
    exists rnd, bucket, w0, w1, paths, w2, w3, w4.
    split; [exact Hr|]. cbv zeta.
    split; [exact Hmk|]. split; [exact Hdt|]. split; [exact Hg|]. split; [exact Ha|].
    split; [exact Hp|]. split; [exact Hc|].
    apply publish_Ok_inv in Hp. subst r. reflexivity.
  - intros d ji key rnd bucket n w Hc Hd Hk Hr Hbk Hn Hv Hvi Hvo job_id lip tf ltp
      Hdl Hf1 Hf2 Hu.
    destruct (module_init_cases (environ E))
      as [(_ & _ & _ & [client Hs3] & Hb) | (pre & name & post & Hreq & _ & Hnone & _)].
    2:{ exfalso. destruct (Hc name) as [x Hx]; [|congruence].
        rewrite Hreq. apply elem_of_app. right. left. }
    rewrite Hbk in Hb.
    destruct (zero_thumbnails_run E (module_init (environ E)).1 (job_id_of rnd) key bucket
                client n w Hb Hs3 (job_id_no_percent rnd) Hn Hv Hvi Hvo Hdl Hf1 Hf2 Hu)
      as (w' & Hrun & Hfs).
    eexists _, w'. split; [|split; [reflexivity|]].
    + rewrite (handler_with_key E d ji (PStr key) w Hc Hd Hk).
      rewrite (run_job_unfold E _ _ w rnd Hr). exact Hrun.
    + split; [reflexivity|]. split; [reflexivity | exact Hfs].
Qed.

(** The publish stage on two thumbnails and on none; the run on
    ["videos/clip.mov"], whose response lists the keys of the thumbnails
    that the thumbnail stage returned; the same clip when it is too
    short for a thumbnail. *)
Lemma publish_thumbnail_keys_witness :
  (∃ keys,
     field (Sample.response_of Sample.published) "thumbnail_keys" = Some (PList (PStr <$> keys)) ∧
     length keys = 2%nat ∧
     keys !! 1%nat = Some "processed/j/thumbnails/thumb_002.jpg") ∧
  (∃ r w',
     publish (Sample.env Sample.env_vars 0 2) "media" "j" "clip_processed.mp4"
       "/tmp/j_output/clip_processed.mp4" [] ai_metadata Sample.w_output = (Ok r, w') ∧
     success_shape r ∧
     field r "thumbnail_keys" = Some (PList [])) ∧
  (∃ paths w1 w2,
     generate_thumbnails (Sample.env Sample.env_vars 0 3)
       (OsPath.join (output_dir (job_id_of Sample.random)) "clip_processed.mp4")
       (output_dir (job_id_of Sample.random)) w1 = (Ok paths, w2) ∧
     field (Sample.response_of Sample.clip_run) "thumbnail_keys" =
       Some (PList (PStr <$> (thumbnail_key (job_id_of Sample.random) <$> paths)))) ∧
  (∃ r w',
     Sample.short_clip_run = (Ok r, w') ∧
     field r "status" = Some (PStr "success") ∧
     field r "thumbnail_keys" = Some (PList []) ∧
     fs w' = ∅).
Proof.
  pose proof (publish_thumbnail_keys (Sample.env Sample.env_vars 0 2)) as (Hkeys & Hnone & _).
  pose proof (publish_thumbnail_keys (Sample.env Sample.env_vars 0 3)) as (_ & _ & Hrun & _).
  pose proof (publish_thumbnail_keys (Sample.env Sample.env_vars 0 0)) as (_ & _ & _ & Hshort).
  split; [|split; [|split]].
  - assert (H : Sample.published = (Ok (Sample.response_of Sample.published), Sample.published.2))
      by (apply run_returned; vm_compute; reflexivity).
    destruct (Hkeys "media" "j" "clip_processed.mp4" "/tmp/j_output/clip_processed.mp4"
                ai_metadata Sample.two_thumbnails Sample.w_output _ _ H)
      as (keys & Hf & Hl & Hk).
    exists keys. split; [exact Hf|]. split; [exact Hl|].
    exact (Hk 1%nat "/tmp/j_output/thumb_002.jpg" eq_refl).
  - exact (Hnone "media" "j" "clip_processed.mp4" "/tmp/j_output/clip_processed.mp4"
             ai_metadata Sample.w_output eq_refl eq_refl).
  - assert (Hs : field (Sample.response_of Sample.clip_run) "status" = Some (PStr "success"))
      by (vm_compute; reflexivity).
    destruct (Hrun (Sample.job_dict (PStr "videos/clip.mov"))
                (Sample.input_with (PStr "videos/clip.mov")) "videos/clip.mov" Sample.w0 _ _
                (sample_job_input _) (sample_input_key _) sample_clip_run Hs)
      as (rnd & bucket & w0 & w1 & paths & w2 & w3 & w4 & Hr & Hrest).
    cbv zeta in Hrest. destruct Hrest as (_ & _ & Hg & _ & _ & _ & Hf).
    injection Hr as <-.
    exists paths, w1, w2. split; [exact Hg | exact Hf].
  - destruct (Hshort (Sample.job_dict (PStr "videos/clip.mov"))
                (Sample.input_with (PStr "videos/clip.mov")) "videos/clip.mov"
                Sample.random "media" 0%nat Sample.w0
                sample_configured (sample_job_input _) (sample_input_key _) eq_refl)
      as (r & w' & Hrun' & _ & Hs & Hk & Hfs).
    + vm_compute. reflexivity.
    + vm_compute. discriminate.
    + vm_compute. reflexivity.
    + intros q _. apply lookup_empty.
    + intros q _. apply lookup_empty.
    + vm_compute. reflexivity.
    + vm_compute. reflexivity.
    + vm_compute. reflexivity.
    + vm_compute. reflexivity.
    + exists r, w'. split; [exact Hrun'|]. split; [exact Hs|]. split; [exact Hk | exact Hfs].
Defined.

(** The claim of C5 fails on "the job still succeeds": an empty
    thumbnail set does not fail a job, and it does not make one succeed
    either. With a storage service that refuses the upload of the
    transcoded file, the run on a clip too short for a thumbnail reaches
    the publish stage with an empty thumbnail set and is answered with
    the error response. And on such a clip whose file name starts with a
    dot, the publish stage returns the success response with
    [thumbnail_keys = []], after which the cleanup step raises and
    [handler] returns no response at all. *)
Lemma empty_thumbnail_set_job_fails :
  (Sample.refused_run.1 =
     Ok (error_response "An error occurred (503) when calling the PutObject operation") ∧
   "Generated 0 thumbnails." ∈ stdout Sample.refused_run.2 ∧
   filter (λ c, is_upload c = true) (calls Sample.refused_run.2) =
     [ Upload (OsPath.join (output_dir Sample.job_id) "clip_processed.mp4") "media"
         ("processed/" +:+ Sample.job_id +:+ "/clip_processed.mp4") ]) ∧
  (field (Sample.response_of Sample.short_hidden_guarded) "status" = Some (PStr "success") ∧
   field (Sample.response_of Sample.short_hidden_guarded) "thumbnail_keys" = Some (PList []) ∧
   Sample.short_hidden_run.1 = Raise (OSError ENOTEMPTY (input_dir Sample.job_id)) ∧
   ∀ r w, Sample.short_hidden_run ≠ (Ok r, w)).
Proof.
  split; [split; [|split]|split; [|split; [|split]]].
  - vm_compute. reflexivity.
  - apply list_elem_of_In. vm_compute. tauto.
  - vm_compute. reflexivity.
  - vm_compute. reflexivity.
  - vm_compute. reflexivity.
  - vm_compute. reflexivity.
  - intros r w Heq.
    assert (H : Sample.short_hidden_run.1 = Raise (OSError ENOTEMPTY (input_dir Sample.job_id)))
      by (vm_compute; reflexivity).
    rewrite Heq in H. discriminate H.
Qed.
